(** * ezomero: the pixel-region extraction of [get_image]

    A shallow embedding of [get_image] (src/ezomero/_gets.py, lines 28-327):
    the validation of the arguments, the choice between the full-resolution
    branch and the pyramid-level branch, the bounds check with optional
    padding, the plane and tile reads, the assembly of the TZYXC buffer and
    the final reordering of the axes.

    Python integers are [Z].  Python exceptions are values of [exn].  Calls
    to the OMERO client, [np.zeros] and [logging.warning] are recorded in a
    trace of [event]s, so that "before any read", "after the allocation" and
    "the store is closed" are statements about the trace of a call.

    [np.zeros] comes twice.  [get_image] is the function on a machine that
    holds an array of every shape; [get_image_on] is the same code on a
    [machine] that tells which shapes [np.zeros] refuses, with [ValueError]
    for a dimension or a size beyond [intp] or with [MemoryError].  The
    statements on what a call does when the allocation fails are about
    [get_image_on].

    What is left out: element types (every pixel is an integer, and the
    bytes of the raw pixels store are taken as already decoded); failures
    of [createRawPixelsStore], [setPixelsId] and
    [getResolutionDescriptions].  The decorator [do_across_groups], which
    switches the group of the connection around the call, is modelled on
    its own in [Groups]. *)

From Stdlib Require Import ZArith Ascii String List Bool Lia Permutation.
From Stdlib Require Import DecimalString.
Import ListNotations.
Local Open Scope Z_scope.

(** ** Python values, exceptions, events *)

Inductive seqkind := KList | KTuple.

(** The arguments of [get_image] are dynamically typed; the function tests
    their types itself.  Items of a list or tuple are taken to be ints, as
    the annotations [List[int]] / [Tuple[int, ...]] say.  [PyOther] stands
    for an object of any other type (a float, a dict, an array, ...). *)
Inductive pyval :=
| PyNone
| PyBool (b : bool)
| PyInt (n : Z)
| PyStr (s : string)
| PySeq (k : seqkind) (items : list Z)
| PyOther.

Inductive exn :=
| TypeError (msg : string)
| ValueError (msg : string)
| IndexError (msg : string)
| KeyError (key : string)
| RemoteError            (* an exception raised by the OMERO client or server *)
| MemoryError.           (* raised by [np.zeros] when the memory runs out *)

Definition zct := (Z * Z * Z)%type.
Definition tile_rect := (Z * Z * Z * Z)%type.     (* x, y, width, height *)

Inductive event :=
| GetObject (image_id : Z)               (* conn.getObject('Image', id) *)
| LogWarning                             (* logging.warning(...) *)
| NpZeros (shape : list Z)               (* np.zeros(reordered_sizes, ...) *)
| GetPlanes (zcts : list zct)            (* primary_pixels.getPlanes(...) *)
| GetTiles (tiles : list (zct * tile_rect))  (* primary_pixels.getTiles(...) *)
| CreateRawPixelsStore                   (* ...sf.createRawPixelsStore() *)
| SetPixelsId                            (* pix.setPixelsId(pid, False) *)
| GetResolutionDescriptions              (* pix.getResolutionDescriptions() *)
| SetResolutionLevel (level : Z)         (* pix.setResolutionLevel(level) *)
| RawGetPlane (z c t : Z)                (* pix.getPlane(z, c, t) *)
| RawGetTile (z c t x y w h : Z)         (* pix.getTile(z, c, t, x, y, w, h) *)
| RawClose.                              (* pix.close() *)

(** ** A trace-and-exception monad *)

Inductive result (A : Type) :=
| Ok (a : A)
| Raise (e : exn).
Arguments Ok {A} a.
Arguments Raise {A} e.

Definition M (A : Type) : Type := (list event * result A)%type.

Definition ret {A} (a : A) : M A := ([], Ok a).
Definition raise {A} (e : exn) : M A := ([], Raise e).
Definition emit (e : event) : M unit := ([e], Ok tt).

Definition bind {A B} (m : M A) (f : A -> M B) : M B :=
  match snd m with
  | Ok a => (fst m ++ fst (f a), snd (f a))
  | Raise e => (fst m, Raise e)
  end.

Declare Scope py_scope.
Delimit Scope py_scope with py.
Notation "x <- m ;; k" := (bind m (fun x => k))
  (at level 61, m at next level, right associativity) : py_scope.
Notation "m ;;; k" := (bind m (fun _ => k))
  (at level 61, right associativity) : py_scope.
Local Open Scope py_scope.

Definition trace {A} (m : M A) : list event := fst m.
Definition outcome {A} (m : M A) : result A := snd m.

(** Every event of a computation satisfies [P]. *)
Definition emits_only (P : event -> Prop) {A} (m : M A) : Prop :=
  Forall P (fst m).

(** A computation that touches neither the server nor the allocator. *)
Definition silent {A} (m : M A) : Prop := fst m = [].

(** ** Python built-ins used by [get_image] *)

(** [l[i]] on a list: negative indices count from the end. *)
Definition py_getitem {A} (l : list A) (i : Z) : M A :=
  let n := Z.of_nat (length l) in
  let j := if i <? 0 then i + n else i in
  if (0 <=? j) && (j <? n) then
    match nth_error l (Z.to_nat j) with
    | Some a => ret a
    | None => raise (IndexError "list index out of range")
    end
  else raise (IndexError "list index out of range").

(** [l[i]] on one of the length-5 integer sequences, whose length has been
    checked before. *)
Definition ix (l : list Z) (i : nat) : Z := nth i l 0.

(** [range(a, b)] *)
Definition py_range (a b : Z) : list Z :=
  map (fun i => a + Z.of_nat i) (seq 0 (Z.to_nat (b - a))).

(** [[f(a, b) for a, b in zip(l1, l2)]] *)
Fixpoint zip_with (f : Z -> Z -> Z) (l1 l2 : list Z) : list Z :=
  match l1, l2 with
  | a :: l1', b :: l2' => f a b :: zip_with f l1' l2'
  | _, _ => []
  end.

Fixpoint list_eqb (l1 l2 : list Z) : bool :=
  match l1, l2 with
  | [], [] => true
  | a :: l1', b :: l2' => (a =? b) && list_eqb l1' l2'
  | _, _ => false
  end.

(** [v is False], [v is True], [v is None] *)
Definition is_False (v : pyval) : bool :=
  match v with PyBool false => true | _ => false end.
Definition is_True (v : pyval) : bool :=
  match v with PyBool true => true | _ => false end.

(** [str.lower()] on the characters of [ascii], read as Latin-1: A-Z and
    the accented capitals 192-222 (but not 215, the multiplication sign)
    move up by 32. *)
Definition lower_ascii (c : ascii) : ascii :=
  let n := nat_of_ascii c in
  if ((65 <=? n) && (n <=? 90))%nat then ascii_of_nat (n + 32)
  else if ((192 <=? n) && (n <=? 222) && negb (n =? 215))%nat
       then ascii_of_nat (n + 32)
  else c.

Definition lower (s : string) : list ascii :=
  map lower_ascii (list_ascii_of_string s).

Definition mem_ascii (c : ascii) (l : list ascii) : bool :=
  existsb (Ascii.eqb c) l.

(** [set(a) == set(b)] *)
Definition set_eqb (a b : list ascii) : bool :=
  forallb (fun c => mem_ascii c b) a && forallb (fun c => mem_ascii c a) b.

(** A [dict] with one-character keys, as an association list in insertion
    order; [d[k] = v] overwrites the value of an existing key. *)
Definition dict := list (ascii * nat).

Fixpoint dict_set (d : dict) (k : ascii) (v : nat) : dict :=
  match d with
  | [] => [(k, v)]
  | (k', v') :: d' =>
      if Ascii.eqb k' k then (k', v) :: d' else (k', v') :: dict_set d' k v
  end.

Fixpoint dict_get (d : dict) (k : ascii) : option nat :=
  match d with
  | [] => None
  | (k', v') :: d' => if Ascii.eqb k' k then Some v' else dict_get d' k
  end.

(** [dict(zip(s, range(n)))]: [zip] stops at the shorter argument. *)
Definition dict_of_zip (keys : list ascii) (vals : list nat) : dict :=
  fold_left (fun d kv => dict_set d (fst kv) (snd kv)) (combine keys vals) [].

(** [d[k]], raising [KeyError(k)] when the key is absent. *)
Definition dict_getitem (d : dict) (k : ascii) : M nat :=
  match dict_get d k with
  | Some v => ret v
  | None => raise (KeyError (String k EmptyString))
  end.

(** [[f(x) for x in l]] where [f] may raise. *)
Fixpoint mapM {A B} (f : A -> M B) (l : list A) : M (list B) :=
  match l with
  | [] => ret []
  | a :: l' => b <- f a ;; bs <- mapM f l' ;; ret (b :: bs)
  end.

(** ** numpy arrays

    An array is its shape and its contents as a function of the index; a
    view made by [np.moveaxis] is another array over the same contents.
    Element types are not modelled: every pixel value is an integer. *)

Record ndarray := { shape : list Z; item : list Z -> Z }.

(** A 2-D array, as [getPlanes] / [getTiles] yield them and as [reshape]
    makes them: [px y x] is the element of row [y], column [x]. *)
Record plane := { rows : Z; cols : Z; px : Z -> Z -> Z }.

(** [np.zeros(shape)] where every array fits; the event records that a
    buffer was allocated. *)
Definition np_zeros (sh : list Z) : M ndarray :=
  if existsb (fun d => d <? 0) sh
  then raise (ValueError "negative dimensions are not allowed")
  else emit (NpZeros sh) ;;; ret {| shape := sh; item := fun _ => 0 |}.

(** An integer index on an axis of size [dim]. *)
Definition np_index (i dim : Z) : M Z :=
  let j := if i <? 0 then i + dim else i in
  if (0 <=? j) && (j <? dim) then ret j
  else raise (IndexError "index is out of bounds for axis").

(** The number of positions the slice [:stop] selects on an axis of size
    [dim]. *)
Definition slice_stop (stop dim : Z) : Z :=
  if stop <? 0 then Z.max 0 (stop + dim) else Z.min stop dim.

(** A source axis of size [src] broadcasts to a target axis of size [dst]. *)
Definition broadcastable (src dst : Z) : bool := (src =? dst) || (src =? 1).

(** The element of [p] that broadcasting puts at row [y], column [x] of the
    target: an axis of size 1 is repeated. *)
Definition broadcast_px (p : plane) (y x : Z) : Z :=
  px p (if rows p =? 1 then 0 else y) (if cols p =? 1 then 0 else x).

(** [a[t, z, :ystop, :xstop, c] = p] on a 5-D array: the in-place update is
    returned as the new array. *)
Definition setitem_plane (a : ndarray) (t z ystop xstop c : Z) (p : plane)
  : M ndarray :=
  match shape a with
  | [dt; dz; dy; dx; dc] =>
      t' <- np_index t dt ;;
      z' <- np_index z dz ;;
      c' <- np_index c dc ;;
      let h := slice_stop ystop dy in
      let w := slice_stop xstop dx in
      if broadcastable (rows p) h && broadcastable (cols p) w then
        ret {| shape := shape a;
               item := fun idx =>
                 match idx with
                 | [it; iz; iy; ix; ic] =>
                     if (it =? t') && (iz =? z') && (ic =? c')
                        && (0 <=? iy) && (iy <? h) && (0 <=? ix) && (ix <? w)
                     then broadcast_px p iy ix
                     else item a idx
                 | _ => item a idx
                 end |}
      else raise (ValueError "could not broadcast input array")
  | _ => raise (IndexError "too many indices for array")
  end.

(** [np.frombuffer(buf, dtype).reshape((h, w))], on the decoded elements of
    the buffer; one of [h], [w] may be [-1] and is then inferred. *)
Definition np_reshape2 (data : list Z) (h w : Z) : M plane :=
  let n := Z.of_nat (length data) in
  let mk h w :=
    ret {| rows := h; cols := w;
           px := fun y x => nth (Z.to_nat (y * w + x)) data 0 |} in
  let bad := raise (ValueError "cannot reshape array") in
  if (h =? -1) && (w =? -1)
  then raise (ValueError "can only specify one unknown dimension")
  else if (h <? -1) || (w <? -1)
  then raise (ValueError "negative dimensions not allowed")
  else if h =? -1
  then (if (0 <? w) && (n mod w =? 0) then mk (n / w) w else bad)
  else if w =? -1
  then (if (0 <? h) && (n mod h =? 0) then mk h (n / h) else bad)
  else if h * w =? n then mk h w else bad.

Fixpoint nodupb (l : list nat) : bool :=
  match l with
  | [] => true
  | x :: l' => negb (existsb (Nat.eqb x) l') && nodupb l'
  end.

(** numpy's [normalize_axis_tuple], for non-negative axes. *)
Definition normalize_axis_tuple (axes : list nat) (ndim : nat) : M (list nat) :=
  if forallb (fun ax => ax <? ndim)%nat axes then
    if nodupb axes then ret axes else raise (ValueError "repeated axis")
  else raise (ValueError "axis is out of bounds").

(** [l.insert(i, x)] *)
Definition list_insert (i : nat) (x : nat) (l : list nat) : list nat :=
  firstn i l ++ x :: skipn i l.

(** [sorted] on pairs of ints, by insertion. *)
Definition pair_leb (p q : nat * nat) : bool :=
  (fst p <? fst q)%nat || ((fst p =? fst q)%nat && (snd p <=? snd q)%nat).

Fixpoint sorted_insert (p : nat * nat) (l : list (nat * nat)) :=
  match l with
  | [] => [p]
  | q :: l' => if pair_leb p q then p :: q :: l' else q :: sorted_insert p l'
  end.

Definition sorted (l : list (nat * nat)) : list (nat * nat) :=
  fold_right sorted_insert [] l.

Fixpoint index_of (j : nat) (l : list nat) : nat :=
  match l with
  | [] => 0%nat
  | x :: l' => if (x =? j)%nat then 0%nat else S (index_of j l')
  end.

(** [a.transpose(order)]: axis [i] of the result is axis [order[i]] of [a]. *)
Definition transpose (a : ndarray) (order : list nat) : ndarray :=
  {| shape := map (fun ax => nth ax (shape a) 0) order;
     item := fun idx =>
       item a (map (fun j => nth (index_of j order) idx 0)
                   (seq 0 (length (shape a)))) |}.

(** [np.moveaxis(a, source, destination)], after numpy's implementation. *)
Definition moveaxis (a : ndarray) (source destination : list nat) : M ndarray :=
  let ndim := length (shape a) in
  source <- normalize_axis_tuple source ndim ;;
  destination <- normalize_axis_tuple destination ndim ;;
  if negb (length source =? length destination)%nat
  then raise (ValueError "source and destination must have the same number of elements")
  else
    let order := filter (fun n => negb (existsb (Nat.eqb n) source)) (seq 0 ndim) in
    let order :=
      fold_left (fun order ds => list_insert (fst ds) (snd ds) order)
                (sorted (combine destination source)) order in
    ret (transpose a order).

(** ** The OMERO objects [get_image] talks to *)

(** The raw pixels store of an image.  [getPlane] and [getTile] take the
    resolution level set before as their first argument and give the
    elements [np.frombuffer] decodes from the returned bytes; [None] means
    that the call raises. *)
Record RawPixelsStore := {
  getResolutionDescriptions : list (Z * Z);      (* (sizeX, sizeY) per level *)
  setResolutionLevel : Z -> bool;                (* false: the call raises *)
  getPlane : Z -> Z -> Z -> Z -> option (list Z);
  getTile : Z -> Z -> Z -> Z -> Z -> Z -> Z -> Z -> option (list Z)
}.

(** An image.  [plane_of] and [tile_of] are what the generators returned by
    [getPlanes] / [getTiles] of its primary pixels yield for one request;
    [None] means that the generator raises there. *)
Record ImageWrapper := {
  getSizeX : Z;
  getSizeY : Z;
  getSizeZ : Z;
  getSizeC : Z;
  getSizeT : Z;
  plane_of : zct -> option plane;
  tile_of : zct -> tile_rect -> option plane;
  createRawPixelsStore : RawPixelsStore
}.

(** [conn.getObject('Image', image_id)] *)
Definition BlitzGateway := Z -> option ImageWrapper.

Definition remote {A} (r : option A) : M A :=
  match r with
  | Some a => ret a
  | None => raise RemoteError
  end.

(** ** [get_image] *)

Definition oob_msg : string :=
  "Attempting to access out-of-bounds pixel. Either adjust axis_lengths or use pad=True".

(** Lines 110-120: [start_coords] and [axis_lengths] must be [None] or a
    list or tuple of length 5. *)
Definition check_coords (v : pyval) (type_msg len_msg : string)
  : M (option (list Z)) :=
  match v with
  | PyNone => ret None
  | PySeq _ items =>
      if negb (length items =? 5)%nat then raise (ValueError len_msg)
      else ret (Some items)
  | _ => raise (TypeError type_msg)
  end.

(** Lines 122-125. *)
Definition check_image_id (v : pyval) : M Z :=
  match v with
  | PyNone => raise (TypeError "Object ID cannot be empty")
  | PyInt n => ret n
  | _ => raise (TypeError "Image ID must be an integer")
  end.

(** Lines 127-129. *)
Definition check_pyramid_level (v : pyval) : M (option Z) :=
  match v with
  | PyNone => ret None
  | PyInt n => ret (Some n)
  | _ => raise (TypeError "pyramid_level must be an int")
  end.

(** Lines 131-136. *)
Definition check_dim_order (v : pyval) : M (option string) :=
  match v with
  | PyNone => ret None
  | PyStr s =>
      if negb (set_eqb (lower s) (list_ascii_of_string "xyzct"))
      then raise (ValueError "dim_order must contain letters xyzct exactly once")
      else ret (Some s)
  | _ => raise (TypeError "dim_order must be a str")
  end.

(** Lines 168-172 and 260-264. *)
Definition reorder_sizes (axis_lengths : list Z) : list Z :=
  [ix axis_lengths 4; ix axis_lengths 2; ix axis_lengths 1;
   ix axis_lengths 0; ix axis_lengths 3].

(** Lines 178-183 and 267-272. *)
Definition compute_overhangs (axis_lengths start_coords orig_sizes : list Z)
  : list Z :=
  map (Z.max 0)
      (zip_with Z.sub (zip_with Z.add axis_lengths start_coords) orig_sizes).

(** Lines 184-186 and 273-275: [any(...) & (pad is False)]. *)
Definition out_of_bounds (overhangs : list Z) (pad : pyval) : bool :=
  existsb (fun x => 0 <? x) overhangs && is_False pad.

(** Lines 188 and 276. *)
Definition trim (axis_lengths overhangs : list Z) : list Z :=
  zip_with Z.sub axis_lengths overhangs.

(** Lines 190-196 and 279-285: the nested loops over z, c and t. *)
Definition zct_enumerate (start_coords axis_lengths : list Z) : list zct :=
  flat_map (fun z =>
    flat_map (fun c =>
      map (fun t => (z, c, t))
          (py_range (ix start_coords 4) (ix start_coords 4 + ix axis_lengths 4)))
      (py_range (ix start_coords 3) (ix start_coords 3 + ix axis_lengths 3)))
    (py_range (ix start_coords 2) (ix start_coords 2 + ix axis_lengths 2)).

(** Lines 209-214 and 307-312: the loop over [enumerate(plane_gen)].
    [plane_gen] is consumed item by item, each item being computed when the
    loop asks for it; [zct_list] is what is left of the list from index [i]
    on. *)
Fixpoint assemble (start_coords axis_lengths : list Z)
    (plane_gen : list (M plane)) (zct_list : list zct) (pixels : ndarray)
  : M ndarray :=
  match plane_gen with
  | [] => ret pixels
  | next :: plane_gen' =>
      p <- next ;;
      match zct_list with
      | [] => raise (IndexError "list index out of range")
      | (z0, c0, t0) :: zct_list' =>
          let z := z0 - ix start_coords 2 in
          let c := c0 - ix start_coords 3 in
          let t := t0 - ix start_coords 4 in
          pixels' <- setitem_plane pixels t z
                       (ix axis_lengths 1) (ix axis_lengths 0) c p ;;
          assemble start_coords axis_lengths plane_gen' zct_list' pixels'
      end
  end.

(** Lines 216-228 and 313-325. *)
Definition reorder_view (pixels : ndarray) (dim_order : option string)
    (xyzct : pyval) : M ndarray :=
  match dim_order with
  | Some s =>
      let order_dict := dict_of_zip (list_ascii_of_string s) (seq 0 5) in
      order_vector <- mapM (fun c => dict_getitem order_dict (lower_ascii c))
                           (list_ascii_of_string "tzyxc") ;;
      moveaxis pixels [0; 1; 2; 3; 4]%nat order_vector
  | None =>
      if is_True xyzct
      then moveaxis pixels [0; 1; 2; 3; 4]%nat [4; 2; 1; 0; 3]%nat
      else ret pixels
  end.

(** Lines 156-228: the full-resolution branch. *)
Definition full_resolution (image : ImageWrapper)
    (start_coords axis_lengths : option (list Z)) (xyzct pad : pyval)
    (dim_order : option string) : M ndarray :=
  let orig_sizes := [getSizeX image; getSizeY image; getSizeZ image;
                     getSizeC image; getSizeT image] in
  let start_coords :=
    match start_coords with None => [0; 0; 0; 0; 0] | Some s => s end in
  let axis_lengths :=
    match axis_lengths with
    | None => zip_with Z.sub orig_sizes start_coords
    | Some a => a
    end in
  let reordered_sizes := reorder_sizes axis_lengths in
  pixels <- np_zeros reordered_sizes ;;
  let overhangs := compute_overhangs axis_lengths start_coords orig_sizes in
  if out_of_bounds overhangs pad then raise (IndexError oob_msg)
  else
    let axis_lengths := trim axis_lengths overhangs in
    let zct_list := zct_enumerate start_coords axis_lengths in
    plane_gen <-
      (if list_eqb reordered_sizes
            [getSizeT image; getSizeZ image; getSizeY image;
             getSizeX image; getSizeC image]
       then
         emit (GetPlanes zct_list) ;;;
         ret (map (fun zct => remote (plane_of image zct)) zct_list)
       else
         let tile := (ix start_coords 0, ix start_coords 1,
                      ix axis_lengths 0, ix axis_lengths 1) in
         let zct_tiles := map (fun zct => (zct, tile)) zct_list in
         emit (GetTiles zct_tiles) ;;;
         ret (map (fun zt => remote (tile_of image (fst zt) (snd zt)))
                  zct_tiles)) ;;
    pixels <- assemble start_coords axis_lengths plane_gen zct_list pixels ;;
    reorder_view pixels dim_order xyzct.

(** Lines 230-326: the branch for a pyramid level other than 0. *)
Definition pyramid (image : ImageWrapper) (pyramid_level : Z)
    (start_coords axis_lengths : option (list Z)) (xyzct pad : pyval)
    (dim_order : option string) : M ndarray :=
  let size_z := getSizeZ image in
  let size_c := getSizeC image in
  let size_t := getSizeT image in
  emit CreateRawPixelsStore ;;;
  let pix := createRawPixelsStore image in
  emit SetPixelsId ;;;
  emit GetResolutionDescriptions ;;;
  let res_levels := getResolutionDescriptions pix in
  let level := Z.of_nat (length res_levels) - pyramid_level - 1 in
  emit (SetResolutionLevel level) ;;;
  (if setResolutionLevel pix level then ret tt else raise RemoteError) ;;;
  wh <- py_getitem res_levels pyramid_level ;;
  let size_w := fst wh in
  let size_h := snd wh in
  let orig_sizes := [size_w; size_h; size_z; size_c; size_t] in
  let start_coords :=
    match start_coords with None => [0; 0; 0; 0; 0] | Some s => s end in
  let axis_lengths :=
    match axis_lengths with
    | None => zip_with Z.sub orig_sizes start_coords
    | Some a => a
    end in
  let reordered_sizes := reorder_sizes axis_lengths in
  pixels <- np_zeros reordered_sizes ;;
  let overhangs := compute_overhangs axis_lengths start_coords orig_sizes in
  if out_of_bounds overhangs pad then raise (IndexError oob_msg)
  else
    let axis_lengths := trim axis_lengths overhangs in
    let zct_list := zct_enumerate start_coords axis_lengths in
    plane_gen <-
      (if list_eqb reordered_sizes [size_t; size_z; size_h; size_w; size_c]
       then
         mapM (fun zct : zct =>
                 let '(z, c, t) := zct in
                 emit (RawGetPlane z c t) ;;;
                 byte_plane <- remote (getPlane pix level z c t) ;;
                 np_reshape2 byte_plane size_h size_w)
              zct_list
       else
         let x := ix start_coords 0 in
         let y := ix start_coords 1 in
         let w := ix axis_lengths 0 in
         let h := ix axis_lengths 1 in
         mapM (fun zct : zct =>
                 let '(z, c, t) := zct in
                 emit (RawGetTile z c t x y w h) ;;;
                 this_tile <- remote (getTile pix level z c t x y w h) ;;
                 np_reshape2 this_tile h w)
              zct_list) ;;
    pixels <- assemble start_coords axis_lengths (map ret plane_gen)
                       zct_list pixels ;;
    pixel_view <- reorder_view pixels dim_order xyzct ;;
    emit RawClose ;;;
    ret pixel_view.

(** Lines 28-327. *)
Definition get_image (conn : BlitzGateway)
    (image_id no_pixels start_coords axis_lengths xyzct pad pyramid_level
       dim_order : pyval)
  : M (option ImageWrapper * option ndarray) :=
  start_coords <- check_coords start_coords
                    "start_coords must be supplied as list or tuple"
                    "start_coords must have length 5 (XYZCT)" ;;
  axis_lengths <- check_coords axis_lengths
                    "axis_lengths must be supplied as list of tuple"
                    "axis_lengths must have length 5 (XYZCT)" ;;
  image_id <- check_image_id image_id ;;
  pyramid_level <- check_pyramid_level pyramid_level ;;
  dim_order <- check_dim_order dim_order ;;
  emit (GetObject image_id) ;;;
  match conn image_id with
  | None => emit LogWarning ;;; ret (None, None)
  | Some image =>
      if is_False no_pixels then
        match pyramid_level with
        | None =>
            pixel_view <- full_resolution image start_coords axis_lengths
                            xyzct pad dim_order ;;
            ret (Some image, Some pixel_view)
        | Some p =>
            if p =? 0 then
              pixel_view <- full_resolution image start_coords axis_lengths
                              xyzct pad dim_order ;;
              ret (Some image, Some pixel_view)
            else
              pixel_view <- pyramid image p start_coords axis_lengths
                              xyzct pad dim_order ;;
              ret (Some image, Some pixel_view)
        end
      else ret (Some image, None)
  end.

(** ** [get_image] where [np.zeros] can refuse a shape

    [np.zeros] converts the shape to [intp] and reserves the memory before
    the body goes on (lines 173 and 265 come before the bounds checks of
    lines 184 and 273).  A [machine] gives the exception it raises for a
    shape, if any: [ValueError] when a dimension or the size is beyond
    [intp], [MemoryError] when the memory does not suffice. *)

Record machine := { refuses : list Z -> option exn }.

(** [np.zeros(shape)] on a machine. *)
Definition np_zeros_on (m : machine) (sh : list Z) : M ndarray :=
  match refuses m sh with
  | Some e => raise e
  | None => np_zeros sh
  end.

(** Lines 156-228 on a machine. *)
Definition full_resolution_on (m : machine) (image : ImageWrapper)
    (start_coords axis_lengths : option (list Z)) (xyzct pad : pyval)
    (dim_order : option string) : M ndarray :=
  let orig_sizes := [getSizeX image; getSizeY image; getSizeZ image;
                     getSizeC image; getSizeT image] in
  let start_coords :=
    match start_coords with None => [0; 0; 0; 0; 0] | Some s => s end in
  let axis_lengths :=
    match axis_lengths with
    | None => zip_with Z.sub orig_sizes start_coords
    | Some a => a
    end in
  let reordered_sizes := reorder_sizes axis_lengths in
  pixels <- np_zeros_on m reordered_sizes ;;
  let overhangs := compute_overhangs axis_lengths start_coords orig_sizes in
  if out_of_bounds overhangs pad then raise (IndexError oob_msg)
  else
    let axis_lengths := trim axis_lengths overhangs in
    let zct_list := zct_enumerate start_coords axis_lengths in
    plane_gen <-
      (if list_eqb reordered_sizes
            [getSizeT image; getSizeZ image; getSizeY image;
             getSizeX image; getSizeC image]
       then
         emit (GetPlanes zct_list) ;;;
         ret (map (fun zct => remote (plane_of image zct)) zct_list)
       else
         let tile := (ix start_coords 0, ix start_coords 1,
                      ix axis_lengths 0, ix axis_lengths 1) in
         let zct_tiles := map (fun zct => (zct, tile)) zct_list in
         emit (GetTiles zct_tiles) ;;;
         ret (map (fun zt => remote (tile_of image (fst zt) (snd zt)))
                  zct_tiles)) ;;
    pixels <- assemble start_coords axis_lengths plane_gen zct_list pixels ;;
    reorder_view pixels dim_order xyzct.

(** Lines 230-326 on a machine. *)
Definition pyramid_on (m : machine) (image : ImageWrapper) (pyramid_level : Z)
    (start_coords axis_lengths : option (list Z)) (xyzct pad : pyval)
    (dim_order : option string) : M ndarray :=
  let size_z := getSizeZ image in
  let size_c := getSizeC image in
  let size_t := getSizeT image in
  emit CreateRawPixelsStore ;;;
  let pix := createRawPixelsStore image in
  emit SetPixelsId ;;;
  emit GetResolutionDescriptions ;;;
  let res_levels := getResolutionDescriptions pix in
  let level := Z.of_nat (length res_levels) - pyramid_level - 1 in
  emit (SetResolutionLevel level) ;;;
  (if setResolutionLevel pix level then ret tt else raise RemoteError) ;;;
  wh <- py_getitem res_levels pyramid_level ;;
  let size_w := fst wh in
  let size_h := snd wh in
  let orig_sizes := [size_w; size_h; size_z; size_c; size_t] in
  let start_coords :=
    match start_coords with None => [0; 0; 0; 0; 0] | Some s => s end in
  let axis_lengths :=
    match axis_lengths with
    | None => zip_with Z.sub orig_sizes start_coords
    | Some a => a
    end in
  let reordered_sizes := reorder_sizes axis_lengths in
  pixels <- np_zeros_on m reordered_sizes ;;
  let overhangs := compute_overhangs axis_lengths start_coords orig_sizes in
  if out_of_bounds overhangs pad then raise (IndexError oob_msg)
  else
    let axis_lengths := trim axis_lengths overhangs in
    let zct_list := zct_enumerate start_coords axis_lengths in
    plane_gen <-
      (if list_eqb reordered_sizes [size_t; size_z; size_h; size_w; size_c]
       then
         mapM (fun zct : zct =>
                 let '(z, c, t) := zct in
                 emit (RawGetPlane z c t) ;;;
                 byte_plane <- remote (getPlane pix level z c t) ;;
                 np_reshape2 byte_plane size_h size_w)
              zct_list
       else
         let x := ix start_coords 0 in
         let y := ix start_coords 1 in
         let w := ix axis_lengths 0 in
         let h := ix axis_lengths 1 in
         mapM (fun zct : zct =>
                 let '(z, c, t) := zct in
                 emit (RawGetTile z c t x y w h) ;;;
                 this_tile <- remote (getTile pix level z c t x y w h) ;;
                 np_reshape2 this_tile h w)
              zct_list) ;;
    pixels <- assemble start_coords axis_lengths (map ret plane_gen)
                       zct_list pixels ;;
    pixel_view <- reorder_view pixels dim_order xyzct ;;
    emit RawClose ;;;
    ret pixel_view.

(** Lines 28-327 on a machine. *)
Definition get_image_on (m : machine) (conn : BlitzGateway)
    (image_id no_pixels start_coords axis_lengths xyzct pad pyramid_level
       dim_order : pyval)
  : M (option ImageWrapper * option ndarray) :=
  start_coords <- check_coords start_coords
                    "start_coords must be supplied as list or tuple"
                    "start_coords must have length 5 (XYZCT)" ;;
  axis_lengths <- check_coords axis_lengths
                    "axis_lengths must be supplied as list of tuple"
                    "axis_lengths must have length 5 (XYZCT)" ;;
  image_id <- check_image_id image_id ;;
  pyramid_level <- check_pyramid_level pyramid_level ;;
  dim_order <- check_dim_order dim_order ;;
  emit (GetObject image_id) ;;;
  match conn image_id with
  | None => emit LogWarning ;;; ret (None, None)
  | Some image =>
      if is_False no_pixels then
        match pyramid_level with
        | None =>
            pixel_view <- full_resolution_on m image start_coords
                            axis_lengths xyzct pad dim_order ;;
            ret (Some image, Some pixel_view)
        | Some p =>
            if p =? 0 then
              pixel_view <- full_resolution_on m image start_coords
                              axis_lengths xyzct pad dim_order ;;
              ret (Some image, Some pixel_view)
            else
              pixel_view <- pyramid_on m image p start_coords axis_lengths
                              xyzct pad dim_order ;;
              ret (Some image, Some pixel_view)
        end
      else ret (Some image, None)
  end.

(** The machine that refuses nothing: [get_image] is [get_image_on] it. *)
Definition unbounded : machine := {| refuses := fun _ => None |}.

(** A machine with 64-bit [intp] and memory for every array [intp] can size:
    it refuses a dimension beyond [2^63 - 1], and a number of elements
    beyond it. *)
Definition intp_max : Z := 2 ^ 63 - 1.

Definition intp64 : machine :=
  {| refuses := fun sh =>
       if existsb (fun d => intp_max <? d) sh
       then Some (ValueError "Maximum allowed dimension exceeded")
       else if forallb (fun d => 0 <=? d) sh
                && (intp_max <? fold_right Z.mul 1 sh)
       then Some (ValueError "array is too big; `arr.size * arr.dtype.itemsize` is larger than the maximum possible size.")
       else None |}.

(** ** A small in-memory server, for running [get_image] on examples *)

Module Mock.

Definition in_range (i n : Z) : bool := (0 <=? i) && (i <? n).

Definition pixel_value (x y z c t : Z) : Z :=
  1 + x + 10 * y + 100 * z + 1000 * c + 10000 * t.

Section Image.
Variables size_x size_y size_z size_c size_t : Z.
(** The resolution descriptions, full resolution first. *)
Variable levels : list (Z * Z).

Definition zct_ok (p : zct) : bool :=
  let '(z, c, t) := p in
  in_range z size_z && in_range c size_c && in_range t size_t.

Definition whole_plane (p : zct) : option plane :=
  let '(z, c, t) := p in
  if zct_ok p
  then Some {| rows := size_y; cols := size_x;
               px := fun y x => pixel_value x y z c t |}
  else None.

Definition one_tile (p : zct) (r : tile_rect) : option plane :=
  let '(z, c, t) := p in
  let '(x0, y0, w, h) := r in
  if zct_ok p && (0 <=? x0) && (0 <=? y0) && (0 <? w) && (0 <? h)
     && (x0 + w <=? size_x) && (y0 + h <=? size_y)
  then Some {| rows := h; cols := w;
               px := fun y x => pixel_value (x0 + x) (y0 + y) z c t |}
  else None.

(** The raw store numbers its levels from the smallest one, so the
    level [i] has the size of [levels[n - 1 - i]]. *)
Definition level_size (i : Z) : option (Z * Z) :=
  if in_range i (Z.of_nat (length levels))
  then nth_error levels (Z.to_nat (Z.of_nat (length levels) - 1 - i))
  else None.

Definition window (i x0 y0 w h z c t : Z) : list Z :=
  flat_map (fun y => map (fun x => pixel_value x y z c t + 100000 * i)
                         (py_range x0 (x0 + w)))
           (py_range y0 (y0 + h)).

Definition raw_plane (i z c t : Z) : option (list Z) :=
  match level_size i with
  | Some (w, h) =>
      if zct_ok (z, c, t) then Some (window i 0 0 w h z c t) else None
  | None => None
  end.

Definition raw_tile (i z c t x0 y0 w h : Z) : option (list Z) :=
  match level_size i with
  | Some (lw, lh) =>
      if zct_ok (z, c, t) && (0 <=? x0) && (0 <=? y0) && (0 <? w)
         && (0 <? h) && (x0 + w <=? lw) && (y0 + h <=? lh)
      then Some (window i x0 y0 w h z c t) else None
  | None => None
  end.

Definition image : ImageWrapper :=
  {| getSizeX := size_x; getSizeY := size_y; getSizeZ := size_z;
     getSizeC := size_c; getSizeT := size_t;
     plane_of := whole_plane;
     tile_of := one_tile;
     createRawPixelsStore :=
       {| getResolutionDescriptions := levels;
          setResolutionLevel := fun i => in_range i (Z.of_nat (length levels));
          getPlane := raw_plane;
          getTile := raw_tile |} |}.
End Image.

(** A server holding one image, with id 1. *)
Definition conn (img : ImageWrapper) : BlitzGateway :=
  fun id => if id =? 1 then Some img else None.

End Mock.

(** ** Vocabulary for statements about a call *)

(** Arguments that pass the checks of lines 110-136, and what the body of
    [get_image] then works with. *)
Definition valid_coords (v : pyval) : bool :=
  match v with
  | PyNone => true
  | PySeq _ items => (length items =? 5)%nat
  | _ => false
  end.

Definition coords_of (v : pyval) : option (list Z) :=
  match v with
  | PySeq _ items => Some items
  | _ => None
  end.

Definition valid_dim_order (v : pyval) : bool :=
  match v with
  | PyNone => true
  | PyStr s => set_eqb (lower s) (list_ascii_of_string "xyzct")
  | _ => false
  end.

Definition dim_order_of (v : pyval) : option string :=
  match v with
  | PyStr s => Some s
  | _ => None
  end.

Definition native_extent (image : ImageWrapper) : list Z :=
  [getSizeX image; getSizeY image; getSizeZ image; getSizeC image;
   getSizeT image].

(** The extent in effect for a call: the native one when [pyramid_level] is
    [None] or 0; otherwise, when the server accepts the level and
    [res_levels[pyramid_level]] exists, that level's width and height with
    the native Z, C and T sizes. *)
Definition resolution_extent (image : ImageWrapper) (pyramid_level : pyval)
  : option (list Z) :=
  match pyramid_level with
  | PyNone => Some (native_extent image)
  | PyInt p =>
      if p =? 0 then Some (native_extent image)
      else
        let pix := createRawPixelsStore image in
        let res_levels := getResolutionDescriptions pix in
        if setResolutionLevel pix (Z.of_nat (length res_levels) - p - 1) then
          match outcome (py_getitem res_levels p) with
          | Ok wh => Some [fst wh; snd wh; getSizeZ image; getSizeC image;
                           getSizeT image]
          | Raise _ => None
          end
        else None
  | _ => None
  end.

Definition default_start (start_coords : option (list Z)) : list Z :=
  match start_coords with None => [0; 0; 0; 0; 0] | Some s => s end.

Definition default_lengths (extent start : list Z)
    (axis_lengths : option (list Z)) : list Z :=
  match axis_lengths with
  | None => zip_with Z.sub extent start
  | Some a => a
  end.

(** The overhang of one axis, as the bounds resolver defines it. *)
Definition overhang (start lengths extent : list Z) (axis : nat) : Z :=
  Z.max 0 (ix start axis + ix lengths axis - ix extent axis).

(** The effective lengths: the requested ones minus the overhangs. *)
Definition effective (start lengths extent : list Z) : list Z :=
  trim lengths (compute_overhangs lengths start extent).

(** The plane and tile reads a trace asks the server for. *)
Inductive request :=
| WholePlane (z c t : Z)
| Tile (z c t x y w h : Z).

Definition requests_of (e : event) : list request :=
  match e with
  | GetPlanes zcts => map (fun p : zct => let '(z, c, t) := p in WholePlane z c t) zcts
  | GetTiles tiles =>
      map (fun p : zct * tile_rect =>
             let '((z, c, t), (x, y, w, h)) := p in Tile z c t x y w h) tiles
  | RawGetPlane z c t => [WholePlane z c t]
  | RawGetTile z c t x y w h => [Tile z c t x y w h]
  | _ => []
  end.

Definition fetch_requests (tr : list event) : list request :=
  flat_map requests_of tr.

(** What the caller gets when the pixel branch ran on [image]. *)
Definition with_image (image : ImageWrapper) (r : result ndarray)
  : result (option ImageWrapper * option ndarray) :=
  match r with
  | Ok v => Ok (Some image, Some v)
  | Raise e => Raise e
  end.

Definition zeros (sh : list Z) : ndarray :=
  {| shape := sh; item := fun _ => 0 |}.

(** ** The part the two branches share

    Lines 157-228 and lines 250-325 are the same code but for the way the
    planes are fetched.  [extract] is that code over a [fetcher]; the lemmas
    [full_resolution_extract] and [pyramid_extract] show that the two
    branches are instances of it. *)

(** A fetcher gets: whether whole planes are read, [start_coords], the
    trimmed [axis_lengths] and [zct_list]; it gives [plane_gen]. *)
Definition fetcher : Type :=
  bool -> list Z -> list Z -> list zct -> M (list (M plane)).

(** Lines 199-207. *)
Definition primary_fetch (image : ImageWrapper) : fetcher :=
  fun whole start_coords axis_lengths zct_list =>
    if whole then
      emit (GetPlanes zct_list) ;;;
      ret (map (fun zct => remote (plane_of image zct)) zct_list)
    else
      let tile := (ix start_coords 0, ix start_coords 1,
                   ix axis_lengths 0, ix axis_lengths 1) in
      let zct_tiles := map (fun zct => (zct, tile)) zct_list in
      emit (GetTiles zct_tiles) ;;;
      ret (map (fun zt => remote (tile_of image (fst zt) (snd zt))) zct_tiles).

(** Lines 288-305. *)
Definition raw_fetch (pix : RawPixelsStore) (level size_w size_h : Z)
  : fetcher :=
  fun whole start_coords axis_lengths zct_list =>
    plane_gen <-
      (if whole then
         mapM (fun zct : zct =>
                 let '(z, c, t) := zct in
                 emit (RawGetPlane z c t) ;;;
                 byte_plane <- remote (getPlane pix level z c t) ;;
                 np_reshape2 byte_plane size_h size_w)
              zct_list
       else
         let x := ix start_coords 0 in
         let y := ix start_coords 1 in
         let w := ix axis_lengths 0 in
         let h := ix axis_lengths 1 in
         mapM (fun zct : zct =>
                 let '(z, c, t) := zct in
                 emit (RawGetTile z c t x y w h) ;;;
                 this_tile <- remote (getTile pix level z c t x y w h) ;;
                 np_reshape2 this_tile h w)
              zct_list) ;;
    ret (map ret plane_gen).

Definition extract (orig_sizes : list Z) (fetch : fetcher)
    (start_coords axis_lengths : option (list Z)) (xyzct pad : pyval)
    (dim_order : option string) : M ndarray :=
  let start_coords := default_start start_coords in
  let axis_lengths := default_lengths orig_sizes start_coords axis_lengths in
  let reordered_sizes := reorder_sizes axis_lengths in
  pixels <- np_zeros reordered_sizes ;;
  let overhangs := compute_overhangs axis_lengths start_coords orig_sizes in
  if out_of_bounds overhangs pad then raise (IndexError oob_msg)
  else
    let axis_lengths := trim axis_lengths overhangs in
    let zct_list := zct_enumerate start_coords axis_lengths in
    plane_gen <- fetch (list_eqb reordered_sizes (reorder_sizes orig_sizes))
                       start_coords axis_lengths zct_list ;;
    pixels <- assemble start_coords axis_lengths plane_gen zct_list pixels ;;
    reorder_view pixels dim_order xyzct.

(** Lines 292-294 and 302-304: the read of one plane, or of one tile, from
    the raw pixels store. *)
Definition raw_read (pix : RawPixelsStore) (level size_w size_h : Z)
    (whole : bool) (start_coords axis_lengths : list Z) (p : zct) : M plane :=
  let '(z, c, t) := p in
  if whole then
    emit (RawGetPlane z c t) ;;;
    byte_plane <- remote (getPlane pix level z c t) ;;
    np_reshape2 byte_plane size_h size_w
  else
    let x := ix start_coords 0 in
    let y := ix start_coords 1 in
    let w := ix axis_lengths 0 in
    let h := ix axis_lengths 1 in
    emit (RawGetTile z c t x y w h) ;;;
    this_tile <- remote (getTile pix level z c t x y w h) ;;
    np_reshape2 this_tile h w.

(** Lines 199 and 288: are whole planes read? *)
Definition whole_planes (lengths extent : list Z) : bool :=
  list_eqb (reorder_sizes lengths) (reorder_sizes extent).

(** Lines 242-248: what the pyramid branch does before it reads the size of
    the level. *)
Definition select_level (image : ImageWrapper) (pyramid_level : Z) : M unit :=
  let pix := createRawPixelsStore image in
  let res_levels := getResolutionDescriptions pix in
  let level := Z.of_nat (length res_levels) - pyramid_level - 1 in
  emit CreateRawPixelsStore ;;;
  emit SetPixelsId ;;;
  emit GetResolutionDescriptions ;;;
  emit (SetResolutionLevel level) ;;;
  if setResolutionLevel pix level then ret tt else raise RemoteError.

(** The fetcher, the events before [extract] and the events after it, for a
    call with a given [pyramid_level]. *)
Definition raw_level (image : ImageWrapper) (p : Z) : Z :=
  Z.of_nat (length (getResolutionDescriptions (createRawPixelsStore image)))
  - p - 1.

Definition fetcher_of (image : ImageWrapper) (pyramid_level : pyval)
    (extent : list Z) : fetcher :=
  match pyramid_level with
  | PyInt p =>
      if p =? 0 then primary_fetch image
      else raw_fetch (createRawPixelsStore image) (raw_level image p)
                     (ix extent 0) (ix extent 1)
  | _ => primary_fetch image
  end.

Definition prologue (id : Z) (image : ImageWrapper) (pyramid_level : pyval)
  : list event :=
  GetObject id ::
  match pyramid_level with
  | PyInt p =>
      if p =? 0 then []
      else [CreateRawPixelsStore; SetPixelsId; GetResolutionDescriptions;
            SetResolutionLevel (raw_level image p)]
  | _ => []
  end.

Definition epilogue (pyramid_level : pyval) (r : result ndarray) : list event :=
  match pyramid_level, r with
  | PyInt p, Ok _ => if p =? 0 then [] else [RawClose]
  | _, _ => []
  end.

(** The levels a trace sets on the raw pixels store. *)
Definition set_levels (tr : list event) : list Z :=
  flat_map (fun e => match e with SetResolutionLevel l => [l] | _ => [] end) tr.

Definition not_set_level (e : event) : Prop :=
  match e with SetResolutionLevel _ => False | _ => True end.

(** ** Statements of the specification, as predicates on a call *)

(** The call was refused for its arguments before it touched anything. *)
Definition rejected_before_access {A} (m : M A) : Prop :=
  trace m = []
  /\ exists msg, outcome m = Raise (TypeError msg)
                 \/ outcome m = Raise (ValueError msg).

(** If the call fails, no buffer was allocated. *)
Definition fails_before_allocation {A} (m : M A) : Prop :=
  forall e, outcome m = Raise e -> forall sh, ~ In (NpZeros sh) (trace m).

(** The fetched window spans the whole X/Y extent. *)
Definition covers_xy (start lengths extent : list Z) : Prop :=
  ix start 0 = 0 /\ ix start 1 = 0
  /\ ix lengths 0 = ix extent 0 /\ ix lengths 1 = ix extent 1.

Definition is_whole_plane (r : request) : Prop :=
  match r with WholePlane _ _ _ => True | Tile _ _ _ _ _ _ _ => False end.

(** ** Example images *)

Module Sample.
(** 2 x 2 pixels, two Z sections, with one reduced level of 1 x 1. *)
Definition small : ImageWrapper := Mock.image 2 2 2 1 1 [(2, 2); (1, 1)].

(** 8 x 8 pixels with four resolution levels. *)
Definition pyramidal : ImageWrapper :=
  Mock.image 8 8 1 1 1 [(8, 8); (4, 4); (2, 2); (1, 1)].

Definition tuple5 (a b c d e : Z) : pyval := PySeq KTuple [a; b; c; d; e].
End Sample.

(** ** The reads a call is expected to issue *)

Definition whole_plane_of (p : zct) : request :=
  let '(z, c, t) := p in WholePlane z c t.

Definition tile_of_window (x y w h : Z) (p : zct) : request :=
  let '(z, c, t) := p in Tile z c t x y w h.

(** One window for all (z, c, t): the X and Y start coordinates with the
    effective X and Y lengths. *)
Definition tiled_reads (start eff : list Z) (zcts : list zct) : list request :=
  map (tile_of_window (ix start 0) (ix start 1) (ix eff 0) (ix eff 1)) zcts.

Definition whole_plane_reads (zcts : list zct) : list request :=
  map whole_plane_of zcts.

(** The reads [issued] are the [expected] ones up to the point where the
    call stopped, and all of them when it returned. *)
Definition reads_issued {A} (issued expected : list request) (r : result A)
  : Prop :=
  (exists rest, expected = issued ++ rest)
  /\ ((exists a, r = Ok a) -> issued = expected).

(** The request has no overhang. *)
Definition in_bounds (start lengths extent : list Z) : Prop :=
  forall axis, (axis < 5)%nat -> overhang start lengths extent axis = 0.

(** ** The contents of the buffer *)

(** The plane the fetcher gives when it is asked for the one (z, c, t). *)
Definition fetched_plane (fetch : fetcher) (whole : bool)
    (start eff : list Z) (p : zct) : option plane :=
  match outcome (fetch whole start eff [p]) with
  | Ok [m] => match outcome m with Ok pl => Some pl | Raise _ => None end
  | _ => None
  end.

(** Rows and columns of the window [pixels[t, z, :eff[1], :eff[0], c]] of a
    buffer allocated for the requested [lengths]. *)
Definition window_rows (eff lengths : list Z) : Z :=
  slice_stop (ix eff 1) (ix lengths 1).
Definition window_cols (eff lengths : list Z) : Z :=
  slice_stop (ix eff 0) (ix lengths 0).

(** The buffer [pixels] holds the plane [pl] at the place of (z, c, t). *)
Definition holds_plane (pixels : ndarray) (start eff lengths : list Z)
    (p : zct) (pl : plane) : Prop :=
  let '(z, c, t) := p in
  forall y x,
    0 <= y < window_rows eff lengths -> 0 <= x < window_cols eff lengths ->
    item pixels [t - ix start 4; z - ix start 2; y; x; c - ix start 3]
    = broadcast_px pl y x.

(** The index [idx] lies in the window written for (z, c, t). *)
Definition in_window (start eff lengths : list Z) (p : zct) (idx : list Z)
  : Prop :=
  let '(z, c, t) := p in
  exists y x,
    idx = [t - ix start 4; z - ix start 2; y; x; c - ix start 3]
    /\ 0 <= y < window_rows eff lengths /\ 0 <= x < window_cols eff lengths.

(** A buffer (view) is populated: it is the reordering of a buffer of the
    requested shape that holds, for every (z, c, t) of the enumeration, the
    plane fetched for it, and zero everywhere else. *)
Definition populated (fetch : fetcher) (whole : bool)
    (start eff lengths : list Z) (dim_order : option string) (xyzct : pyval)
    (view : ndarray) : Prop :=
  exists pixels,
    reorder_view pixels dim_order xyzct = ret view
    /\ shape pixels = reorder_sizes lengths
    /\ (forall p, In p (zct_enumerate start eff) ->
          exists pl, fetched_plane fetch whole start eff p = Some pl
                     /\ holds_plane pixels start eff lengths p pl)
    /\ (forall idx,
          (forall p, In p (zct_enumerate start eff) ->
                     ~ in_window start eff lengths p idx) ->
          item pixels idx = 0).

(** The server answers every read inside the extent with a plane of the
    size asked for. *)
Definition in_image (extent : list Z) (p : zct) : Prop :=
  let '(z, c, t) := p in
  0 <= z < ix extent 2 /\ 0 <= c < ix extent 3 /\ 0 <= t < ix extent 4.

Definition serves_extent (fetch : fetcher) (extent : list Z) : Prop :=
  forall whole start eff p,
    in_image extent p ->
    (whole = false ->
     0 <= ix start 0 /\ 0 <= ix start 1 /\ 0 < ix eff 0 /\ 0 < ix eff 1
     /\ ix start 0 + ix eff 0 <= ix extent 0
     /\ ix start 1 + ix eff 1 <= ix extent 1) ->
    exists pl,
      fetched_plane fetch whole start eff p = Some pl
      /\ rows pl = (if whole then ix extent 1 else ix eff 1)
      /\ cols pl = (if whole then ix extent 0 else ix eff 0).

(** The (z, c, t) is not before the start coordinates. *)
Definition at_or_after_start (start : list Z) (p : zct) : Prop :=
  let '(z, c, t) := p in
  ix start 2 <= z /\ ix start 3 <= c /\ ix start 4 <= t.

(** * The other accessors of [_gets.py] and [_ezomero.py] *)

(** ** Colours: [_int_to_rgba] *)

(** Lines 1893-1897: the colour of a shape that has none, transparent
    black for the fill and opaque yellow for the stroke. *)
Definition no_color (is_fill : bool) : Z * Z * Z * Z :=
  if is_fill then (0, 0, 0, 0) else (255, 255, 0, 255).

(** Lines 1881-1897.  [omero_val] is an int or [None]; [if omero_val:] is
    false for [None] and for 0.  [>>] and [<<] are the shifts of unbounded
    integers, and [-] binds tighter than [>>]. *)
Definition _int_to_rgba (omero_val : option Z) (is_fill : bool)
  : Z * Z * Z * Z :=
  match omero_val with
  | Some v =>
      if negb (v =? 0) then
        let omero_val := if v <? 0 then v + 2 ^ 32 else v in
        let r := Z.shiftr omero_val 24 in
        let g := Z.shiftr (omero_val - Z.shiftl r 24) 16 in
        let b := Z.shiftr (omero_val - Z.shiftl r 24 - Z.shiftl g 16) 8 in
        let a := omero_val - Z.shiftl r 24 - Z.shiftl g 16 - Z.shiftl b 8 in
        (r, g, b, a)
      else no_color is_fill
  | None => no_color is_fill
  end.

(** Four bytes as one number, red first, and that number read as a signed
    32-bit integer, the way OMERO stores a colour. *)
Definition pack_rgba (r g b a : Z) : Z :=
  r * 2 ^ 24 + g * 2 ^ 16 + b * 2 ^ 8 + a.

Definition signed32 (u : Z) : Z := if u <? 2 ^ 31 then u else u - 2 ^ 32.

Definition is_byte (x : Z) : Prop := 0 <= x <= 255.

(** ** Exceptions of the other accessors

    Besides the exceptions of [get_image], the other accessors can raise
    [AttributeError], when they call a method on the [None] that
    [conn.getObject] gave them. *)
Inductive error :=
| Std (e : exn)
| AttributeError (msg : string)
| UnboundLocalError (name : string)
| OtherError (name : string).    (* an exception of another class, by its name *)

(** A call returns a value or raises. *)
Definition fallible (A : Type) : Type := (error + A)%type.

(** ** Map annotations: [get_map_annotation] and [put_map_annotation] *)

(** A map annotation on the server: its namespace and its list of
    [name, value] pairs. *)
Record MapAnnotationWrapper := {
  getNs : option string;
  getValue : list (string * string)
}.

(** [conn.getObject('MapAnnotation', id)] *)
Definition MapAnnotations := Z -> option MapAnnotationWrapper.

(** The dict [get_map_annotation] returns: a value is a string, or the list
    of the values of a key that occurs more than once.  A dict keeps its
    keys in insertion order. *)
Inductive kv_value :=
| One (v : string)
| Many (vs : list string).

Definition kv_dict := list (string * kv_value).

(** [d[k]] when [k in d] *)
Fixpoint kv_get (d : kv_dict) (k : string) : option kv_value :=
  match d with
  | [] => None
  | (k', v') :: d' => if String.eqb k' k then Some v' else kv_get d' k
  end.

(** [d[k] = v] *)
Fixpoint kv_set (d : kv_dict) (k : string) (v : kv_value) : kv_dict :=
  match d with
  | [] => [(k, v)]
  | (k', v') :: d' =>
      if String.eqb k' k then (k', v) :: d' else (k', v') :: kv_set d' k v
  end.

(** Lines 1303-1309: one turn of the loop over the pairs. *)
Definition collect_item (map_annotation_dict : kv_dict)
    (item : string * string) : kv_dict :=
  match kv_get map_annotation_dict (fst item) with
  | Some old =>
      let as_list := match old with Many vs => vs | One v => [v] end in
      kv_set map_annotation_dict (fst item) (Many (as_list ++ [snd item]))
  | None => kv_set map_annotation_dict (fst item) (One (snd item))
  end.

(** Lines 1268-1311. *)
Definition get_map_annotation (conn : MapAnnotations) (map_ann_id : pyval)
  : fallible kv_dict :=
  match map_ann_id with
  | PyInt id =>
      match conn id with
      | None =>
          inl (AttributeError "'NoneType' object has no attribute 'getValue'")
      | Some map_annotation =>
          inr (fold_left collect_item (getValue map_annotation) [])
      end
  | _ => inl (Std (TypeError "Map annotation ID must be an integer"))
  end.

(** The keys and values a caller puts into [kv_dict]: strings, ints,
    Booleans and [None], with their [str()]. *)
Inductive atom :=
| AStr (s : string)
| AInt (n : Z)
| ABool (b : bool)
| ANone.

Definition py_str (a : atom) : string :=
  match a with
  | AStr s => s
  | AInt n => NilZero.string_of_int (Z.to_int n)
  | ABool true => "True"
  | ABool false => "False"
  | ANone => "None"
  end.

(** A value of [kv_dict]: a list of atoms ([type(v) is list]) or one atom. *)
Inductive put_value :=
| Single (a : atom)
| Listed (l : list atom).

(** Lines 125-133 of [_ezomero.py]: the pairs one item of [kv_dict] gives. *)
Definition flatten_item (kv : atom * put_value) : list (string * string) :=
  let k := py_str (fst kv) in
  match snd kv with
  | Single v => [(k, py_str v)]
  | Listed v => map (fun value => (k, py_str value)) v
  end.

(** Lines 72-137 of [_ezomero.py].  The function returns [None]; what it
    leaves behind is the annotation it saved, so the model returns the
    annotations of the server after [map_ann.save()]. *)
Definition put_map_annotation (conn : MapAnnotations) (map_ann_id : pyval)
    (kv_dict : list (atom * put_value)) (ns : option string)
  : fallible MapAnnotations :=
  match map_ann_id with
  | PyInt id =>
      match conn id with
      | None =>
          inl (Std (ValueError
                 "MapAnnotation is non-existent or you do not have permissions to change it."))
      | Some map_ann =>
          let ns := match ns with None => getNs map_ann | Some _ => ns end in
          let kv_pairs := flat_map flatten_item kv_dict in
          inr (fun id' =>
                 if id' =? id
                 then Some {| getNs := ns; getValue := kv_pairs |}
                 else conn id')
      end
  | _ => inl (Std (TypeError "Map annotation ID must be an integer"))
  end.

(** The values of the pairs whose name is [k], in order. *)
Definition values_of (k : string) (pairs : list (string * string))
  : list string :=
  map snd (filter (fun item => String.eqb (fst item) k) pairs).

(** How the values of one key show in the dict. *)
Definition grouped (vs : list string) : option kv_value :=
  match vs with
  | [] => None
  | [v] => Some (One v)
  | _ => Some (Many vs)
  end.

(** What an item of [kv_dict] has become when it is read back. *)
Definition read_back (kv : atom * put_value) : list (string * kv_value) :=
  match snd kv with
  | Single v => [(py_str (fst kv), One (py_str v))]
  | Listed v =>
      match grouped (map py_str v) with
      | Some g => [(py_str (fst kv), g)]
      | None => []
      end
  end.

(** ** Tables: [_create_table] when pandas is not installed *)

Module Table.
Section Cells.
(** The values a table holds. *)
Variable V : Type.

(** A column of [data.columns]. *)
Record column := { name : string; values : list V }.

(** An open table: the names of its headers, its number of rows, and the
    columns [read(colNumbers, start, stop)] gives. *)
Record table_obj := {
  getHeaders : list string;
  getNumberOfRows : Z;
  read : list Z -> Z -> Z -> list column
}.

(** The table that is returned is a list of lists: the names of the
    columns, then the rows. *)
Inductive cell :=
| Name (s : string)
| Value (v : V).

(** One round of [zip] over the unpacked [data_lists] (line 1786): the
    next item of every list, or
    nothing when one of them is exhausted. *)
Fixpoint heads (data_lists : list (list V)) : option (list V) :=
  match data_lists with
  | [] => Some []
  | col :: rest =>
      match col, heads rest with
      | v :: _, Some row => Some (v :: row)
      | _, _ => None
      end
  end.

Fixpoint zip_rounds (rounds : nat) (data_lists : list (list V))
  : list (list V) :=
  match rounds with
  | O => []
  | S rounds' =>
      match heads data_lists with
      | Some row => row :: zip_rounds rounds' (map (@tl V) data_lists)
      | None => []
      end
  end.

(** Line 1786, the transposition of [data_lists]; [zip()] of no list is
    empty, and there are no more rounds than the first list has items. *)
Definition zip_star (data_lists : list (list V)) : list (list V) :=
  match data_lists with
  | [] => []
  | col :: _ => zip_rounds (length col) data_lists
  end.

(** Lines 1770-1789, the branch taken when pandas is not installed. *)
Definition _create_table (t : table_obj) : list (list cell) :=
  let columns := getHeaders t in
  let rowCount := getNumberOfRows t in
  let data :=
    read t (map Z.of_nat (seq 0 (length columns))) 0 rowCount in
  let data_lists := map values data in
  let data_lists := zip_star data_lists in
  map Name columns :: map (map Value) data_lists.

(** The length of the shortest list; 0 when there is no list. *)
Fixpoint min_length (data_lists : list (list V)) : nat :=
  match data_lists with
  | [] => 0
  | [col] => length col
  | col :: rest => Nat.min (length col) (min_length rest)
  end.

End Cells.
End Table.

(** ** Groups: [set_group] and the decorator [do_across_groups] *)

Module Groups.

(** What these functions see of a connection: the user, the group of the
    session ([conn.getGroupFromContext()], which the service options do not
    change), the group set in [conn.SERVICE_OPTS] (-1 stands for all
    groups; [setOmeroGroup] stores the [str()] of its argument, so ['-1']
    and [-1] are the same setting), the owners and members of each group,
    and the warnings logged so far. *)
Record BlitzGateway := {
  user_id : Z;
  session_group : Z;
  omero_group : option Z;
  group_summary : Z -> option (list Z * list Z);
  warnings : list string
}.

(** [conn.SERVICE_OPTS.setOmeroGroup(group)] *)
Definition setOmeroGroup (conn : BlitzGateway) (group : Z) : BlitzGateway :=
  {| user_id := user_id conn;
     session_group := session_group conn;
     omero_group := Some group;
     group_summary := group_summary conn;
     warnings := warnings conn |}.

(** [logging.warning(msg)] *)
Definition log_warning (conn : BlitzGateway) (msg : string) : BlitzGateway :=
  {| user_id := user_id conn;
     session_group := session_group conn;
     omero_group := omero_group conn;
     group_summary := group_summary conn;
     warnings := warnings conn ++ [msg] |}.

Definition str_int (n : Z) : string := NilZero.string_of_int (Z.to_int n).

(** [user_id in ids] *)
Definition member (user : Z) (ids : list Z) : bool := existsb (Z.eqb user) ids.

(** Lines 454-489 of [_ezomero.py]. *)
Definition set_group (conn : BlitzGateway) (group_id : pyval)
  : BlitzGateway * fallible bool :=
  match group_id with
  | PyInt gid =>
      let user := user_id conn in
      match group_summary conn gid with
      | None =>
          (conn, inl (AttributeError
                        "'NoneType' object has no attribute 'groupSummary'"))
      | Some (owner_ids, member_ids) =>
          if member user owner_ids || member user member_ids
          then (setOmeroGroup conn gid, inr true)
          else (log_warning conn
                  ("User " ++ str_int user ++ " is not a member of Group "
                   ++ str_int gid)%string,
                inr false)
      end
  | _ => (conn, inl (Std (TypeError "Group ID must be an integer")))
  end.

(** A function under the decorator: the default of its parameter
    [across_groups], if it has one ([None], [True] or [False], as the
    annotation [Optional[bool]] says), and what a call with the given
    arguments does to the connection and returns. *)
Record decorated (A : Type) := {
  default_across_groups : option (option bool);
  call : BlitzGateway -> BlitzGateway * fallible A
}.
Arguments default_across_groups {A} d.
Arguments call {A} d conn.

(** The truth of [None], [True] and [False]. *)
Definition truth (v : option bool) : bool :=
  match v with Some true => true | _ => false end.

(** Lines 49-59 of [_ezomero.py]: is the call made across groups?
    [across_groups] is the keyword argument of the call, if it was given by
    keyword. *)
Definition across (default : option (option bool))
    (across_groups : option (option bool)) : fallible bool :=
  match across_groups with
  | Some v => inr (truth v)
  | None =>
      match default with
      | Some v => inr (truth v)
      | None => inl (Std (KeyError "across_groups"))
      end
  end.

(** Lines 33-68 of [_ezomero.py]: the wrapper. *)
Definition do_across_groups {A} (f : decorated A)
    (across_groups : option (option bool)) (conn : BlitzGateway)
  : BlitzGateway * fallible A :=
  match across (default_across_groups f) across_groups with
  | inl e => (conn, inl e)
  | inr true =>
      let current_group := session_group conn in
      let conn := setOmeroGroup conn (-1) in
      match call f conn with
      | (conn, inr res) =>
          match set_group conn (PyInt current_group) with
          | (conn, inr _) => (conn, inr res)
          | (conn, inl e) => (conn, inl e)
          end
      | (conn, inl e) => (conn, inl e)
      end
  | inr false => call f conn
  end.

(** The user of the connection belongs to the group. *)
Definition belongs (conn : BlitzGateway) (group : Z) : Prop :=
  exists owner_ids member_ids,
    group_summary conn group = Some (owner_ids, member_ids)
    /\ (In (user_id conn) owner_ids \/ In (user_id conn) member_ids).

(** A connection of user 7, whose session is in group 3 and whose service
    options name group 5; and a decorated function that returns the group
    it runs under. *)
Definition sample_conn : BlitzGateway :=
  {| user_id := 7;
     session_group := 3;
     omero_group := Some 5;
     group_summary := fun g =>
       if g =? 3 then Some ([1], [7; 8])
       else if g =? 5 then Some ([7], [])
       else if g =? 9 then Some ([1], [8])
       else None;
     warnings := [] |}.

Definition seen_group : decorated (option Z) :=
  {| default_across_groups := Some (Some true);
     call := fun conn => (conn, inr (omero_group conn)) |}.

Definition failing : decorated (option Z) :=
  {| default_across_groups := Some (Some true);
     call := fun conn => (conn, inl (Std (ValueError "failed"))) |}.

End Groups.

(** ** [get_pyramid_levels] *)

(** Lines 1658-1665 of [_gets.py].  The function checks nothing: when
    [getObject] returns [None], the attribute access [image._conn] raises
    before a store is created. *)
Definition get_pyramid_levels (conn : BlitzGateway) (image_id : Z)
  : list event * fallible (list (Z * Z)) :=
  match conn image_id with
  | None =>
      ([GetObject image_id],
       inl (AttributeError "'NoneType' object has no attribute '_conn'"))
  | Some image =>
      let pix := createRawPixelsStore image in
      let levels := getResolutionDescriptions pix in
      ([GetObject image_id; CreateRawPixelsStore; SetPixelsId;
        GetResolutionDescriptions; RawClose],
       inr levels)
  end.

(** ** [connect] *)

Module Connect.

(** The prompts of [input] and [getpass], by what they ask for. *)
Inductive prompt :=
| EnterUsername
| EnterPassword
| EnterGroup
| EnterHost
| EnterPort
| SecureSession
| Overwrite
| EnterWebHost.

(** The arguments [BlitzGateway] is created with (line 358). *)
Record BlitzGatewayArgs := {
  username : string;
  passwd : string;
  group : option string;
  host : string;
  port : Z;
  secure : pyval
}.

(** What a call does that can be seen from outside. *)
Inductive io :=
| Input (p : prompt)
| NewBlitzGateway (args : BlitzGatewayArgs)
| LoggingError (msg : string)
| WriteConfig (dir : option string) (default json : list (string * string)).

(** The [DEFAULT] section of a '.ezomero' file: its options, under the
    names [get] finds them by.  A section without options is falsy. *)
Definition SectionProxy := list (string * string).

(** What [connect] and [store_connection_params] work in: [os.environ];
    the '.ezomero' file of a directory ([None] is the home directory):
    nothing when the file does not exist, and else what opening and
    reading it gives, the [DEFAULT] section or the exception raised (as
    [MissingSectionHeaderError] for a file without a section header);
    which directories exist; what the user types at each prompt (no prompt
    is shown twice in one call); [int] on a string; whether
    [conn.connect()] succeeds; and two things [configparser] decides: the
    exception it raises, if any, when a section is assigned given options,
    and what reading gives for a file written with given options. *)
Record world := {
  environ : string -> option string;
  config_file : option string -> option (fallible SectionProxy);
  is_dir : option string -> bool;
  answer : prompt -> string;
  int : string -> exn + Z;
  connects : BlitzGatewayArgs -> bool;
  set_section : list (string * string) -> option exn;
  parsed_back : list (string * string) -> fallible SectionProxy
}.

Definition C (A : Type) : Type := (list io * fallible A)%type.

Definition cret {A} (a : A) : C A := ([], inr a).
Definition craise {A} (e : exn) : C A := ([], inl (Std e)).
Definition cbind {A B} (m : C A) (f : A -> C B) : C B :=
  match m with
  | (t, inr a) => let (t', r) := f a in (t ++ t', r)
  | (t, inl e) => (t, inl e)
  end.

Definition input (w : world) (p : prompt) : C string :=
  ([Input p], inr (answer w p)).

(** The truth of a value; an object of another type is taken as true. *)
Definition truthy (v : pyval) : bool :=
  match v with
  | PyNone => false
  | PyBool b => b
  | PyInt n => negb (n =? 0)
  | PyStr s => negb (String.eqb s "")
  | PySeq _ items => match items with [] => false | _ => true end
  | PyOther => true
  end.

Definition is_bool (v : pyval) : bool :=
  match v with PyBool _ => true | _ => false end.

(** [if config_dict:] *)
Definition has_options (config_dict : option SectionProxy) : bool :=
  match config_dict with
  | Some (_ :: _) => true
  | _ => false
  end.

Fixpoint lookup (options : SectionProxy) (key : string) : option string :=
  match options with
  | [] => None
  | (k, v) :: rest => if String.eqb k key then Some v else lookup rest key
  end.

(** [d.get(key, default)] of a section and of [os.environ]. *)
Definition config_get {A} (config_dict : option SectionProxy) (key : string)
    (some : string -> A) (default : A) : A :=
  match config_dict with
  | Some options =>
      match lookup options key with Some v => some v | None => default end
  | None => default
  end.

Definition environ_get {A} (w : world) (key : string) (some : string -> A)
    (default : A) : A :=
  match environ w key with Some v => some v | None => default end.

(** Lines 296-299, 310-313 and 320-323: a parameter that was not given is
    looked up in the file, then in the environment. *)
Definition from_settings (w : world) (config_dict : option SectionProxy)
    (key : string) (given : option string) : option string :=
  match given with
  | None =>
      let given :=
        if has_options config_dict
        then config_get config_dict key Some given else given in
      environ_get w key Some given
  | Some _ => given
  end.

(** [if x is None: x = input(...)] *)
Definition or_input (w : world) (given : option string) (p : prompt)
  : C string :=
  match given with
  | None => input w p
  | Some v => cret v
  end.

(** [s.lower() in options] *)
Definition lower_in (s : string) (options : list string) : bool :=
  existsb (String.eqb (string_of_list_ascii (lower s))) options.

(** [int(s)] *)
Definition to_int (w : world) (s : string) : C Z :=
  match int w s with
  | inl e => craise e
  | inr n => cret n
  end.

Definition str_truthy (s : option string) : bool :=
  match s with
  | Some v => negb (String.eqb v "")
  | None => false
  end.

(** Lines 288-293: the file is read when it exists, whatever arguments were
    given. *)
Definition read_config (w : world) (dir : option string)
  : C (option SectionProxy) :=
  match config_file w dir with
  | None => cret None
  | Some (inl e) => ([], inl e)
  | Some (inr options) => cret (Some options)
  end.

(** Lines 279-364 of [_ezomero.py].  The arguments [user], [password],
    [group] and [host] are strings or [None], [port] an integer or [None];
    [secure] and [config_path] are any value, since the function checks
    their types. *)
Definition connect (w : world) (user password group host : option string)
    (port : option Z) (secure config_path : pyval)
  : C (option BlitzGatewayArgs) :=
  if truthy secure && negb (is_bool secure)
  then craise (TypeError "'secure' variable must be a boolean")
  else
  cbind (match config_path with
         | PyNone => read_config w None
         | PyStr dir => read_config w (Some dir)
         | _ => craise (TypeError "config_path must be a string")
         end) (fun config_dict =>
  (* set user *)
  let user := from_settings w config_dict "OMERO_USER" user in
  cbind (or_input w user EnterUsername) (fun user =>
  (* set password *)
  let password :=
    match password with
    | None => environ_get w "OMERO_PASS" Some password
    | Some _ => password
    end in
  cbind (or_input w password EnterPassword) (fun password =>
  (* set group *)
  let group := from_settings w config_dict "OMERO_GROUP" group in
  cbind (or_input w group EnterGroup) (fun group =>
  let group := if String.eqb group "" then None else Some group in
  (* set host *)
  let host := from_settings w config_dict "OMERO_HOST" host in
  cbind (or_input w host EnterHost) (fun host =>
  (* set port *)
  cbind (match port with
         | None =>
             let port_str :=
               if has_options config_dict
               then config_get config_dict "OMERO_PORT" Some (Some "None"%string)
               else None in
             let port_str := environ_get w "OMERO_PORT" Some port_str in
             match port_str with
             | Some s =>
                 if str_truthy port_str
                 then cbind (to_int w s) (fun n => cret (Some n))
                 else cret None
             | None => cret None
             end
         | Some _ => cret port
         end) (fun port =>
  cbind (match port with
         | None => cbind (input w EnterPort) (to_int w)
         | Some n => cret n
         end) (fun port =>
  (* set session security *)
  let secure_str :=
    match secure with
    | PyNone =>
        if has_options config_dict
        then config_get config_dict "OMERO_SECURE" Some (Some "None"%string)
        else None
    | _ => None
    end in
  let secure_str := environ_get w "OMERO_SECURE" Some secure_str in
  let secure :=
    match secure_str with
    | Some s =>
        if str_truthy secure_str then
          if lower_in s ["true"; "t"]%string then PyBool true
          else if lower_in s ["false"; "f"]%string then PyBool false
          else secure
        else secure
    | None => secure
    end in
  cbind (match secure with
         | PyNone =>
             cbind (input w SecureSession) (fun str_secure =>
             if lower_in str_secure ["true"; "t"]%string
             then cret (PyBool true)
             else if lower_in str_secure ["false"; "f"]%string
             then cret (PyBool false)
             else craise (ValueError
                            "secure must be set to either True or False"))
         | _ => cret secure
         end) (fun secure =>
  (* create connection *)
  let conn := {| username := user; passwd := password; group := group;
                 host := host; port := port; secure := secure |} in
  if connects w conn
  then ([NewBlitzGateway conn], inr (Some conn))
  else ([NewBlitzGateway conn;
         LoggingError "Could not connect, check your settings"],
        inr None))))))))).

(** The value of [secure] a call with a Boolean argument ends with. *)
Definition secure_in_effect (w : world) (given : bool) : bool :=
  match environ w "OMERO_SECURE" with
  | Some s =>
      if lower_in s ["true"; "t"]%string then true
      else if lower_in s ["false"; "f"]%string then false
      else given
  | None => given
  end.

(** [config_path] is [None] or a string, naming the directory [dir]. *)
Definition directory (config_path : pyval) (dir : option string) : Prop :=
  match config_path, dir with
  | PyNone, None => True
  | PyStr s, Some d => s = d
  | _, _ => False
  end.

(** [secure] is [None] or a Boolean. *)
Definition none_or_bool (secure : pyval) : Prop :=
  match secure with
  | PyNone | PyBool _ => True
  | _ => False
  end.

(** The section [connect] reads for a [config_path]. *)
Definition section_of (w : world) (config_path : pyval) : SectionProxy :=
  match config_path with
  | PyNone => match config_file w None with Some (inr o) => o | _ => [] end
  | PyStr dir =>
      match config_file w (Some dir) with Some (inr o) => o | _ => [] end
  | _ => []
  end.

(** The first value that is set, or else the answer typed at the prompt. *)
Fixpoint first_of (candidates : list (option string)) (typed : string)
  : string :=
  match candidates with
  | [] => typed
  | Some v :: _ => v
  | None :: rest => first_of rest typed
  end.

(** ** [store_connection_params] *)

(** [ezo_file.open('w')] and [config.write]: the file of the directory is
    now one that reads as [section]. *)
Definition with_config (w : world) (dir : option string)
    (section : fallible SectionProxy) : world :=
  {| environ := environ w;
     config_file := fun d =>
       if match d, dir with
          | None, None => true
          | Some a, Some b => String.eqb a b
          | _, _ => false
          end
       then Some section else config_file w d;
     is_dir := is_dir w;
     answer := answer w;
     int := int w;
     connects := connects w;
     set_section := set_section w;
     parsed_back := parsed_back w |}.

(** [config[name] = options] *)
Definition assign (w : world) (options : list (string * string)) : C unit :=
  match set_section w options with
  | Some e => craise e
  | None => cret tt
  end.

(** [str(b)] *)
Definition str_bool (b : bool) : string := if b then "True" else "False".

(** Lines 401-451 of [_ezomero.py].  [user], [group] and [host] are strings
    or [None], [port] an integer or [None], [secure] a Boolean or [None];
    [web_host] and [config_path] are any value.  The result is the world
    after the call; the line printed at the end is left out. *)
Definition store_connection_params (w : world) (user group host : option string)
    (port : option Z) (secure : option bool) (web_host config_path : pyval)
  : C world :=
  cbind (match config_path with
         | PyNone => cret None
         | PyStr dir => cret (Some dir)
         | _ => craise (ValueError "config_path must be a string")
         end) (fun cpath =>
  if negb (is_dir w cpath)
  then craise (ValueError "config_path must point to a valid directory")
  else
  cbind (match config_file w cpath with
         | Some _ =>
             cbind (input w Overwrite) (fun resp =>
             cret (lower_in resp ["yes"; "y"]%string))
         | None => cret true
         end) (fun go_on =>
  if negb go_on then cret w
  else
  (* get parameters *)
  cbind (or_input w user EnterUsername) (fun user =>
  cbind (or_input w group EnterGroup) (fun group =>
  cbind (or_input w host EnterHost) (fun host =>
  cbind (match port with
         | None => cbind (input w EnterPort) (to_int w)
         | Some n => cret n
         end) (fun port =>
  cbind (match secure with
         | None =>
             cbind (input w SecureSession) (fun secure_str =>
             if lower_in secure_str ["true"; "t"]%string then cret true
             else if lower_in secure_str ["false"; "f"]%string then cret false
             else craise (ValueError
                            "secure must be set to either True or False"))
         | Some b => cret b
         end) (fun secure =>
  cbind (match web_host with
         | PyBool true => cbind (input w EnterWebHost) (fun s => cret (Some s))
         | _ => cret None
         end) (fun web_host_str =>
  (* make parameter dictionary and save as configfile *)
  let default :=
    [("OMERO_USER", user); ("OMERO_GROUP", group); ("OMERO_HOST", host);
     ("OMERO_PORT", Groups.str_int port);
     ("OMERO_SECURE", str_bool secure)]%string in
  cbind (assign w default) (fun _ =>
  cbind (match web_host with
         | PyBool false => cret []
         | PyStr s =>
             let json := [("OMERO_USER", user); ("OMERO_WEB_HOST", s)]%string in
             cbind (assign w json) (fun _ => cret json)
         | _ =>
             match web_host_str with
             | Some s =>
                 let json :=
                   [("OMERO_USER", user); ("OMERO_WEB_HOST", s)]%string in
                 cbind (assign w json) (fun _ => cret json)
             | None => ([], inl (UnboundLocalError "web_host_str"))
             end
         end) (fun json =>
  ([WriteConfig cpath default json],
   inr (with_config w cpath (parsed_back w default))))))))))))).

(** [web_host] is [False], [True] or a string. *)
Definition bool_or_str (web_host : pyval) : Prop :=
  match web_host with
  | PyBool _ | PyStr _ => True
  | _ => False
  end.

(** The options [store_connection_params] writes for given parameters. *)
Definition stored (user group host : string) (port : Z) (secure : bool)
  : list (string * string) :=
  [("OMERO_USER", user); ("OMERO_GROUP", group); ("OMERO_HOST", host);
   ("OMERO_PORT", Groups.str_int port);
   ("OMERO_SECURE", str_bool secure)]%string.

(** The file can be written: it does not exist yet, or the user agrees to
    overwrite it. *)
Definition may_write (w : world) (dir : option string) : Prop :=
  config_file w dir = None
  \/ lower_in (answer w Overwrite) ["yes"; "y"]%string = true.

(** The web host a call saves, if it saves one: the string given, or what
    is typed at the prompt when [web_host] is [True]. *)
Definition saved_web_host (w : world) (web_host : pyval) : option string :=
  match web_host with
  | PyBool true => Some (answer w EnterWebHost)
  | PyStr s => Some s
  | _ => None
  end.

(** [configparser] takes the options of the call, those of the [JSON]
    section too if the call saves a web host, and reads the [DEFAULT]
    section back as written (it does for values without percent signs,
    line breaks and blanks at either end). *)
Definition kept_by_configparser (w : world) (user group host : string)
    (port : Z) (secure : bool) (web_host : pyval) : Prop :=
  set_section w (stored user group host port secure) = None
  /\ (forall s, saved_web_host w web_host = Some s ->
                set_section w [("OMERO_USER", user);
                               ("OMERO_WEB_HOST", s)]%string = None)
  /\ parsed_back w (stored user group host port secure)
     = inr (stored user group host port secure).

(** None of the variables [connect] looks for is set. *)
Definition no_omero_variables (w : world) : Prop :=
  forall key,
    In key ["OMERO_USER"; "OMERO_PASS"; "OMERO_GROUP"; "OMERO_HOST";
            "OMERO_PORT"; "OMERO_SECURE"]%string ->
    environ w key = None.

(** A world without environment variables and without files. *)
Definition blank_world : world :=
  {| environ := fun _ => None;
     config_file := fun _ => None;
     is_dir := fun _ => true;
     answer := fun p =>
       match p with EnterPassword => "secret" | _ => "" end%string;
     int := fun s =>
       if String.eqb s "4064" then inr 4064
       else inl (ValueError
                   ("invalid literal for int() with base 10: '" ++ s ++ "'"));
     connects := fun _ => true;
     set_section := fun _ => None;
     parsed_back := fun options => inr options |}.

(** An option value holds a percent sign. *)
Definition has_percent (options : list (string * string)) : bool :=
  existsb (fun kv => existsb (Ascii.eqb "%") (list_ascii_of_string (snd kv)))
          options.

(** A world without environment variables and without files, where
    [configparser] refuses every value that holds a percent sign (the
    library lets a doubled sign and the form [%(name)s] through) and an
    unreadable file sits in the directory [broken]. *)
Definition careful_world : world :=
  {| environ := fun _ => None;
     config_file := fun dir =>
       match dir with
       | Some "broken"%string => Some (inl (OtherError "MissingSectionHeaderError"))
       | _ => None
       end;
     is_dir := fun _ => true;
     answer := fun p =>
       match p with EnterPassword => "secret" | _ => "" end%string;
     int := fun s =>
       if String.eqb s "4064" then inr 4064
       else inl (ValueError
                   ("invalid literal for int() with base 10: '" ++ s ++ "'"));
     connects := fun _ => true;
     set_section := fun options =>
       if has_percent options
       then Some (ValueError "invalid interpolation syntax")
       else None;
     parsed_back := fun options => inr options |}.

(** A trace of prompts alone. *)
Definition prompts_only (t : list io) : Prop :=
  forall x, In x t -> exists p, x = Input p.

(** A world for the examples: a file in the home directory that names the
    user and the host alone, and an environment that turns security off. *)
Definition sample_world : world :=
  {| environ := fun key =>
       if String.eqb key "OMERO_SECURE" then Some "False"%string else None;
     config_file := fun dir =>
       match dir with
       | None =>
           Some (inr [("OMERO_USER", "jaxl");
                      ("OMERO_HOST", "omero.example.org")]%string)
       | Some _ => None
       end;
     answer := fun p =>
       match p with
       | EnterPassword => "secret"
       | EnterPort => "4064"
       | _ => ""
       end%string;
     is_dir := fun _ => true;
     int := fun s =>
       if String.eqb s "4064" then inr 4064
       else inl (ValueError
                   ("invalid literal for int() with base 10: '" ++ s ++ "'"));
     connects := fun _ => true;
     set_section := fun _ => None;
     parsed_back := fun options => inr options |}.

End Connect.

(** ** [get_image_ids] *)

Module Queries.

(** The six containers [get_image_ids] can list the images of. *)
Inductive container :=
| Project
| Dataset
| Plate
| Well
| PlateAcquisition
| Annotation.

(** The HQL queries of lines 410-492: the query for the images of a
    container, with the value handed to [rlong] as its parameter, and the
    query for the orphaned images. *)
Inductive hql :=
| ImagesOf (c : container) (id : pyval)
| OrphanedImages.

(** [conn.getQueryService().projection(...)], as the list of the first
    column of its rows. *)
Definition QueryService := hql -> list Z.

Definition is_not_None (v : pyval) : bool :=
  match v with PyNone => false | _ => true end.

(** [isinstance(v, int)]: [bool] is a subclass of [int]. *)
Definition isinstance_int (v : pyval) : bool :=
  match v with PyInt _ | PyBool _ => true | _ => false end.

(** One branch of lines 406-478: the type check, then the query. *)
Definition images_of (q : QueryService) (c : container) (id : pyval)
    (msg : string) : list hql * fallible (list Z) :=
  if negb (isinstance_int id) then ([], inl (Std (TypeError msg)))
  else ([ImagesOf c id], inr (q (ImagesOf c id))).

(** Lines 394-494 of [_gets.py]; the first component of the result is the
    list of the queries sent. *)
Definition get_image_ids (q : QueryService)
    (project dataset plate well plate_acquisition annotation : pyval)
  : list hql * fallible (list Z) :=
  let arg_counter :=
    fold_left (fun arg_counter arg =>
                 if is_not_None arg then arg_counter + 1 else arg_counter)
              [project; dataset; plate; well; plate_acquisition; annotation]
              0 in
  if arg_counter >? 1 then
    ([], inl (Std (ValueError
       "Only one of Project/Dataset/Plate/Well/PlateAcquisition/Annotation can be specified")))
  else if is_not_None project then
    images_of q Project project "Project ID must be integer"
  else if is_not_None dataset then
    images_of q Dataset dataset "Dataset ID must be integer"
  else if is_not_None plate then
    images_of q Plate plate "Plate ID must be integer"
  else if is_not_None well then
    images_of q Well well "Well ID must be integer"
  else if is_not_None plate_acquisition then
    images_of q PlateAcquisition plate_acquisition
              "Plate acquisition ID must be integer"
  else if is_not_None annotation then
    images_of q Annotation annotation "Annotation ID must be integer"
  else ([OrphanedImages], inr (q OrphanedImages)).

(** The containers with the arguments given for them, those that are not
    [None]. *)
Definition given (project dataset plate well plate_acquisition annotation
                  : pyval) : list (container * pyval) :=
  filter (fun cv => is_not_None (snd cv))
         [(Project, project); (Dataset, dataset); (Plate, plate);
          (Well, well); (PlateAcquisition, plate_acquisition);
          (Annotation, annotation)].

End Queries.

(** ** [get_user_id] *)

(** Lines 1477-1483 of [_gets.py]; [experimenters] is what
    [conn.containedExperimenters(1)] yields, as pairs of [getName()] and
    [getId()]. *)
Fixpoint first_named (experimenters : list (string * Z)) (user_name : string)
  : option Z :=
  match experimenters with
  | [] => None
  | (name, id) :: rest =>
      if String.eqb name user_name then Some id
      else first_named rest user_name
  end.

Definition get_user_id (experimenters : list (string * Z)) (user_name : pyval)
  : fallible (option Z) :=
  match user_name with
  | PyStr s => inr (first_named experimenters s)
  | _ => inl (Std (TypeError "OMERO user name must be a string"))
  end.

(** * Properties *)

(** ** The monad *)

Lemma bind_ret A B (a : A) (f : A -> M B) : bind (ret a) f = f a.
Proof. unfold bind, ret; simpl. now destruct (f a). Qed.

Lemma bind_raise A B (e : exn) (f : A -> M B) : bind (raise e) f = raise e.
Proof. reflexivity. Qed.

Lemma bind_emit B (e : event) (f : unit -> M B) :
  bind (emit e) f = (e :: fst (f tt), snd (f tt)).
Proof. reflexivity. Qed.

Lemma bind_run A B (m : M A) (f : A -> M B) t a :
  m = (t, Ok a) -> bind m f = (t ++ fst (f a), snd (f a)).
Proof. intros ->. reflexivity. Qed.

Lemma bind_fail A B (m : M A) (f : A -> M B) t e :
  m = (t, Raise e) -> bind m f = (t, Raise e).
Proof. intros ->. reflexivity. Qed.

Lemma bind_Ok_inv A B (m : M A) (f : A -> M B) t b :
  bind m f = (t, Ok b) ->
  exists t1 a t2, m = (t1, Ok a) /\ f a = (t2, Ok b) /\ t = t1 ++ t2.
Proof.
  destruct m as [t1 [a | e]]; unfold bind; simpl; intros H.
  - exists t1, a, (fst (f a)). inversion H; subst.
    repeat split. now destruct (f a).
  - discriminate.
Qed.

Lemma emits_only_ret P A (a : A) : emits_only P (ret a).
Proof. constructor. Qed.

Lemma emits_only_raise P A e : emits_only P (@raise A e).
Proof. constructor. Qed.

Lemma emits_only_emit (P : event -> Prop) e : P e -> emits_only P (emit e).
Proof. intros H. repeat constructor. exact H. Qed.

Lemma emits_only_bind P A B (m : M A) (f : A -> M B) :
  emits_only P m -> (forall a, emits_only P (f a)) -> emits_only P (bind m f).
Proof.
  unfold emits_only, bind. intros Hm Hf.
  destruct (snd m); simpl; [apply Forall_app; split|]; auto.
Qed.

Lemma emits_only_remote P A (r : option A) : emits_only P (remote r).
Proof. destruct r; constructor. Qed.

Lemma emits_only_mapM P A B (f : A -> M B) l :
  (forall a, emits_only P (f a)) -> emits_only P (mapM f l).
Proof.
  intros Hf. induction l as [|a l IH]; simpl.
  - apply emits_only_ret.
  - apply emits_only_bind; [apply Hf|]. intros b.
    apply emits_only_bind; [apply IH|]. intros bs. apply emits_only_ret.
Qed.

Create HintDb trace.
#[local] Hint Resolve emits_only_ret emits_only_raise emits_only_emit
  emits_only_remote : trace.

Lemma silent_emits_only P A (m : M A) : silent m -> emits_only P m.
Proof. unfold silent, emits_only. intros ->. constructor. Qed.

Lemma silent_bind A B (m : M A) (f : A -> M B) :
  silent m -> (forall a, silent (f a)) -> silent (bind m f).
Proof.
  unfold silent, bind. intros Hm Hf.
  destruct (snd m); simpl; rewrite Hm; simpl; auto.
Qed.

Lemma silent_mapM A B (f : A -> M B) l :
  (forall a, silent (f a)) -> silent (mapM f l).
Proof.
  intros Hf. induction l as [|a l IH]; simpl; [reflexivity|].
  apply silent_bind; [apply Hf|]. intros b.
  apply silent_bind; [apply IH|]. reflexivity.
Qed.

(** ** numpy *)

Lemma silent_np_index i d : silent (np_index i d).
Proof. unfold np_index. now destruct (_ && _). Qed.

Lemma silent_setitem_plane a t z ys xs c p : silent (setitem_plane a t z ys xs c p).
Proof.
  unfold setitem_plane.
  destruct (shape a) as [|dt [|dz [|dy [|dx [|dc [|]]]]]]; try reflexivity.
  apply silent_bind; [apply silent_np_index|]. intros t'.
  apply silent_bind; [apply silent_np_index|]. intros z'.
  apply silent_bind; [apply silent_np_index|]. intros c'.
  now destruct (_ && _).
Qed.

Lemma silent_normalize_axis_tuple axes n : silent (normalize_axis_tuple axes n).
Proof.
  unfold normalize_axis_tuple.
  destruct (forallb _ _); [destruct (nodupb _)|]; reflexivity.
Qed.

Lemma silent_moveaxis a src dst : silent (moveaxis a src dst).
Proof.
  unfold moveaxis.
  apply silent_bind; [apply silent_normalize_axis_tuple|]. intros s.
  apply silent_bind; [apply silent_normalize_axis_tuple|]. intros d.
  now destruct (negb _).
Qed.

Lemma silent_dict_getitem d k : silent (dict_getitem d k).
Proof. unfold dict_getitem. now destruct (dict_get d k). Qed.

Lemma silent_reorder_view pixels dim_order xyzct :
  silent (reorder_view pixels dim_order xyzct).
Proof.
  unfold reorder_view. destruct dim_order as [s|].
  - apply silent_bind.
    + apply silent_mapM. intros c. apply silent_dict_getitem.
    + intros v. apply silent_moveaxis.
  - destruct (is_True xyzct); [apply silent_moveaxis | reflexivity].
Qed.

Lemma silent_np_reshape2 data h w : silent (np_reshape2 data h w).
Proof.
  unfold np_reshape2.
  repeat match goal with
         | |- silent (if ?b then _ else _) => destruct b
         end; reflexivity.
Qed.

(** ** Reordering the axes *)

(** The order vector computed from ["xyzct"] is the one of the [xyzct]
    flag. *)
Lemma order_vector_xyzct :
  mapM (fun c => dict_getitem
                   (dict_of_zip (list_ascii_of_string "xyzct") (seq 0 5))
                   (lower_ascii c))
       (list_ascii_of_string "tzyxc")
  = ret [4; 2; 1; 0; 3]%nat.
Proof. reflexivity. Qed.

Lemma bind_ext A B (m : M A) (f g : A -> M B) :
  (forall a, f a = g a) -> bind m f = bind m g.
Proof. intros H. unfold bind. destruct (snd m); [rewrite H|]; reflexivity. Qed.

Lemma full_resolution_dim_order image sc al xyzct xyzct' pad s :
  full_resolution image sc al xyzct pad (Some s)
  = full_resolution image sc al xyzct' pad (Some s).
Proof.
  unfold full_resolution. apply bind_ext; intros pixels.
  destruct (out_of_bounds _ _); [reflexivity|].
  apply bind_ext; intros plane_gen. apply bind_ext; intros pixels'.
  reflexivity.
Qed.

Lemma pyramid_dim_order image p sc al xyzct xyzct' pad s :
  pyramid image p sc al xyzct pad (Some s)
  = pyramid image p sc al xyzct' pad (Some s).
Proof.
  unfold pyramid. do 5 (apply bind_ext; intros ?). apply bind_ext; intros wh.
  apply bind_ext; intros pixels.
  destruct (out_of_bounds _ _); [reflexivity|].
  apply bind_ext; intros plane_gen. apply bind_ext; intros pixels'.
  reflexivity.
Qed.

Lemma get_image_dim_order conn image_id no_pixels start_coords axis_lengths
    pad pyramid_level s xyzct xyzct' :
  get_image conn image_id no_pixels start_coords axis_lengths
            xyzct pad pyramid_level (PyStr s)
  = get_image conn image_id no_pixels start_coords axis_lengths
              xyzct' pad pyramid_level (PyStr s).
Proof.
  unfold get_image.
  apply bind_ext; intros sc. apply bind_ext; intros al.
  apply bind_ext; intros id. apply bind_ext; intros pl.
  unfold check_dim_order. destruct (negb _); [reflexivity|].
  rewrite !bind_ret. apply bind_ext; intros _.
  destruct (conn id) as [image|]; [|reflexivity].
  destruct (is_False no_pixels); [|reflexivity].
  destruct pl as [p|].
  - destruct (p =? 0).
    + now rewrite (full_resolution_dim_order image sc al xyzct xyzct').
    + now rewrite (pyramid_dim_order image p sc al xyzct xyzct').
  - now rewrite (full_resolution_dim_order image sc al xyzct xyzct').
Qed.

(** C8. On a canonical buffer of shape (T,Z,Y,X,C), [dim_order="xyzct"]
    gives a view of shape (X,Y,Z,C,T) whose element [x,y,z,c,t] is the
    buffer's element [t,z,y,x,c]; the flag [xyzct=True] alone gives the same
    view; and when [dim_order] is a string, [get_image] does not look at the
    [xyzct] flag at all. *)
Theorem reorder_xyzct_view :
  forall (nt nz ny nx nc : Z) (contents : list Z -> Z),
    let pixels := {| shape := [nt; nz; ny; nx; nc]; item := contents |} in
    (forall xyzct,
        exists view,
          reorder_view pixels (Some "xyzct"%string) xyzct = ret view
          /\ shape view = [nx; ny; nz; nc; nt]
          /\ forall x y z c t,
               item view [x; y; z; c; t] = item pixels [t; z; y; x; c])
    /\ (exists view,
          reorder_view pixels None (PyBool true) = ret view
          /\ shape view = [nx; ny; nz; nc; nt]
          /\ forall x y z c t,
               item view [x; y; z; c; t] = item pixels [t; z; y; x; c])
    /\ (forall conn image_id no_pixels start_coords axis_lengths pad
               pyramid_level s xyzct xyzct',
          get_image conn image_id no_pixels start_coords axis_lengths
                    xyzct pad pyramid_level (PyStr s)
          = get_image conn image_id no_pixels start_coords axis_lengths
                      xyzct' pad pyramid_level (PyStr s)).
Proof.
  intros nt nz ny nx nc contents pixels. split; [|split].
  - intros xyzct. eexists. split; [reflexivity|]. split; reflexivity.
  - eexists. split; [reflexivity|]. split; reflexivity.
  - intros. apply get_image_dim_order.
Qed.

(** ** The order dictionary and upper-case letters *)

Lemma mem_ascii_In c l : mem_ascii c l = true <-> In c l.
Proof.
  unfold mem_ascii. rewrite existsb_exists. split.
  - intros [x [Hx E]]. apply Ascii.eqb_eq in E. now subst.
  - intros H. exists c. split; [exact H | apply Ascii.eqb_refl].
Qed.

Lemma set_eqb_Permutation a b : Permutation a b -> set_eqb a b = true.
Proof.
  intros P. unfold set_eqb. apply andb_true_iff. split;
    apply forallb_forall; intros c Hc; apply mem_ascii_In.
  - now apply (Permutation_in _ P).
  - now apply (Permutation_in _ (Permutation_sym P)).
Qed.

Lemma dict_get_set d k v k' :
  dict_get (dict_set d k v) k'
  = if Ascii.eqb k k' then Some v else dict_get d k'.
Proof.
  induction d as [|[k0 v0] d IH]; simpl.
  - reflexivity.
  - destruct (Ascii.eqb k0 k) eqn:E0; simpl.
    + apply Ascii.eqb_eq in E0. subst k0.
      now destruct (Ascii.eqb k k').
    + rewrite IH. destruct (Ascii.eqb k0 k') eqn:E1; [|reflexivity].
      apply Ascii.eqb_eq in E1. subst k'. now rewrite Ascii.eqb_sym, E0.
Qed.

Lemma dict_get_fold_None l d k :
  dict_get (fold_left (fun d kv => dict_set d (fst kv) (snd kv)) l d) k = None
  <-> dict_get d k = None /\ ~ In k (map fst l).
Proof.
  revert d. induction l as [|[k0 v0] l IH]; intros d; simpl.
  - tauto.
  - rewrite IH, dict_get_set. destruct (Ascii.eqb k0 k) eqn:E.
    + apply Ascii.eqb_eq in E. subst. split; [intros [? _]; discriminate|].
      intros [_ H]. exfalso. apply H. now left.
    + apply Ascii.eqb_neq in E. tauto.
Qed.

Lemma dict_of_zip_missing keys vals k :
  length keys = length vals ->
  ~ In k keys -> dict_get (dict_of_zip keys vals) k = None.
Proof.
  intros L H. unfold dict_of_zip. apply dict_get_fold_None. split.
  - reflexivity.
  - intros Hin. apply H. clear H. revert vals L Hin.
    induction keys as [|a keys IH]; intros [|v vals] L Hin;
      simpl in *; try discriminate; try contradiction.
    destruct Hin as [->|Hin]; [now left | right; eapply IH; eauto].
Qed.

(** The comprehension over ['tzyxc'] stops at the first missing key. *)
Lemma order_vector_KeyError d (f : ascii -> ascii) letters :
  (exists c, In c letters /\ dict_get d (f c) = None) ->
  exists k, mapM (fun c => dict_getitem d (f c)) letters = raise (KeyError k).
Proof.
  induction letters as [|a letters IH]; intros [c [Hin Hc]].
  - destruct Hin.
  - simpl. unfold dict_getitem at 1. destruct (dict_get d (f a)) eqn:E.
    + rewrite bind_ret. destruct Hin as [->|Hin]; [congruence|].
      destruct IH as [k Hk]; [now exists c|]. exists k. now rewrite Hk.
    + eexists. reflexivity.
Qed.

Lemma NoDup_map_injective A B (f : A -> B) l a b :
  NoDup (map f l) -> In a l -> In b l -> f a = f b -> a = b.
Proof.
  induction l as [|x l IH]; simpl; intros N Ha Hb E; [contradiction|].
  inversion N as [|? ? Hnot N']; subst.
  destruct Ha as [->|Ha], Hb as [->|Hb]; auto.
  - exfalso. apply Hnot. rewrite E. now apply in_map.
  - exfalso. apply Hnot. rewrite <- E. now apply in_map.
Qed.

Lemma lower_ascii_xyzct c :
  In c (list_ascii_of_string "xyzct") -> lower_ascii c = c.
Proof.
  simpl. intros H. repeat (destruct H as [<-|H]; [reflexivity|]).
  destruct H.
Qed.

Lemma NoDup_xyzct : NoDup (list_ascii_of_string "xyzct").
Proof.
  simpl. repeat constructor; simpl; intros H;
    repeat (destruct H as [H|H]; [discriminate H|]); exact H.
Qed.

(** A letter written in upper case is not a key of the dictionary under
    its lower-case form. *)
Lemma upper_case_key_missing s c :
  Permutation (lower s) (list_ascii_of_string "xyzct") ->
  In c (list_ascii_of_string s) -> lower_ascii c <> c ->
  In (lower_ascii c) (list_ascii_of_string "tzyxc")
  /\ dict_get (dict_of_zip (list_ascii_of_string s) (seq 0 5))
              (lower_ascii (lower_ascii c)) = None.
Proof.
  intros P Hin Hup.
  assert (Hl : In (lower_ascii c) (list_ascii_of_string "xyzct")).
  { apply (Permutation_in _ P). unfold lower. now apply in_map. }
  assert (Hidem : lower_ascii (lower_ascii c) = lower_ascii c)
    by now apply lower_ascii_xyzct.
  split.
  - simpl in Hl |- *. tauto.
  - rewrite Hidem. apply dict_of_zip_missing.
    + apply Permutation_length in P. unfold lower in P.
      rewrite length_map in P. exact P.
    + intros Hin'. apply Hup. symmetry.
      apply (@NoDup_map_injective _ _ lower_ascii (list_ascii_of_string s));
        auto.
      * apply (Permutation_NoDup (Permutation_sym P)). apply NoDup_xyzct.
Qed.

Lemma outcome_bind_Ok A B (m : M A) (f : A -> M B) b :
  outcome (bind m f) = Ok b ->
  exists a, outcome m = Ok a /\ outcome (f a) = Ok b.
Proof.
  unfold outcome, bind. destruct (snd m) as [a|e]; simpl; intros H.
  - now exists a.
  - discriminate.
Qed.

(** A pixel array that [get_image] returns has gone through
    [reorder_view]. *)
Lemma full_resolution_Ok_reorder image sc al xyzct pad dim view :
  outcome (full_resolution image sc al xyzct pad dim) = Ok view ->
  exists pixels, outcome (reorder_view pixels dim xyzct) = Ok view.
Proof.
  unfold full_resolution. intros H.
  apply outcome_bind_Ok in H. destruct H as [pixels [_ H]].
  destruct (out_of_bounds _ _); [discriminate|].
  apply outcome_bind_Ok in H. destruct H as [plane_gen [_ H]].
  apply outcome_bind_Ok in H. destruct H as [pixels' [_ H]].
  now exists pixels'.
Qed.

Lemma pyramid_Ok_reorder image p sc al xyzct pad dim view :
  outcome (pyramid image p sc al xyzct pad dim) = Ok view ->
  exists pixels, outcome (reorder_view pixels dim xyzct) = Ok view.
Proof.
  unfold pyramid. intros H.
  do 5 (apply outcome_bind_Ok in H; destruct H as [? [_ H]]).
  apply outcome_bind_Ok in H. destruct H as [wh [_ H]].
  apply outcome_bind_Ok in H. destruct H as [pixels [_ H]].
  destruct (out_of_bounds _ _); [discriminate|].
  apply outcome_bind_Ok in H. destruct H as [plane_gen [_ H]].
  apply outcome_bind_Ok in H. destruct H as [pixels' [_ H]].
  apply outcome_bind_Ok in H. destruct H as [pixel_view [Hv H]].
  apply outcome_bind_Ok in H. destruct H as [? [_ H]].
  inversion H; subst. now exists pixels'.
Qed.

Lemma get_image_Ok_reorder conn image_id no_pixels start_coords axis_lengths
    xyzct pad pyramid_level s img view :
  outcome (get_image conn image_id no_pixels start_coords axis_lengths
                     xyzct pad pyramid_level (PyStr s))
  = Ok (img, Some view) ->
  exists pixels, outcome (reorder_view pixels (Some s) xyzct) = Ok view.
Proof.
  unfold get_image. intros H.
  apply outcome_bind_Ok in H. destruct H as [sc [_ H]].
  apply outcome_bind_Ok in H. destruct H as [al [_ H]].
  apply outcome_bind_Ok in H. destruct H as [id [_ H]].
  apply outcome_bind_Ok in H. destruct H as [pl [_ H]].
  apply outcome_bind_Ok in H. destruct H as [dim [Hdim H]].
  assert (dim = Some s) as ->.
  { unfold check_dim_order in Hdim. destruct (negb _); [discriminate|].
    now inversion Hdim. }
  apply outcome_bind_Ok in H. destruct H as [_ [_ H]].
  destruct (conn id) as [image|]; [|discriminate].
  destruct (is_False no_pixels); [|discriminate].
  assert (Hfull : forall r,
             outcome (pixel_view <- full_resolution image sc al xyzct pad (Some s) ;;
                      ret (Some image, Some pixel_view)) = Ok r ->
             snd r = Some view ->
             exists pixels, outcome (reorder_view pixels (Some s) xyzct) = Ok view).
  { intros r Hr E. apply outcome_bind_Ok in Hr. destruct Hr as [v [Hv Hr]].
    inversion Hr; subst; simpl in E. inversion E; subst.
    eapply full_resolution_Ok_reorder; eauto. }
  destruct pl as [p|]; [destruct (p =? 0)|]; try (eapply Hfull; eauto; fail).
  apply outcome_bind_Ok in H. destruct H as [v [Hv Hr]].
  inversion Hr; subst. eapply pyramid_Ok_reorder; eauto.
Qed.

(** C10. A [dim_order] that holds each of x, y, z, c, t exactly once up to
    case, with at least one letter in upper case, passes the validation, and
    then the look-up of the lower-case letters in the dictionary keyed by
    the letters as written raises [KeyError]: [get_image] never returns a
    pixel array for it. *)
Theorem upper_case_dim_order_KeyError :
  forall s : string,
    Permutation (lower s) (list_ascii_of_string "xyzct") ->
    (exists c, In c (list_ascii_of_string s) /\ lower_ascii c <> c) ->
    check_dim_order (PyStr s) = ret (Some s)
    /\ (forall pixels xyzct,
           exists k, reorder_view pixels (Some s) xyzct = raise (KeyError k))
    /\ (forall conn image_id no_pixels start_coords axis_lengths xyzct pad
               pyramid_level img view,
           outcome (get_image conn image_id no_pixels start_coords
                              axis_lengths xyzct pad pyramid_level (PyStr s))
           <> Ok (img, Some view)).
Proof.
  intros s P [c [Hin Hup]].
  assert (Hre : forall pixels xyzct,
             exists k, reorder_view pixels (Some s) xyzct = raise (KeyError k)).
  { intros pixels xyzct. unfold reorder_view.
    destruct (upper_case_key_missing s c P Hin Hup) as [Hl Hmiss].
    destruct (@order_vector_KeyError
                (dict_of_zip (list_ascii_of_string s) (seq 0 5))
                lower_ascii (list_ascii_of_string "tzyxc")) as [k Hk].
    { exists (lower_ascii c). now split. }
    exists k. now rewrite Hk. }
  split; [|split].
  - unfold check_dim_order. now rewrite (set_eqb_Permutation _ _ P).
  - exact Hre.
  - intros conn image_id no_pixels start_coords axis_lengths xyzct pad
           pyramid_level img view H.
    apply get_image_Ok_reorder in H. destruct H as [pixels H].
    destruct (Hre pixels xyzct) as [k Hk]. rewrite Hk in H. discriminate.
Qed.

Lemma upper_case_dim_order_KeyError_witness :
  check_dim_order (PyStr "XYZCT") = ret (Some "XYZCT"%string)
  /\ (forall pixels xyzct,
         exists k,
           reorder_view pixels (Some "XYZCT"%string) xyzct = raise (KeyError k))
  /\ (forall conn image_id no_pixels start_coords axis_lengths xyzct pad
             pyramid_level img view,
         outcome (get_image conn image_id no_pixels start_coords
                            axis_lengths xyzct pad pyramid_level
                            (PyStr "XYZCT"))
         <> Ok (img, Some view)).
Proof.
  apply (upper_case_dim_order_KeyError "XYZCT").
  - vm_compute. apply Permutation_refl.
  - exists "X"%char. split; [simpl; auto | vm_compute; discriminate].
Defined.

(** ** Entering the two branches *)

Lemma check_coords_valid v m1 m2 :
  valid_coords v = true -> check_coords v m1 m2 = ret (coords_of v).
Proof.
  destruct v; simpl; try discriminate; auto. now intros ->.
Qed.

Lemma check_dim_order_valid v :
  valid_dim_order v = true -> check_dim_order v = ret (dim_order_of v).
Proof.
  destruct v; simpl; try discriminate; auto. now intros ->.
Qed.

Lemma bind_with_image image (m : M ndarray) :
  (pixel_view <- m ;; ret (Some image, Some pixel_view))
  = (trace m, with_image image (outcome m)).
Proof.
  destruct m as [t [v|e]]; unfold bind; simpl; [rewrite app_nil_r|];
    reflexivity.
Qed.

Section Entering.
Variables (conn : BlitzGateway) (id : Z) (image : ImageWrapper).
Variables (start_coords axis_lengths xyzct pad dim_order : pyval).
Hypothesis found : conn id = Some image.
Hypothesis valid_start : valid_coords start_coords = true.
Hypothesis valid_lengths : valid_coords axis_lengths = true.
Hypothesis valid_order : valid_dim_order dim_order = true.

Lemma get_image_full pyramid_level :
  pyramid_level = PyNone \/ pyramid_level = PyInt 0 ->
  let run := full_resolution image (coords_of start_coords)
               (coords_of axis_lengths) xyzct pad (dim_order_of dim_order) in
  get_image conn (PyInt id) (PyBool false) start_coords axis_lengths xyzct
            pad pyramid_level dim_order
  = (GetObject id :: trace run, with_image image (outcome run)).
Proof.
  intros Hpl run. unfold get_image.
  rewrite (check_coords_valid _ _ _ valid_start), bind_ret.
  rewrite (check_coords_valid _ _ _ valid_lengths), bind_ret.
  simpl check_image_id. rewrite bind_ret.
  rewrite (check_dim_order_valid _ valid_order).
  destruct Hpl as [-> | ->]; simpl check_pyramid_level;
    rewrite !bind_ret, bind_emit, found; simpl is_False; cbv iota;
    simpl (0 =? 0); cbv iota; rewrite bind_with_image; reflexivity.
Qed.

Lemma get_image_pyramid p :
  p <> 0 ->
  let run := pyramid image p (coords_of start_coords)
               (coords_of axis_lengths) xyzct pad (dim_order_of dim_order) in
  get_image conn (PyInt id) (PyBool false) start_coords axis_lengths xyzct
            pad (PyInt p) dim_order
  = (GetObject id :: trace run, with_image image (outcome run)).
Proof.
  intros Hp run. unfold get_image.
  rewrite (check_coords_valid _ _ _ valid_start), bind_ret.
  rewrite (check_coords_valid _ _ _ valid_lengths), bind_ret.
  simpl check_image_id. rewrite bind_ret.
  rewrite (check_dim_order_valid _ valid_order).
  simpl check_pyramid_level.
  rewrite !bind_ret, bind_emit, found. simpl is_False. cbv iota.
  apply Z.eqb_neq in Hp. rewrite Hp, bind_with_image. reflexivity.
Qed.
End Entering.

(** ** The two branches as instances of [extract] *)

Lemma bind_assoc A B C (m : M A) (f : A -> M B) (g : B -> M C) :
  bind (bind m f) g = bind m (fun a => bind (f a) g).
Proof.
  destruct m as [t1 [a|e]]; [|reflexivity].
  unfold bind; simpl. destruct (f a) as [t2 [b|e]]; simpl;
    [rewrite app_assoc|]; reflexivity.
Qed.

Lemma bind_ret_r A (m : M A) : bind m ret = m.
Proof.
  destruct m as [t [a|e]]; unfold bind; simpl; [rewrite app_nil_r|];
    reflexivity.
Qed.

Lemma full_resolution_extract image sc al xyzct pad dim :
  full_resolution image sc al xyzct pad dim
  = extract (native_extent image) (primary_fetch image) sc al xyzct pad dim.
Proof. reflexivity. Qed.

Lemma pyramid_extract image p sc al xyzct pad dim :
  pyramid image p sc al xyzct pad dim
  = (select_level image p ;;;
     wh <- py_getitem (getResolutionDescriptions (createRawPixelsStore image)) p ;;
     pixel_view <-
       extract [fst wh; snd wh; getSizeZ image; getSizeC image; getSizeT image]
               (raw_fetch (createRawPixelsStore image)
                  (Z.of_nat (length (getResolutionDescriptions
                                       (createRawPixelsStore image))) - p - 1)
                  (fst wh) (snd wh))
               sc al xyzct pad dim ;;
     emit RawClose ;;;
     ret pixel_view).
Proof.
  unfold pyramid, select_level. rewrite !bind_assoc.
  do 5 (apply bind_ext; intros ?). apply bind_ext; intros wh.
  unfold extract. rewrite bind_assoc. apply bind_ext; intros pixels.
  fold (default_start sc).
  destruct (out_of_bounds _ _); [reflexivity|].
  unfold raw_fetch. rewrite !bind_assoc.
  apply bind_ext; intros plane_gen. rewrite bind_ret, !bind_assoc.
  reflexivity.
Qed.

(** ** Lists of five *)

Lemma length5 (l : list Z) :
  length l = 5%nat -> exists a b c d e, l = [a; b; c; d; e].
Proof.
  destruct l as [|a [|b [|c [|d [|e [|]]]]]]; try discriminate.
  intros _. now exists a, b, c, d, e.
Qed.

Lemma default_start_length v :
  valid_coords v = true -> length (default_start (coords_of v)) = 5%nat.
Proof.
  destruct v; simpl; try discriminate; auto. apply Nat.eqb_eq.
Qed.

Lemma zip_with_length f l1 l2 :
  length l1 = length l2 -> length (zip_with f l1 l2) = length l1.
Proof.
  revert l2. induction l1 as [|a l1 IH]; intros [|b l2]; simpl;
    try discriminate; auto.
Qed.

Lemma default_lengths_length extent start v :
  length extent = 5%nat -> length start = 5%nat -> valid_coords v = true ->
  length (default_lengths extent start (coords_of v)) = 5%nat.
Proof.
  intros He Hs. destruct v; simpl; try discriminate; intros H.
  - rewrite zip_with_length; congruence.
  - now apply Nat.eqb_eq.
Qed.

Lemma py_getitem_silent A (l : list A) i : silent (py_getitem l i).
Proof.
  unfold py_getitem. destruct (_ && _); [|reflexivity].
  now destruct (nth_error _ _).
Qed.

Lemma silent_run A (m : M A) a : silent m -> outcome m = Ok a -> m = ret a.
Proof. destruct m; unfold silent, outcome; simpl. now intros -> ->. Qed.

Lemma resolution_extent_length image pl extent :
  resolution_extent image pl = Some extent -> length extent = 5%nat.
Proof.
  destruct pl as [| |p| | |]; simpl; try discriminate.
  - now intros [= <-].
  - destruct (p =? 0); [now intros [= <-]|].
    destruct (setResolutionLevel _ _); [|discriminate].
    destruct (outcome _); [|discriminate]. now intros [= <-].
Qed.

(** What a successful resolution of a level other than 0 means. *)
Lemma resolution_extent_level image p extent :
  p <> 0 -> resolution_extent image (PyInt p) = Some extent ->
  select_level image p
  = ([CreateRawPixelsStore; SetPixelsId; GetResolutionDescriptions;
      SetResolutionLevel (raw_level image p)], Ok tt)
  /\ exists wh,
      py_getitem (getResolutionDescriptions (createRawPixelsStore image)) p
      = ret wh
      /\ extent = [fst wh; snd wh; getSizeZ image; getSizeC image;
                   getSizeT image].
Proof.
  intros Hp. simpl. apply Z.eqb_neq in Hp. rewrite Hp.
  unfold select_level. fold (raw_level image p).
  destruct (setResolutionLevel _ _); [|discriminate].
  destruct (outcome _) as [wh|] eqn:E; [|discriminate]. intros [= <-].
  split; [reflexivity|]. exists wh. split; [|reflexivity].
  apply silent_run; [apply py_getitem_silent | exact E].
Qed.

(** ** [extract], step by step *)

Lemma np_zeros_ok sh :
  Forall (fun d => 0 <= d) sh -> np_zeros sh = ([NpZeros sh], Ok (zeros sh)).
Proof.
  intros H. unfold np_zeros.
  replace (existsb (fun d => d <? 0) sh) with false; [reflexivity|].
  symmetry. apply not_true_is_false. intros E.
  apply existsb_exists in E. destruct E as [d [Hd E]].
  rewrite Forall_forall in H. specialize (H d Hd). lia.
Qed.

Lemma reorder_sizes_nonneg l :
  length l = 5%nat -> Forall (fun d => 0 <= d) l ->
  Forall (fun d => 0 <= d) (reorder_sizes l).
Proof.
  intros L H. destruct (length5 l L) as (a & b & c & d & e & ->).
  unfold reorder_sizes, ix; simpl.
  repeat match goal with H : Forall _ (_ :: _) |- _ => inversion H; clear H; subst end.
  repeat constructor; assumption.
Qed.

Lemma silent_assemble start lengths plane_gen zct_list pixels :
  Forall silent plane_gen ->
  silent (assemble start lengths plane_gen zct_list pixels).
Proof.
  intros H. revert zct_list pixels.
  induction H as [|next plane_gen Hn _ IH]; intros zct_list pixels; simpl.
  - reflexivity.
  - apply silent_bind; [exact Hn|]. intros p.
    destruct zct_list as [|[[z0 c0] t0] zct_list]; [reflexivity|].
    apply silent_bind; [apply silent_setitem_plane|]. intros pixels'. apply IH.
Qed.

Section Extract.
Variables (orig_sizes : list Z) (fetch : fetcher).
Variables (sc al : option (list Z)) (xyzct pad : pyval) (dim : option string).

Let start := default_start sc.
Let req := default_lengths orig_sizes start al.
Let eff := effective start req orig_sizes.
Let zcts := zct_enumerate start eff.
Let whole := list_eqb (reorder_sizes req) (reorder_sizes orig_sizes).

Hypothesis alloc : Forall (fun d => 0 <= d) (reorder_sizes req).

Lemma extract_out_of_bounds :
  out_of_bounds (compute_overhangs req start orig_sizes) pad = true ->
  extract orig_sizes fetch sc al xyzct pad dim
  = ([NpZeros (reorder_sizes req)], Raise (IndexError oob_msg)).
Proof.
  intros H. unfold extract. fold start. fold req.
  rewrite (bind_run _ _ _ _ _ _ (np_zeros_ok _ alloc)), H. reflexivity.
Qed.

Lemma extract_in_bounds :
  out_of_bounds (compute_overhangs req start orig_sizes) pad = false ->
  extract orig_sizes fetch sc al xyzct pad dim
  = (emit (NpZeros (reorder_sizes req)) ;;;
     plane_gen <- fetch whole start eff zcts ;;
     pixels <- assemble start eff plane_gen zcts (zeros (reorder_sizes req)) ;;
     reorder_view pixels dim xyzct).
Proof.
  intros H. unfold extract. fold start. fold req.
  rewrite (bind_run _ _ _ _ _ _ (np_zeros_ok _ alloc)), H. reflexivity.
Qed.

(** With a fetcher whose items read nothing further when they are
    consumed, the events of [extract] past the allocation are those of
    the fetcher. *)
Hypothesis items_silent :
  forall w s a zl pg, outcome (fetch w s a zl) = Ok pg -> Forall silent pg.

Lemma extract_trace :
  out_of_bounds (compute_overhangs req start orig_sizes) pad = false ->
  trace (extract orig_sizes fetch sc al xyzct pad dim)
  = NpZeros (reorder_sizes req) :: trace (fetch whole start eff zcts).
Proof.
  intros H. rewrite (extract_in_bounds H). rewrite bind_emit.
  unfold trace. simpl. f_equal.
  destruct (fetch whole start eff zcts) as [t [pg|e]] eqn:E;
    unfold bind at 1; simpl; [|reflexivity].
  assert (S : silent (pixels <- assemble start eff pg zcts
                                  (zeros (reorder_sizes req)) ;;
                      reorder_view pixels dim xyzct)).
  { apply silent_bind.
    - apply silent_assemble. apply (items_silent whole start eff zcts).
      now rewrite E.
    - intros. apply silent_reorder_view. }
  unfold silent in S. rewrite S. apply app_nil_r.
Qed.
End Extract.

(** ** The two fetchers *)

Lemma primary_fetch_items image w s a zl pg :
  outcome (primary_fetch image w s a zl) = Ok pg -> Forall silent pg.
Proof.
  unfold primary_fetch. destruct w; simpl; intros [= <-];
    apply Forall_forall; intros m Hm; apply in_map_iff in Hm;
    destruct Hm as [x [<- _]]; unfold silent; now destruct (_ : option plane).
Qed.

Lemma raw_fetch_items pix level w0 h0 w s a zl pg :
  outcome (raw_fetch pix level w0 h0 w s a zl) = Ok pg -> Forall silent pg.
Proof.
  unfold raw_fetch. intros H. apply outcome_bind_Ok in H.
  destruct H as [planes [_ H]]. inversion H; subst.
  apply Forall_forall. intros m Hm. apply in_map_iff in Hm.
  now destruct Hm as [x [<- _]].
Qed.

Lemma fetcher_of_items image pl extent w s a zl pg :
  outcome (fetcher_of image pl extent w s a zl) = Ok pg -> Forall silent pg.
Proof.
  unfold fetcher_of. destruct pl as [| |p| | |];
    try apply primary_fetch_items.
  destruct (p =? 0); [apply primary_fetch_items | apply raw_fetch_items].
Qed.

(** ** A call that reaches [extract] *)

Lemma bind_close (m : M ndarray) :
  (pixel_view <- m ;; emit RawClose ;;; ret pixel_view)
  = (trace m ++ match outcome m with Ok _ => [RawClose] | Raise _ => [] end,
     outcome m).
Proof.
  destruct m as [t [v|e]]; unfold bind; simpl; [|rewrite app_nil_r];
    reflexivity.
Qed.

Section Run.
Variables (conn : BlitzGateway) (id : Z) (image : ImageWrapper).
Variables (start_coords axis_lengths xyzct pad pyramid_level dim_order : pyval).
Variable extent : list Z.
Hypothesis found : conn id = Some image.
Hypothesis valid_start : valid_coords start_coords = true.
Hypothesis valid_lengths : valid_coords axis_lengths = true.
Hypothesis valid_order : valid_dim_order dim_order = true.
Hypothesis resolved : resolution_extent image pyramid_level = Some extent.

Lemma get_image_run :
  let run := extract extent (fetcher_of image pyramid_level extent)
               (coords_of start_coords) (coords_of axis_lengths) xyzct pad
               (dim_order_of dim_order) in
  get_image conn (PyInt id) (PyBool false) start_coords axis_lengths xyzct
            pad pyramid_level dim_order
  = (prologue id image pyramid_level ++ trace run
       ++ epilogue pyramid_level (outcome run),
     with_image image (outcome run)).
Proof.
  intros run. subst run.
  assert (Hfull : pyramid_level = PyNone \/ pyramid_level = PyInt 0 ->
                  extent = native_extent image).
  { intros [E|E]; rewrite E in resolved; simpl in resolved; congruence. }
  destruct pyramid_level as [| |p| | |] eqn:Epl; try discriminate resolved.
  - rewrite (get_image_full conn id image _ _ _ _ _ found valid_start
               valid_lengths valid_order PyNone (or_introl eq_refl)).
    rewrite full_resolution_extract, Hfull by auto.
    unfold prologue, epilogue. rewrite app_nil_r. reflexivity.
  - destruct (Z.eq_dec p 0) as [->|Hp].
    + rewrite (get_image_full conn id image _ _ _ _ _ found valid_start
                 valid_lengths valid_order (PyInt 0) (or_intror eq_refl)).
      rewrite full_resolution_extract, Hfull by auto.
      replace (epilogue (PyInt 0) _) with (@nil event)
        by (unfold epilogue; now destruct (outcome _)).
      rewrite app_nil_r. reflexivity.
    + rewrite (get_image_pyramid conn id image _ _ _ _ _ found valid_start
                 valid_lengths valid_order p Hp).
      destruct (resolution_extent_level image p extent Hp resolved)
        as [Hsel [wh [Hwh ->]]].
      rewrite pyramid_extract.
      rewrite (bind_run _ _ _ _ _ _ Hsel), Hwh, bind_ret, bind_close.
      unfold prologue, epilogue, fetcher_of, ix, trace, outcome.
      apply Z.eqb_neq in Hp. rewrite Hp. simpl. reflexivity.
Qed.
End Run.

(** ** The bounds check *)

Lemma out_of_bounds_axis start lengths extent :
  length start = 5%nat -> length lengths = 5%nat -> length extent = 5%nat ->
  (exists axis, (axis < 5)%nat /\ 0 < overhang start lengths extent axis) ->
  out_of_bounds (compute_overhangs lengths start extent) (PyBool false) = true.
Proof.
  intros Ls Ll Le [axis [Hlt H]].
  destruct (length5 _ Ls) as (s0 & s1 & s2 & s3 & s4 & ->).
  destruct (length5 _ Ll) as (l0 & l1 & l2 & l3 & l4 & ->).
  destruct (length5 _ Le) as (e0 & e1 & e2 & e3 & e4 & ->).
  unfold out_of_bounds, compute_overhangs. rewrite andb_true_r.
  apply existsb_exists. unfold overhang, ix in H.
  destruct axis as [|[|[|[|[|axis]]]]]; [| | | | |lia]; simpl in H;
    eexists; (split; [|apply Z.ltb_lt]).
  - left. reflexivity.
  - lia.
  - right; left. reflexivity.
  - lia.
  - do 2 right; left. reflexivity.
  - lia.
  - do 3 right; left. reflexivity.
  - lia.
  - do 4 right; left. reflexivity.
  - lia.
Qed.

Lemma fetch_requests_app t1 t2 :
  fetch_requests (t1 ++ t2) = fetch_requests t1 ++ fetch_requests t2.
Proof. apply flat_map_app. Qed.

Lemma fetch_requests_prologue id image pl :
  fetch_requests (prologue id image pl) = [].
Proof.
  unfold prologue. destruct pl as [| |p| | |]; try reflexivity.
  now destruct (p =? 0).
Qed.

Lemma fetch_requests_epilogue pl r : fetch_requests (epilogue pl r) = [].
Proof.
  unfold epilogue. destruct pl as [| |p| | |], r; try reflexivity.
  now destruct (p =? 0).
Qed.

(** ** [get_image] on a machine *)

Lemma get_image_on_unbounded conn image_id no_pixels sc al xyzct pad pl dim :
  get_image_on unbounded conn image_id no_pixels sc al xyzct pad pl dim
  = get_image conn image_id no_pixels sc al xyzct pad pl dim.
Proof. reflexivity. Qed.

Lemma full_resolution_on_cases m image sc al xyzct pad dim :
  full_resolution_on m image sc al xyzct pad dim
  = match refuses m (reorder_sizes
                       (default_lengths (native_extent image)
                                        (default_start sc) al)) with
    | Some e => raise e
    | None => full_resolution image sc al xyzct pad dim
    end.
Proof.
  unfold full_resolution_on, full_resolution, np_zeros_on, default_lengths,
    default_start, native_extent.
  cbv zeta. destruct (refuses m _); reflexivity.
Qed.

(** The pyramid branch up to the allocation, whatever the machine. *)
Lemma pyramid_on_shape image p sc al xyzct pad dim :
  exists tail : Z * Z -> ndarray -> M ndarray,
    forall m,
      pyramid_on m image p sc al xyzct pad dim
      = (select_level image p ;;;
         wh <- py_getitem (getResolutionDescriptions
                             (createRawPixelsStore image)) p ;;
         pixels <- np_zeros_on m
                     (reorder_sizes
                        (default_lengths
                           [fst wh; snd wh; getSizeZ image; getSizeC image;
                            getSizeT image]
                           (default_start sc) al)) ;;
         tail wh pixels).
Proof.
  eexists. intros m. unfold pyramid_on, select_level. rewrite !bind_assoc.
  do 5 (apply bind_ext; intros ?). apply bind_ext; intros wh.
  cbv zeta. unfold default_lengths, default_start.
  apply bind_ext; intros pixels.
  match goal with
  | |- ?body = ?tail wh pixels =>
      pattern wh, pixels; reflexivity
  end.
Qed.

Lemma pyramid_on_cases m image p sc al xyzct pad dim evs wh :
  select_level image p = (evs, Ok tt) ->
  py_getitem (getResolutionDescriptions (createRawPixelsStore image)) p
  = ret wh ->
  pyramid_on m image p sc al xyzct pad dim
  = match refuses m (reorder_sizes
                       (default_lengths
                          [fst wh; snd wh; getSizeZ image; getSizeC image;
                           getSizeT image]
                          (default_start sc) al)) with
    | Some e => (evs, Raise e)
    | None => pyramid image p sc al xyzct pad dim
    end.
Proof.
  intros Hsel Hwh.
  destruct (pyramid_on_shape image p sc al xyzct pad dim) as [tail Htail].
  change (pyramid image p sc al xyzct pad dim)
    with (pyramid_on unbounded image p sc al xyzct pad dim).
  rewrite (Htail m), (Htail unbounded).
  rewrite !(bind_run _ _ _ _ _ _ Hsel), Hwh, !bind_ret.
  assert (Hm : forall sh,
            np_zeros_on m sh
            = match refuses m sh with
              | Some e => raise e
              | None => np_zeros_on unbounded sh
              end).
  { intros sh. unfold np_zeros_on. destruct (refuses m sh); reflexivity. }
  rewrite Hm. destruct (refuses m _) as [e | ]; [ | reflexivity].
  rewrite bind_raise. cbn [fst snd raise]. rewrite app_nil_r. reflexivity.
Qed.

Section EnteringOn.
Variable m : machine.
Variables (conn : BlitzGateway) (id : Z) (image : ImageWrapper).
Variables (start_coords axis_lengths xyzct pad dim_order : pyval).
Hypothesis found : conn id = Some image.
Hypothesis valid_start : valid_coords start_coords = true.
Hypothesis valid_lengths : valid_coords axis_lengths = true.
Hypothesis valid_order : valid_dim_order dim_order = true.

Lemma get_image_on_full pyramid_level :
  pyramid_level = PyNone \/ pyramid_level = PyInt 0 ->
  let run := full_resolution_on m image (coords_of start_coords)
               (coords_of axis_lengths) xyzct pad (dim_order_of dim_order) in
  get_image_on m conn (PyInt id) (PyBool false) start_coords axis_lengths
               xyzct pad pyramid_level dim_order
  = (GetObject id :: trace run, with_image image (outcome run)).
Proof.
  intros Hpl run. unfold get_image_on.
  rewrite (check_coords_valid _ _ _ valid_start), bind_ret.
  rewrite (check_coords_valid _ _ _ valid_lengths), bind_ret.
  simpl check_image_id. rewrite bind_ret.
  rewrite (check_dim_order_valid _ valid_order).
  destruct Hpl as [-> | ->]; simpl check_pyramid_level;
    rewrite !bind_ret, bind_emit, found; simpl is_False; cbv iota;
    simpl (0 =? 0); cbv iota; rewrite bind_with_image; reflexivity.
Qed.

Lemma get_image_on_pyramid p :
  p <> 0 ->
  let run := pyramid_on m image p (coords_of start_coords)
               (coords_of axis_lengths) xyzct pad (dim_order_of dim_order) in
  get_image_on m conn (PyInt id) (PyBool false) start_coords axis_lengths
               xyzct pad (PyInt p) dim_order
  = (GetObject id :: trace run, with_image image (outcome run)).
Proof.
  intros Hp run. unfold get_image_on.
  rewrite (check_coords_valid _ _ _ valid_start), bind_ret.
  rewrite (check_coords_valid _ _ _ valid_lengths), bind_ret.
  simpl check_image_id. rewrite bind_ret.
  rewrite (check_dim_order_valid _ valid_order).
  simpl check_pyramid_level.
  rewrite !bind_ret, bind_emit, found. simpl is_False. cbv iota.
  apply Z.eqb_neq in Hp. rewrite Hp, bind_with_image. reflexivity.
Qed.

Variable pyramid_level : pyval.
Variable extent : list Z.
Hypothesis resolved : resolution_extent image pyramid_level = Some extent.

(** A call that reaches a branch: the machine refuses the shape asked for,
    and the call raises what [np.zeros] raises once the level is selected;
    or it does not, and the call goes as on the machine that refuses
    nothing. *)
Lemma get_image_on_cases :
  get_image_on m conn (PyInt id) (PyBool false) start_coords axis_lengths
               xyzct pad pyramid_level dim_order
  = match refuses m (reorder_sizes
                       (default_lengths extent
                          (default_start (coords_of start_coords))
                          (coords_of axis_lengths))) with
    | Some e => (prologue id image pyramid_level, Raise e)
    | None =>
        get_image conn (PyInt id) (PyBool false) start_coords axis_lengths
                  xyzct pad pyramid_level dim_order
    end.
Proof.
  assert (Hfull : pyramid_level = PyNone \/ pyramid_level = PyInt 0 ->
                  extent = native_extent image).
  { intros [E|E]; rewrite E in resolved; simpl in resolved; congruence. }
  destruct pyramid_level as [| |p| | |] eqn:Epl; try discriminate resolved.
  - rewrite (get_image_on_full PyNone (or_introl eq_refl)).
    rewrite (get_image_full conn id image _ _ _ _ _ found valid_start
               valid_lengths valid_order PyNone (or_introl eq_refl)).
    rewrite full_resolution_on_cases, Hfull by auto.
    destruct (refuses m _); reflexivity.
  - destruct (Z.eq_dec p 0) as [->|Hp].
    + rewrite (get_image_on_full (PyInt 0) (or_intror eq_refl)).
      rewrite (get_image_full conn id image _ _ _ _ _ found valid_start
                 valid_lengths valid_order (PyInt 0) (or_intror eq_refl)).
      rewrite full_resolution_on_cases, Hfull by auto.
      destruct (refuses m _); reflexivity.
    + rewrite (get_image_on_pyramid p Hp).
      rewrite (get_image_pyramid conn id image _ _ _ _ _ found valid_start
                 valid_lengths valid_order p Hp).
      destruct (resolution_extent_level image p extent Hp resolved)
        as [Hsel [wh [Hwh ->]]].
      rewrite (pyramid_on_cases m image p _ _ _ _ _ _ wh Hsel Hwh).
      destruct (refuses m _); [ | reflexivity].
      unfold prologue, trace, outcome. cbn [fst snd with_image].
      apply Z.eqb_neq in Hp. rewrite Hp. reflexivity.
Qed.
End EnteringOn.

(** C3, as the code has it.  A request with a positive overhang on some
    axis and [pad=False] fails, in either branch and on every machine, and
    the trace of the call holds no plane or tile read.  The array is asked
    of [np.zeros] before the bounds are checked: when [np.zeros] takes the
    shape, the call fails with the out-of-bounds [IndexError]; when it
    refuses the shape, the call fails with what [np.zeros] raises.  The
    request is one that reaches the allocation: its arguments pass the
    validation, the image exists, the resolution level is selected and no
    requested length is negative. *)
Theorem out_of_bounds_fails_before_fetch :
  forall m conn id image start_coords axis_lengths xyzct pyramid_level
         dim_order extent,
    conn id = Some image ->
    valid_coords start_coords = true ->
    valid_coords axis_lengths = true ->
    valid_dim_order dim_order = true ->
    resolution_extent image pyramid_level = Some extent ->
    let start := default_start (coords_of start_coords) in
    let lengths := default_lengths extent start (coords_of axis_lengths) in
    Forall (fun d => 0 <= d) lengths ->
    (exists axis, (axis < 5)%nat /\ 0 < overhang start lengths extent axis) ->
    let run := get_image_on m conn (PyInt id) (PyBool false) start_coords
                            axis_lengths xyzct (PyBool false) pyramid_level
                            dim_order in
    outcome run
    = Raise (match refuses m (reorder_sizes lengths) with
             | Some e => e
             | None => IndexError oob_msg
             end)
    /\ fetch_requests (trace run) = [].
Proof.
  intros m conn id image start_coords axis_lengths xyzct pyramid_level
         dim_order extent found Vs Vl Vo Hext start lengths Hpos Hover run.
  pose proof (resolution_extent_length _ _ _ Hext) as Le.
  pose proof (default_start_length _ Vs) as Ls.
  pose proof (default_lengths_length extent start _ Le Ls Vl) as Ll.
  subst run.
  rewrite (get_image_on_cases m conn id image _ _ _ _ _ found Vs Vl Vo _
             extent Hext).
  fold start. fold lengths.
  destruct (refuses m (reorder_sizes lengths)) as [e | ].
  - unfold outcome, trace. cbn [fst snd]. split; [reflexivity | ].
    apply fetch_requests_prologue.
  - rewrite (get_image_run conn id image _ _ _ _ _ _ extent found Vs Vl Vo
               Hext).
    rewrite extract_out_of_bounds.
    + unfold outcome, trace. cbn [fst snd]. split; [reflexivity|].
      rewrite !fetch_requests_app, fetch_requests_prologue,
        fetch_requests_epilogue. reflexivity.
    + apply reorder_sizes_nonneg; assumption.
    + apply out_of_bounds_axis; assumption.
Qed.

(** C3, as stated, fails: a request with an overhang and [pad=False] whose
    shape [np.zeros] refuses fails with the [ValueError] of [np.zeros], not
    with the out-of-bounds error.  Here the X length is 2^63, one more than
    [intp] holds. *)
Lemma out_of_bounds_shape_refused :
  let run := get_image_on intp64 (Mock.conn Sample.small) (PyInt 1)
                          (PyBool false) (Sample.tuple5 0 0 0 0 0)
                          (Sample.tuple5 (2 ^ 63) 1 1 1 1) (PyBool false)
                          (PyBool false) PyNone PyNone in
  0 < overhang [0; 0; 0; 0; 0] [2 ^ 63; 1; 1; 1; 1] [2; 2; 2; 1; 1] 0
  /\ run = ([GetObject 1],
            Raise (ValueError "Maximum allowed dimension exceeded"))
  /\ outcome run <> Raise (IndexError oob_msg).
Proof.
  split; [reflexivity | ]. split; [vm_compute; reflexivity | ].
  vm_compute. discriminate.
Qed.


(** ** The level set on the raw pixels store *)

Lemma emits_only_bind_Ok P A B (m : M A) (f : A -> M B) :
  emits_only P m -> (forall a, outcome m = Ok a -> emits_only P (f a)) ->
  emits_only P (bind m f).
Proof.
  unfold emits_only, bind, outcome. intros Hm Hf.
  destruct (snd m); simpl; [apply Forall_app; split|]; auto.
Qed.

Lemma emits_only_np_zeros (P : event -> Prop) sh :
  P (NpZeros sh) -> emits_only P (np_zeros sh).
Proof.
  intros H. unfold np_zeros. destruct (existsb _ _); auto with trace.
  apply emits_only_bind; auto with trace.
Qed.

Lemma emits_only_extract (P : event -> Prop) orig fetch sc al xyzct pad dim :
  (forall sh, P (NpZeros sh)) ->
  (forall w s a zl, emits_only P (fetch w s a zl)) ->
  (forall w s a zl pg, outcome (fetch w s a zl) = Ok pg -> Forall silent pg) ->
  emits_only P (extract orig fetch sc al xyzct pad dim).
Proof.
  intros Hz Hf Hitems. unfold extract.
  apply emits_only_bind; [apply emits_only_np_zeros, Hz|]. intros pixels.
  destruct (out_of_bounds _ _); auto with trace.
  apply emits_only_bind_Ok; [apply Hf|]. intros pg Hpg.
  apply silent_emits_only, silent_bind.
  - apply silent_assemble. eapply Hitems, Hpg.
  - intros. apply silent_reorder_view.
Qed.

Lemma emits_only_raw_fetch (P : event -> Prop) pix level w0 h0 w s a zl :
  (forall z c t, P (RawGetPlane z c t)) ->
  (forall z c t x y tw th, P (RawGetTile z c t x y tw th)) ->
  emits_only P (raw_fetch pix level w0 h0 w s a zl).
Proof.
  intros Hp Ht. unfold raw_fetch.
  apply emits_only_bind; [|auto with trace].
  destruct w; apply emits_only_mapM; intros [[z c] t];
    (apply emits_only_bind; [auto with trace|]); intros _;
    (apply emits_only_bind; [auto with trace|]); intros data;
    apply silent_emits_only, silent_np_reshape2.
Qed.

Lemma set_levels_none tr : Forall not_set_level tr -> set_levels tr = [].
Proof.
  induction 1 as [|e tr He _ IH]; [reflexivity|].
  unfold set_levels in *. simpl. rewrite IH. now destruct e.
Qed.

(** C1. With [n] resolution levels and [0 < p < n], a call that enters the
    pyramid branch sets the level of the raw pixels store exactly once, to
    [n - p - 1]. *)
Theorem pyramid_level_inversion :
  forall conn id image start_coords axis_lengths xyzct pad dim_order p,
    conn id = Some image ->
    valid_coords start_coords = true ->
    valid_coords axis_lengths = true ->
    valid_dim_order dim_order = true ->
    let n := Z.of_nat (length (getResolutionDescriptions
                                 (createRawPixelsStore image))) in
    0 < p < n ->
    set_levels (trace (get_image conn (PyInt id) (PyBool false) start_coords
                                 axis_lengths xyzct pad (PyInt p) dim_order))
    = [n - p - 1].
Proof.
  intros conn id image start_coords axis_lengths xyzct pad dim_order p
         found Vs Vl Vo n Hp.
  rewrite (get_image_pyramid conn id image _ _ _ _ _ found Vs Vl Vo p)
    by lia.
  rewrite pyramid_extract. unfold trace at 1. simpl fst.
  unfold select_level. rewrite !bind_assoc, !bind_emit. simpl fst.
  fold n. unfold set_levels. simpl flat_map. f_equal.
  apply set_levels_none.
  destruct (setResolutionLevel _ _); [rewrite bind_ret | constructor].
  apply emits_only_bind; [apply silent_emits_only, py_getitem_silent|].
  intros wh. apply emits_only_bind.
  - apply emits_only_extract.
    + intros sh. exact I.
    + intros. apply emits_only_raw_fetch; intros; exact I.
    + intros w s a zl pg. apply raw_fetch_items.
  - intros v. apply emits_only_bind; auto with trace.
    apply emits_only_emit. exact I.
Qed.

Lemma pyramid_level_inversion_witness :
  set_levels
    (trace (get_image (Mock.conn Sample.pyramidal) (PyInt 1) (PyBool false)
                      PyNone PyNone (PyBool false) (PyBool false) (PyInt 1)
                      PyNone))
  = [4 - 1 - 1].
Proof.
  apply (pyramid_level_inversion (Mock.conn Sample.pyramidal) 1
           Sample.pyramidal PyNone PyNone (PyBool false) (PyBool false)
           PyNone 1); try reflexivity.
  vm_compute. split; reflexivity.
Defined.

(** The levels 1, 2 and 3 of a four-level image are the levels 2, 1 and 0
    of its raw pixels store. *)
Example pyramid_levels_of_four :
  map (fun p =>
         set_levels
           (trace (get_image (Mock.conn Sample.pyramidal) (PyInt 1)
                             (PyBool false) PyNone PyNone (PyBool false)
                             (PyBool false) (PyInt p) PyNone)))
      [1; 2; 3]
  = [[2]; [1]; [0]].
Proof. vm_compute. reflexivity. Qed.

Lemma out_of_bounds_fails_before_fetch_witness :
  let run := get_image_on intp64 (Mock.conn Sample.small) (PyInt 1)
                          (PyBool false) (Sample.tuple5 0 0 0 0 0)
                          (Sample.tuple5 3 1 1 1 1) (PyBool false)
                          (PyBool false) (PyInt 1) PyNone in
  outcome run = Raise (IndexError oob_msg)
  /\ fetch_requests (trace run) = [].
Proof.
  apply (out_of_bounds_fails_before_fetch intp64 (Mock.conn Sample.small) 1
           Sample.small (Sample.tuple5 0 0 0 0 0) (Sample.tuple5 3 1 1 1 1)
           (PyBool false) (PyInt 1) PyNone [1; 1; 2; 1; 1]);
    try reflexivity.
  - repeat constructor; discriminate.
  - exists 0%nat. split; [lia | reflexivity].
Defined.

(** ** Closing the raw pixels store *)

Lemma emits_only_select_level (P : event -> Prop) image p :
  P CreateRawPixelsStore -> P SetPixelsId -> P GetResolutionDescriptions ->
  (forall l, P (SetResolutionLevel l)) ->
  emits_only P (select_level image p).
Proof.
  intros. unfold select_level.
  repeat (apply emits_only_bind; [auto with trace|]; intros _).
  destruct (setResolutionLevel _ _); auto with trace.
Qed.

(** The pyramid branch closes the store when, and only when, it returns. *)
Lemma pyramid_closes_iff_returns image p sc al xyzct pad dim :
  In RawClose (trace (pyramid image p sc al xyzct pad dim))
  <-> exists view, outcome (pyramid image p sc al xyzct pad dim) = Ok view.
Proof.
  set (P := fun e => e <> RawClose).
  assert (Hsel : emits_only P (select_level image p))
    by (apply emits_only_select_level; intros; discriminate).
  assert (Hext : forall wh,
             emits_only P
               (extract [fst wh; snd wh; getSizeZ image; getSizeC image;
                         getSizeT image]
                  (raw_fetch (createRawPixelsStore image)
                     (Z.of_nat (length (getResolutionDescriptions
                                          (createRawPixelsStore image))) - p - 1)
                     (fst wh) (snd wh)) sc al xyzct pad dim)).
  { intros wh. apply emits_only_extract.
    - intros; discriminate.
    - intros. apply emits_only_raw_fetch; intros; discriminate.
    - intros w s a zl pg. apply raw_fetch_items. }
  assert (Hno : forall tr, Forall P tr -> ~ In RawClose tr).
  { intros tr F Hin. rewrite Forall_forall in F. now apply (F _ Hin). }
  rewrite pyramid_extract.
  destruct (select_level image p) as [t1 [[]|e1]] eqn:E1;
    unfold emits_only in Hsel; simpl in Hsel.
  2:{ unfold bind, trace, outcome; simpl. split.
      - intros Hin. now apply Hno in Hin.
      - intros [v Hv]. discriminate. }
  pose proof (py_getitem_silent _
                (getResolutionDescriptions (createRawPixelsStore image)) p) as S.
  destruct (py_getitem _ p) as [t2 [wh|e2]] eqn:E2; unfold silent in S;
    simpl in S; subst t2.
  2:{ unfold bind, trace, outcome; simpl. rewrite app_nil_r. split.
      - intros Hin. now apply Hno in Hin.
      - intros [v Hv]. discriminate. }
  erewrite (bind_run _ _ _ _ _ _ eq_refl).
  change (@pair (list event) (result (Z * Z)) [] (Ok wh)) with (ret wh).
  rewrite bind_ret, bind_close.
  specialize (Hext wh). unfold emits_only in Hext.
  unfold trace, outcome. cbn [fst snd].
  destruct (extract _ _ sc al xyzct pad dim) as [t3 [v|e3]]; cbn [fst snd] in *.
  - split; [eauto|]. intros _. rewrite !in_app_iff. right; right. now left.
  - rewrite app_nil_r. split.
    + rewrite in_app_iff. intros [Hin|Hin]; now apply Hno in Hin.
    + intros [v Hv]. discriminate.
Qed.

(** C2. A call that enters the pyramid branch, asks for more columns than
    the level has and does not pad: the raw pixels store is created, the
    call raises the out-of-bounds [IndexError], and [pix.close()] has not
    been called; the same happens when a tile read fails. *)
Theorem raw_store_left_open_on_error :
  let oob := get_image (Mock.conn Sample.small) (PyInt 1) (PyBool false)
                       (Sample.tuple5 0 0 0 0 0) (Sample.tuple5 2 1 1 1 1)
                       (PyBool false) (PyBool false) (PyInt 1) PyNone in
  let failed_read :=
    get_image (Mock.conn Sample.small) (PyInt 1) (PyBool false)
              (Sample.tuple5 5 0 0 0 0) (Sample.tuple5 1 1 1 1 1)
              (PyBool false) (PyBool true) (PyInt 1) PyNone in
  (trace oob = [GetObject 1; CreateRawPixelsStore; SetPixelsId;
                GetResolutionDescriptions; SetResolutionLevel 0;
                NpZeros [1; 1; 1; 2; 1]]
   /\ outcome oob = Raise (IndexError oob_msg)
   /\ ~ In RawClose (trace oob))
  /\ (In CreateRawPixelsStore (trace failed_read)
      /\ outcome failed_read = Raise RemoteError
      /\ ~ In RawClose (trace failed_read)).
Proof.
  assert (absent : forall tr : list event,
             forallb (fun e => match e with RawClose => false | _ => true end)
                     tr = true -> ~ In RawClose tr).
  { intros tr F Hin. rewrite forallb_forall in F. specialize (F _ Hin).
    discriminate. }
  intros oob failed_read. split; [|split; [|split]].
  - split; [reflexivity|]. split; [reflexivity|]. now apply absent.
  - right; left. reflexivity.
  - reflexivity.
  - now apply absent.
Qed.

(** ** Padding on the whole-plane path *)

(** C6. On a 2 x 2 image, the request for two columns from column 1 on,
    with [pad=True], overhangs by one column.  The requested lengths equal
    the sizes of the image, so whole planes are read, and writing a 2 x 2
    plane into the 2 x 1 window of the buffer raises [ValueError]; the
    request that overhangs by one Z section is served. *)
Theorem padding_fails_on_whole_plane_path :
  let run := get_image (Mock.conn Sample.small) (PyInt 1) (PyBool false)
                       (Sample.tuple5 1 0 0 0 0) (Sample.tuple5 2 2 2 1 1)
                       (PyBool false) (PyBool true) PyNone PyNone in
  let run_z := get_image (Mock.conn Sample.small) (PyInt 1) (PyBool false)
                         (Sample.tuple5 0 0 1 0 0) (Sample.tuple5 2 2 2 1 1)
                         (PyBool false) (PyBool true) PyNone PyNone in
  trace run = [GetObject 1; NpZeros [1; 2; 2; 2; 1];
               GetPlanes [(0, 0, 0); (1, 0, 0)]]
  /\ outcome run = Raise (ValueError "could not broadcast input array")
  /\ exists image view,
       outcome run_z = Ok (image, Some view)
       /\ shape view = [1; 2; 2; 2; 1]
       /\ map (item view) [[0; 0; 0; 0; 0]; [0; 0; 1; 1; 0];
                           [0; 1; 0; 0; 0]; [0; 1; 1; 1; 0]]
          = [Mock.pixel_value 0 0 1 0 0; Mock.pixel_value 1 1 1 0 0; 0; 0].
Proof.
  split; [reflexivity|]. split; [reflexivity|].
  eexists. eexists. split; [reflexivity|]. split; reflexivity.
Qed.

(** ** Validation of [pyramid_level] *)

Lemma check_coords_cases v m1 m2 :
  (exists o, check_coords v m1 m2 = ret o)
  \/ check_coords v m1 m2 = raise (TypeError m1)
  \/ check_coords v m1 m2 = raise (ValueError m2).
Proof.
  destruct v; simpl; eauto. destruct (negb _); eauto.
Qed.

Lemma check_image_id_cases v :
  (exists n, check_image_id v = ret n)
  \/ exists msg, check_image_id v = raise (TypeError msg).
Proof. destruct v; simpl; eauto. Qed.

Lemma rejected_TypeError A msg :
  rejected_before_access (@raise A (TypeError msg)).
Proof. split; [reflexivity|]. exists msg. now left. Qed.

Lemma rejected_ValueError A msg :
  rejected_before_access (@raise A (ValueError msg)).
Proof. split; [reflexivity|]. exists msg. now right. Qed.

(** C9, as the code has it. A [pyramid_level] that is neither [None] nor an
    int makes [get_image] raise [TypeError] or [ValueError] with an empty
    trace, that is before the server is asked anything; every int, negative
    ones too, passes the check of [pyramid_level]. *)
Theorem non_int_pyramid_level_rejected :
  forall conn image_id no_pixels start_coords axis_lengths xyzct pad
         pyramid_level dim_order,
    pyramid_level <> PyNone ->
    (forall n, pyramid_level <> PyInt n) ->
    rejected_before_access
      (get_image conn image_id no_pixels start_coords axis_lengths xyzct pad
                 pyramid_level dim_order)
    /\ forall n, check_pyramid_level (PyInt n) = ret (Some n).
Proof.
  intros conn image_id no_pixels start_coords axis_lengths xyzct pad
         pyramid_level dim_order Hnone Hint.
  split; [|reflexivity].
  unfold get_image.
  destruct (check_coords_cases start_coords
              "start_coords must be supplied as list or tuple"
              "start_coords must have length 5 (XYZCT)")
    as [[sc ->] | [-> | ->]];
    [rewrite bind_ret | apply rejected_TypeError | apply rejected_ValueError].
  destruct (check_coords_cases axis_lengths
              "axis_lengths must be supplied as list of tuple"
              "axis_lengths must have length 5 (XYZCT)")
    as [[al ->] | [-> | ->]];
    [rewrite bind_ret | apply rejected_TypeError | apply rejected_ValueError].
  destruct (check_image_id_cases image_id) as [[id ->] | [msg ->]];
    [rewrite bind_ret | apply rejected_TypeError].
  destruct pyramid_level as [| |n| | |];
    try contradiction; try (now destruct (Hint n)); apply rejected_TypeError.
Qed.

Lemma non_int_pyramid_level_rejected_witness :
  rejected_before_access
    (get_image (Mock.conn Sample.pyramidal) (PyInt 1) (PyBool false) PyNone
               PyNone (PyBool false) (PyBool false) (PyBool true) PyNone)
  /\ forall n, check_pyramid_level (PyInt n) = ret (Some n).
Proof.
  apply (non_int_pyramid_level_rejected (Mock.conn Sample.pyramidal)
           (PyInt 1) (PyBool false) PyNone PyNone (PyBool false)
           (PyBool false) (PyBool true) PyNone); intros; discriminate.
Defined.

(** C9, as stated, fails: with [pyramid_level = -1] the call is not
    refused; it creates the raw pixels store and asks it for level [n]. *)
Lemma negative_pyramid_level_not_rejected :
  let run := get_image (Mock.conn Sample.pyramidal) (PyInt 1) (PyBool false)
                       PyNone PyNone (PyBool false) (PyBool false)
                       (PyInt (-1)) PyNone in
  ~ rejected_before_access run
  /\ trace run = [GetObject 1; CreateRawPixelsStore; SetPixelsId;
                  GetResolutionDescriptions; SetResolutionLevel 4].
Proof.
  split; [|reflexivity]. intros [H _]. vm_compute in H. discriminate.
Qed.

(** ** Whole planes or tiles *)

Lemma list_eqb_eq l1 l2 : list_eqb l1 l2 = true <-> l1 = l2.
Proof.
  revert l2. induction l1 as [|a l1 IH]; intros [|b l2]; simpl;
    try (split; [discriminate | discriminate]); [tauto|].
  rewrite andb_true_iff, Z.eqb_eq, IH. split.
  - now intros [-> ->].
  - now intros [= -> ->].
Qed.

Lemma reorder_sizes_eq l1 l2 :
  length l1 = 5%nat -> length l2 = 5%nat ->
  list_eqb (reorder_sizes l1) (reorder_sizes l2) = true <-> l1 = l2.
Proof.
  intros L1 L2.
  destruct (length5 _ L1) as (a1 & b1 & c1 & d1 & e1 & ->).
  destruct (length5 _ L2) as (a2 & b2 & c2 & d2 & e2 & ->).
  rewrite list_eqb_eq. unfold reorder_sizes, ix. simpl.
  split; intros [= -> -> -> -> ->]; reflexivity.
Qed.

Lemma out_of_bounds_passes start lengths extent pad :
  length start = 5%nat -> length lengths = 5%nat -> length extent = 5%nat ->
  is_False pad = false \/ in_bounds start lengths extent ->
  out_of_bounds (compute_overhangs lengths start extent) pad = false.
Proof.
  intros Ls Ll Le [H|H]; unfold out_of_bounds.
  - rewrite H. apply andb_false_r.
  - destruct (length5 _ Ls) as (s0 & s1 & s2 & s3 & s4 & ->).
    destruct (length5 _ Ll) as (l0 & l1 & l2 & l3 & l4 & ->).
    destruct (length5 _ Le) as (e0 & e1 & e2 & e3 & e4 & ->).
    pose proof (H 0%nat) as H0. pose proof (H 1%nat) as H1.
    pose proof (H 2%nat) as H2. pose proof (H 3%nat) as H3.
    pose proof (H 4%nat) as H4. unfold overhang, ix in *. simpl in *.
    unfold compute_overhangs. simpl. apply andb_false_intro1.
    repeat (apply orb_false_iff; split); try reflexivity;
      apply Z.ltb_ge; lia.
Qed.

(** In bounds, nothing is trimmed. *)
Lemma effective_in_bounds start lengths extent :
  length start = 5%nat -> length lengths = 5%nat -> length extent = 5%nat ->
  in_bounds start lengths extent ->
  effective start lengths extent = lengths.
Proof.
  intros Ls Ll Le H.
  destruct (length5 _ Ls) as (s0 & s1 & s2 & s3 & s4 & ->).
  destruct (length5 _ Ll) as (l0 & l1 & l2 & l3 & l4 & ->).
  destruct (length5 _ Le) as (e0 & e1 & e2 & e3 & e4 & ->).
  pose proof (H 0%nat) as H0. pose proof (H 1%nat) as H1.
  pose proof (H 2%nat) as H2. pose proof (H 3%nat) as H3.
  pose proof (H 4%nat) as H4. unfold overhang, ix in *. simpl in *.
  unfold effective, trim, compute_overhangs. simpl.
  repeat f_equal; lia.
Qed.

(** ** The reads of the two fetchers *)

Lemma primary_fetch_requests image whole start eff zcts :
  primary_fetch image whole start eff zcts
  = ( (if whole then [GetPlanes zcts]
       else [GetTiles (map (fun p => (p, (ix start 0, ix start 1,
                                          ix eff 0, ix eff 1))) zcts)]),
      snd (primary_fetch image whole start eff zcts))
  /\ fetch_requests (trace (primary_fetch image whole start eff zcts))
     = if whole then whole_plane_reads zcts else tiled_reads start eff zcts.
Proof.
  unfold primary_fetch. destruct whole; (split; [reflexivity|]);
    unfold trace, fetch_requests; simpl; rewrite app_nil_r.
  - apply map_ext. now intros [[z c] t].
  - unfold tiled_reads. rewrite map_map. apply map_ext. now intros [[z c] t].
Qed.

Lemma mapM_requests (f : zct -> M plane) (req : zct -> request) zcts :
  (forall p, exists k, fetch_requests (trace (f p)) = [req p]
                       /\ k = outcome (f p)) ->
  reads_issued (fetch_requests (trace (mapM f zcts))) (map req zcts)
               (outcome (mapM f zcts)).
Proof.
  intros Hf. induction zcts as [|p zcts [[rest IH1] IH2]]; simpl.
  - split; [now exists [] | reflexivity].
  - destruct (Hf p) as [k [Hreq _]].
    destruct (f p) as [t1 [pl|e]] eqn:E; unfold bind at 1 3;
      unfold trace, outcome in *; cbn [fst snd] in *.
    + destruct (mapM f zcts) as [t2 [pls|e]] eqn:E2; unfold bind;
        cbn [fst snd] in *; rewrite ?app_nil_r, !fetch_requests_app, Hreq.
      * split; [exists rest; simpl; now rewrite IH1|].
        intros _. simpl. f_equal. apply IH2. eauto.
      * split; [exists rest; simpl; now rewrite IH1|].
        intros [a Ha]. discriminate.
    + rewrite Hreq. split; [now exists (map req zcts)|].
      intros [a Ha]. discriminate.
Qed.

Lemma raw_fetch_requests pix level w0 h0 whole start eff zcts :
  reads_issued
    (fetch_requests (trace (raw_fetch pix level w0 h0 whole start eff zcts)))
    (if whole then whole_plane_reads zcts else tiled_reads start eff zcts)
    (outcome (raw_fetch pix level w0 h0 whole start eff zcts)).
Proof.
  unfold raw_fetch.
  assert (Hret : forall (m : M (list plane)) expected,
             reads_issued (fetch_requests (trace m)) expected (outcome m) ->
             reads_issued
               (fetch_requests (trace (plane_gen <- m ;; ret (map ret plane_gen))))
               expected
               (outcome (plane_gen <- m ;; ret (map ret plane_gen)))).
  { intros [t [pls|e]] expected [H1 H2]; unfold bind, trace, outcome in *;
      cbn [fst snd] in *; rewrite ?app_nil_r.
    - split; [exact H1|]. intros _. apply H2. eauto.
    - split; [exact H1|]. intros [a Ha]. discriminate. }
  assert (Hread : forall (r : option (list Z)) h w,
             silent (data <- remote r ;; np_reshape2 data h w)).
  { intros r h w. apply silent_bind; [now destruct r|].
    intros data. apply silent_np_reshape2. }
  apply Hret. destruct whole.
  - apply mapM_requests. intros [[z c] t]. eexists. split; [|reflexivity].
    unfold trace. rewrite bind_emit. cbn [fst]. rewrite Hread. reflexivity.
  - apply mapM_requests. intros [[z c] t]. eexists. split; [|reflexivity].
    unfold trace. rewrite bind_emit. cbn [fst]. rewrite Hread. reflexivity.
Qed.

Lemma fetcher_of_requests image pl extent whole start eff zcts :
  reads_issued
    (fetch_requests (trace (fetcher_of image pl extent whole start eff zcts)))
    (if whole then whole_plane_reads zcts else tiled_reads start eff zcts)
    (outcome (fetcher_of image pl extent whole start eff zcts)).
Proof.
  assert (Hprimary :
            reads_issued
              (fetch_requests (trace (primary_fetch image whole start eff zcts)))
              (if whole then whole_plane_reads zcts
               else tiled_reads start eff zcts)
              (outcome (primary_fetch image whole start eff zcts))).
  { destruct (primary_fetch_requests image whole start eff zcts) as [_ ->].
    split; [exists []; now rewrite app_nil_r | reflexivity]. }
  unfold fetcher_of. destruct pl as [| |p| | |]; try exact Hprimary.
  destruct (p =? 0); [exact Hprimary | apply raw_fetch_requests].
Qed.

Lemma reads_issued_weaken A B issued expected (r1 : result A) (r2 : result B) :
  ((exists b, r2 = Ok b) -> exists a, r1 = Ok a) ->
  reads_issued issued expected r1 -> reads_issued issued expected r2.
Proof. intros H [H1 H2]. split; auto. Qed.

Lemma with_image_Ok image r x :
  with_image image r = Ok x -> exists v, r = Ok v /\ x = (Some image, Some v).
Proof. destruct r; simpl; [intros [= <-]; eauto | discriminate]. Qed.

Section Reads.
Variables (conn : BlitzGateway) (id : Z) (image : ImageWrapper).
Variables (start_coords axis_lengths xyzct pad pyramid_level dim_order : pyval).
Variable extent : list Z.
Hypothesis found : conn id = Some image.
Hypothesis valid_start : valid_coords start_coords = true.
Hypothesis valid_lengths : valid_coords axis_lengths = true.
Hypothesis valid_order : valid_dim_order dim_order = true.
Hypothesis resolved : resolution_extent image pyramid_level = Some extent.

Let start := default_start (coords_of start_coords).
Let lengths := default_lengths extent start (coords_of axis_lengths).
Let eff := effective start lengths extent.
Let zcts := zct_enumerate start eff.
Let run := get_image conn (PyInt id) (PyBool false) start_coords axis_lengths
                     xyzct pad pyramid_level dim_order.

Hypothesis alloc : Forall (fun d => 0 <= d) lengths.

Lemma start_length : length start = 5%nat.
Proof. apply default_start_length, valid_start. Qed.

Lemma extent_length : length extent = 5%nat.
Proof. eapply resolution_extent_length, resolved. Qed.

Lemma lengths_length : length lengths = 5%nat.
Proof.
  apply default_lengths_length;
    [apply extent_length | apply start_length | apply valid_lengths].
Qed.

(** The reads of a call that passes the bounds check. *)
Lemma get_image_reads :
  is_False pad = false \/ in_bounds start lengths extent ->
  reads_issued (fetch_requests (trace run))
    (if list_eqb (reorder_sizes lengths) (reorder_sizes extent)
     then whole_plane_reads zcts else tiled_reads start eff zcts)
    (outcome run).
Proof.
  intros Hpass.
  pose proof (out_of_bounds_passes start lengths extent pad start_length
                lengths_length extent_length Hpass) as Hoob.
  pose proof (reorder_sizes_nonneg lengths lengths_length alloc) as Hsh.
  unfold run.
  rewrite (get_image_run conn id image _ _ _ _ _ _ extent found valid_start
             valid_lengths valid_order resolved).
  unfold trace at 1, outcome at 1. cbn [fst snd].
  rewrite !fetch_requests_app, fetch_requests_prologue,
    fetch_requests_epilogue, app_nil_r. cbn [app].
  rewrite (extract_trace extent _ _ _ xyzct pad _ Hsh
             (fetcher_of_items image pyramid_level extent) Hoob).
  change (fetch_requests (NpZeros ?sh :: ?t)) with (fetch_requests t).
  eapply reads_issued_weaken; [|apply fetcher_of_requests].
  intros [x Hx]. apply with_image_Ok in Hx. destruct Hx as [v [Hv _]].
  rewrite (extract_in_bounds extent _ _ _ xyzct pad _ Hsh Hoob) in Hv.
  apply outcome_bind_Ok in Hv. destruct Hv as [_ [_ Hv]].
  apply outcome_bind_Ok in Hv. destruct Hv as [pg [Hpg _]].
  now exists pg.
Qed.
End Reads.

(** C5, as the code has it. For a call that passes the bounds check: when
    the requested lengths equal the extent on all five axes and nothing
    overhangs, whole planes are read, one per (z, c, t); when the requested
    lengths differ from the extent on some axis, tiles are read, all with
    the window made of the X and Y start coordinates and the effective X
    and Y lengths. *)
Theorem whole_planes_or_tiles :
  forall conn id image start_coords axis_lengths xyzct pad pyramid_level
         dim_order extent,
    conn id = Some image ->
    valid_coords start_coords = true ->
    valid_coords axis_lengths = true ->
    valid_dim_order dim_order = true ->
    resolution_extent image pyramid_level = Some extent ->
    let start := default_start (coords_of start_coords) in
    let lengths := default_lengths extent start (coords_of axis_lengths) in
    let eff := effective start lengths extent in
    let zcts := zct_enumerate start eff in
    Forall (fun d => 0 <= d) lengths ->
    let run := get_image conn (PyInt id) (PyBool false) start_coords
                         axis_lengths xyzct pad pyramid_level dim_order in
    (lengths = extent -> in_bounds start lengths extent ->
     reads_issued (fetch_requests (trace run)) (whole_plane_reads zcts)
                  (outcome run))
    /\ (lengths <> extent ->
        is_False pad = false \/ in_bounds start lengths extent ->
        reads_issued (fetch_requests (trace run)) (tiled_reads start eff zcts)
                     (outcome run)).
Proof.
  intros conn id image start_coords axis_lengths xyzct pad pyramid_level
         dim_order extent found Vs Vl Vo Hext start lengths eff zcts Hpos run.
  pose proof (lengths_length image start_coords axis_lengths pyramid_level
                extent Vs Vl Hext) as Ll.
  pose proof (extent_length image pyramid_level extent Hext) as Le.
  split.
  - intros Heq Hin.
    pose proof (get_image_reads conn id image start_coords axis_lengths xyzct
                  pad pyramid_level dim_order extent found Vs Vl Vo Hext Hpos
                  (or_intror Hin)) as H.
    replace (list_eqb _ _) with true in H; [exact H|].
    symmetry. apply reorder_sizes_eq; assumption.
  - intros Hne Hpass.
    pose proof (get_image_reads conn id image start_coords axis_lengths xyzct
                  pad pyramid_level dim_order extent found Vs Vl Vo Hext Hpos
                  Hpass) as H.
    replace (list_eqb _ _) with false in H; [exact H|].
    symmetry. apply not_true_is_false. intros E.
    apply reorder_sizes_eq in E; [contradiction | assumption ..].
Qed.

Lemma whole_planes_or_tiles_witness :
  let start := [0; 0; 0; 0; 0] in
  let lengths := [2; 2; 1; 1; 1] in
  let extent := [2; 2; 2; 1; 1] in
  let eff := effective start lengths extent in
  let zcts := zct_enumerate start eff in
  let run := get_image (Mock.conn Sample.small) (PyInt 1) (PyBool false)
                       (PySeq KTuple start) (PySeq KTuple lengths)
                       (PyBool false) (PyBool false) PyNone PyNone in
  (lengths = extent -> in_bounds start lengths extent ->
   reads_issued (fetch_requests (trace run)) (whole_plane_reads zcts)
                (outcome run))
  /\ (lengths <> extent ->
      is_False (PyBool false) = false \/ in_bounds start lengths extent ->
      reads_issued (fetch_requests (trace run)) (tiled_reads start eff zcts)
                   (outcome run)).
Proof.
  apply (whole_planes_or_tiles (Mock.conn Sample.small) 1 Sample.small
           (PySeq KTuple [0; 0; 0; 0; 0]) (PySeq KTuple [2; 2; 1; 1; 1])
           (PyBool false) (PyBool false) PyNone PyNone [2; 2; 2; 1; 1]);
    try reflexivity.
  repeat constructor; discriminate.
Defined.

(** C5, as stated, fails: one Z section of a 2 x 2 image, over the whole
    X/Y extent, is read as a tile. *)
Lemma full_xy_window_read_as_tile :
  let start := [0; 0; 0; 0; 0] in
  let lengths := [2; 2; 1; 1; 1] in
  let extent := native_extent Sample.small in
  let run := get_image (Mock.conn Sample.small) (PyInt 1) (PyBool false)
                       (PySeq KTuple start) (PySeq KTuple lengths)
                       (PyBool false) (PyBool false) PyNone PyNone in
  covers_xy start (effective start lengths extent) extent
  /\ fetch_requests (trace run) = [Tile 0 0 0 0 0 2 2]
  /\ ~ Forall is_whole_plane (fetch_requests (trace run)).
Proof.
  split; [repeat split|]. split; [reflexivity|].
  intros H. vm_compute in H. inversion H as [|? ? Hw _]. exact Hw.
Qed.

(** The whole 2 x 2 image is read as whole planes, one per Z section. *)
Example whole_image_read_as_planes :
  fetch_requests
    (trace (get_image (Mock.conn Sample.small) (PyInt 1) (PyBool false)
                      PyNone PyNone (PyBool false) (PyBool false) PyNone
                      PyNone))
  = [WholePlane 0 0 0; WholePlane 1 0 0].
Proof. reflexivity. Qed.

(** ** The enumeration of (z, c, t) *)

Lemma In_py_range i a b : In i (py_range a b) <-> a <= i < b.
Proof.
  unfold py_range. rewrite in_map_iff. split.
  - intros [k [<- Hk]]. apply in_seq in Hk. lia.
  - intros H. exists (Z.to_nat (i - a)). split; [lia|].
    apply in_seq. lia.
Qed.

Lemma In_zct_enumerate start eff z c t :
  In (z, c, t) (zct_enumerate start eff)
  <-> ix start 2 <= z < ix start 2 + ix eff 2
      /\ ix start 3 <= c < ix start 3 + ix eff 3
      /\ ix start 4 <= t < ix start 4 + ix eff 4.
Proof.
  unfold zct_enumerate. rewrite in_flat_map. split.
  - intros [z' [Hz H]]. apply in_flat_map in H. destruct H as [c' [Hc H]].
    apply in_map_iff in H. destruct H as [t' [[= -> -> ->] Ht]].
    rewrite In_py_range in Hz, Hc, Ht. auto.
  - intros (Hz & Hc & Ht). exists z. split; [now apply In_py_range|].
    apply in_flat_map. exists c. split; [now apply In_py_range|].
    apply in_map_iff. exists t. split; [reflexivity | now apply In_py_range].
Qed.

(** ** Writing planes into the buffer *)

Lemma np_index_nonneg i d t r :
  0 <= i -> np_index i d = (t, Ok r) -> r = i /\ i < d.
Proof.
  unfold np_index. intros Hi.
  replace (i <? 0) with false by (symmetry; apply Z.ltb_ge; lia).
  destruct ((0 <=? i) && (i <? d)) eqn:E; [|discriminate].
  intros [= _ <-]. apply andb_true_iff in E. destruct E as [_ E].
  apply Z.ltb_lt in E. auto.
Qed.

Lemma np_index_ok i d : 0 <= i < d -> np_index i d = ret i.
Proof.
  unfold np_index. intros Hi.
  replace (i <? 0) with false by (symmetry; apply Z.ltb_ge; lia).
  replace ((0 <=? i) && (i <? d)) with true; [reflexivity|].
  symmetry. apply andb_true_iff. split; [apply Z.leb_le | apply Z.ltb_lt]; lia.
Qed.

(** What a successful assignment of a plane does. *)
Lemma setitem_plane_spec a t z ys xs c p tr a' dt dz dy dx dc :
  shape a = [dt; dz; dy; dx; dc] -> 0 <= t -> 0 <= z -> 0 <= c ->
  setitem_plane a t z ys xs c p = (tr, Ok a') ->
  shape a' = shape a
  /\ (forall y x, 0 <= y < slice_stop ys dy -> 0 <= x < slice_stop xs dx ->
        item a' [t; z; y; x; c] = broadcast_px p y x)
  /\ (forall idx,
        (forall y x, 0 <= y < slice_stop ys dy -> 0 <= x < slice_stop xs dx ->
                     idx <> [t; z; y; x; c]) ->
        item a' idx = item a idx).
Proof.
  intros Hsh Ht Hz Hc. unfold setitem_plane. rewrite Hsh. intros H.
  apply bind_Ok_inv in H. destruct H as (t1 & t' & t2 & H1 & H & _).
  apply (np_index_nonneg _ _ _ _ Ht) in H1. destruct H1 as [-> _].
  apply bind_Ok_inv in H. destruct H as (t3 & z' & t4 & H1 & H & _).
  apply (np_index_nonneg _ _ _ _ Hz) in H1. destruct H1 as [-> _].
  apply bind_Ok_inv in H. destruct H as (t5 & c' & t6 & H1 & H & _).
  apply (np_index_nonneg _ _ _ _ Hc) in H1. destruct H1 as [-> _].
  destruct (_ && _); [|discriminate]. injection H as _ <-. cbn [shape item].
  split; [reflexivity|]. split.
  - intros y x Hy Hx. rewrite !Z.eqb_refl. cbn [andb].
    replace (0 <=? y) with true by (symmetry; apply Z.leb_le; lia).
    replace (y <? slice_stop ys dy) with true by (symmetry; apply Z.ltb_lt; lia).
    replace (0 <=? x) with true by (symmetry; apply Z.leb_le; lia).
    replace (x <? slice_stop xs dx) with true by (symmetry; apply Z.ltb_lt; lia).
    reflexivity.
  - intros idx Hidx.
    destruct idx as [|it [|iz [|iy [|ix [|ic [|]]]]]]; try reflexivity.
    destruct ((it =? t) && (iz =? z) && (ic =? c) && (0 <=? iy)
              && (iy <? slice_stop ys dy) && (0 <=? ix)
              && (ix <? slice_stop xs dx)) eqn:E; [|reflexivity].
    repeat (apply andb_true_iff in E; destruct E as [E ?]).
    exfalso. apply (Hidx iy ix); [lia | lia |].
    f_equal; [|f_equal; [|do 3 f_equal]]; lia.
Qed.

Lemma setitem_plane_ok a t z ys xs c p dt dz dy dx dc :
  shape a = [dt; dz; dy; dx; dc] ->
  0 <= t < dt -> 0 <= z < dz -> 0 <= c < dc ->
  rows p = slice_stop ys dy -> cols p = slice_stop xs dx ->
  exists a', setitem_plane a t z ys xs c p = ret a' /\ shape a' = shape a.
Proof.
  intros Hsh Ht Hz Hc Hr Hcl. unfold setitem_plane. rewrite Hsh.
  rewrite (np_index_ok _ _ Ht), bind_ret, (np_index_ok _ _ Hz), bind_ret,
    (np_index_ok _ _ Hc), bind_ret.
  unfold broadcastable. rewrite Hr, Hcl, !Z.eqb_refl. cbn [orb andb].
  eexists. split; reflexivity.
Qed.

Lemma zct_eq_dec (p q : zct) : {p = q} + {p <> q}.
Proof. repeat decide equality. Qed.

Section Assemble.
Variables start eff lengths : list Z.
Hypothesis lengths5 : length lengths = 5%nat.

(** The planes paired with the (z, c, t) they were fetched for. *)
Variable fetched : zct -> plane -> Prop.

Lemma in_window_same_place p q idx :
  in_window start eff lengths p idx -> in_window start eff lengths q idx ->
  p = q.
Proof.
  destruct p as [[z c] t], q as [[z' c'] t'].
  intros (y & x & -> & _) (y' & x' & E & _).
  injection E as Et Ez _ _ Ec.
  f_equal; [f_equal|]; lia.
Qed.

(** What the loop over [plane_gen] leaves in the buffer when it ends
    without an exception. *)
Lemma assemble_content plane_gen :
  forall zct_list pixels tr pixels',
    Forall2 (fun p m => forall pl, outcome m = Ok pl -> fetched p pl)
            zct_list plane_gen ->
    Forall (at_or_after_start start) zct_list ->
    shape pixels = reorder_sizes lengths ->
    assemble start eff plane_gen zct_list pixels = (tr, Ok pixels') ->
    shape pixels' = shape pixels
    /\ (forall p, In p zct_list ->
          exists pl, fetched p pl /\ holds_plane pixels' start eff lengths p pl)
    /\ (forall idx,
          (forall p, In p zct_list -> ~ in_window start eff lengths p idx) ->
          item pixels' idx = item pixels idx).
Proof.
  induction plane_gen as [|next plane_gen IH];
    intros zct_list pixels tr pixels' HF Hstart Hsh H.
  - inversion HF; subst. simpl in H. injection H as _ <-.
    split; [reflexivity|]. split; [intros p []|reflexivity].
  - inversion HF as [|p0 m zl pg Hnext HF']; subst. simpl in H.
    apply bind_Ok_inv in H. destruct H as (t1 & pl & t2 & Hpl & H & _).
    destruct p0 as [[z0 c0] t0].
    apply bind_Ok_inv in H. destruct H as (t3 & pixels1 & t4 & Hset & H & _).
    inversion Hstart as [|? ? Hhead Hstart']; subst.
    destruct Hhead as [Hz [Hc Ht]].
    destruct (length5 _ lengths5) as (l0 & l1 & l2 & l3 & l4 & El).
    assert (Hsh' : shape pixels = [l4; l2; l1; l0; l3])
      by (rewrite Hsh, El; reflexivity).
    assert (Ht' : 0 <= t0 - ix start 4) by lia.
    assert (Hz' : 0 <= z0 - ix start 2) by lia.
    assert (Hc' : 0 <= c0 - ix start 3) by lia.
    destruct (setitem_plane_spec _ _ _ _ _ _ _ _ _ _ _ _ _ _ Hsh'
                Ht' Hz' Hc' Hset)
      as (Hsh1 & Hin1 & Hout1).
    assert (Hrows : slice_stop (ix eff 1) l1 = window_rows eff lengths)
      by (unfold window_rows; rewrite El; reflexivity).
    assert (Hcols : slice_stop (ix eff 0) l0 = window_cols eff lengths)
      by (unfold window_cols; rewrite El; reflexivity).
    rewrite Hrows, Hcols in Hin1, Hout1.
    destruct (IH zl pixels1 t4 pixels' HF' Hstart' ltac:(congruence) H)
      as (Hsh2 & Hin2 & Hout2).
    assert (Hfetched : fetched (z0, c0, t0) pl)
      by (apply Hnext; reflexivity).
    split; [congruence|]. split.
    + intros p [<- | Hp]; [|now apply Hin2].
      destruct (in_dec zct_eq_dec (z0, c0, t0) zl) as [Hdup|Hfresh];
        [now apply Hin2|].
      exists pl. split; [exact Hfetched|]. intros y x Hy Hx.
      rewrite Hout2; [now apply Hin1|].
      intros q Hq Hw. apply Hfresh.
      replace (z0, c0, t0) with q; [exact Hq|].
      apply (in_window_same_place q (z0, c0, t0) _ Hw).
      exists y, x. auto.
    + intros idx Hidx. rewrite Hout2.
      * apply Hout1. intros y x Hy Hx ->.
        apply (Hidx (z0, c0, t0)); [now left|]. exists y, x. auto.
      * intros q Hq. apply Hidx. now right.
Qed.

(** The loop ends without an exception when every plane comes and fits its
    window. *)
Lemma assemble_ok plane_gen :
  forall zct_list pixels,
    Forall2 (fun p m =>
               exists pl, m = ret pl
                          /\ rows pl = window_rows eff lengths
                          /\ cols pl = window_cols eff lengths)
            zct_list plane_gen ->
    Forall (fun p : zct =>
              let '(z, c, t) := p in
              0 <= z - ix start 2 < ix lengths 2
              /\ 0 <= c - ix start 3 < ix lengths 3
              /\ 0 <= t - ix start 4 < ix lengths 4) zct_list ->
    shape pixels = reorder_sizes lengths ->
    exists pixels',
      assemble start eff plane_gen zct_list pixels = ret pixels'
      /\ shape pixels' = shape pixels.
Proof.
  induction plane_gen as [|next plane_gen IH];
    intros zct_list pixels HF Hin Hsh.
  - exists pixels. split; reflexivity.
  - inversion HF as [|p0 m zl pg (pl & -> & Hr & Hc) HF']; subst.
    destruct p0 as [[z0 c0] t0].
    inversion Hin as [|? ? Hhead Hin']; subst.
    destruct Hhead as (Hz & Hcc & Ht).
    destruct (length5 _ lengths5) as (l0 & l1 & l2 & l3 & l4 & El).
    assert (Hsh' : shape pixels = [l4; l2; l1; l0; l3])
      by (rewrite Hsh, El; reflexivity).
    rewrite El in Hz, Hcc, Ht. unfold ix in Hz, Hcc, Ht. simpl in Hz, Hcc, Ht.
    destruct (setitem_plane_ok pixels (t0 - ix start 4) (z0 - ix start 2)
                (ix eff 1) (ix eff 0) (c0 - ix start 3) pl _ _ _ _ _ Hsh')
      as (pixels1 & Hset & Hsh1); try assumption.
    { rewrite Hr. unfold window_rows. rewrite El. reflexivity. }
    { rewrite Hc. unfold window_cols. rewrite El. reflexivity. }
    destruct (IH zl pixels1 HF' Hin' ltac:(congruence))
      as (pixels' & Hasm & Hsh2).
    exists pixels'. split; [|congruence].
    simpl. rewrite bind_ret, Hset, bind_ret. exact Hasm.
Qed.
End Assemble.

(** ** The fetchers, one (z, c, t) at a time *)

Lemma outcome_bind A B (m : M A) (f : A -> M B) a :
  outcome m = Ok a -> outcome (bind m f) = outcome (f a).
Proof. unfold outcome, bind. now intros ->. Qed.

Lemma raw_fetch_raw_read pix level w0 h0 whole start eff zcts :
  raw_fetch pix level w0 h0 whole start eff zcts
  = (plane_gen <- mapM (raw_read pix level w0 h0 whole start eff) zcts ;;
     ret (map ret plane_gen)).
Proof.
  unfold raw_fetch. f_equal.
  destruct whole; induction zcts as [|[[z c] t] zcts IH]; simpl;
    try reflexivity; now rewrite IH.
Qed.

Lemma mapM_outcome_Forall2 A B (f : A -> M B) l bs :
  outcome (mapM f l) = Ok bs ->
  Forall2 (fun a b => outcome (f a) = Ok b) l bs.
Proof.
  revert bs. induction l as [|a l IH]; simpl; intros bs H.
  - injection H as <-. constructor.
  - apply outcome_bind_Ok in H. destruct H as [b [Hb H]].
    apply outcome_bind_Ok in H. destruct H as [bs' [Hbs H]].
    injection H as <-. constructor; auto.
Qed.

Lemma mapM_ok A B (f : A -> M B) (Q : A -> B -> Prop) l :
  (forall a, In a l -> exists b, outcome (f a) = Ok b /\ Q a b) ->
  exists bs, outcome (mapM f l) = Ok bs /\ Forall2 Q l bs.
Proof.
  induction l as [|a l IH]; intros H; simpl.
  - exists []. split; [reflexivity | constructor].
  - destruct (H a (or_introl eq_refl)) as [b [Hb HQ]].
    destruct IH as [bs [Hbs HF]]; [intros; apply H; now right|].
    exists (b :: bs). split; [|now constructor].
    rewrite (outcome_bind _ _ _ _ _ Hb), (outcome_bind _ _ _ _ _ Hbs). reflexivity.
Qed.

Lemma fetched_plane_primary image whole start eff p :
  fetched_plane (primary_fetch image) whole start eff p
  = if whole then plane_of image p
    else tile_of image p (ix start 0, ix start 1, ix eff 0, ix eff 1).
Proof.
  unfold fetched_plane, primary_fetch. destruct whole.
  - unfold outcome. simpl. now destruct (plane_of image p).
  - unfold outcome. simpl. now destruct (tile_of image p _).
Qed.

Lemma fetched_plane_raw pix level w0 h0 whole start eff p :
  fetched_plane (raw_fetch pix level w0 h0) whole start eff p
  = match outcome (raw_read pix level w0 h0 whole start eff p) with
    | Ok pl => Some pl
    | Raise _ => None
    end.
Proof.
  unfold fetched_plane. rewrite raw_fetch_raw_read. simpl mapM.
  now destruct (raw_read pix level w0 h0 whole start eff p) as [t [pl|e]].
Qed.

Lemma primary_fetch_outcome image whole start eff zcts :
  outcome (primary_fetch image whole start eff zcts)
  = Ok (map (fun p => remote (fetched_plane (primary_fetch image) whole
                                            start eff p)) zcts).
Proof.
  rewrite (map_ext _ (fun p => remote
                        (if whole then plane_of image p
                         else tile_of image p (ix start 0, ix start 1,
                                               ix eff 0, ix eff 1))))
    by (intros p; now rewrite fetched_plane_primary).
  unfold primary_fetch. destruct whole; unfold outcome; simpl; f_equal.
  now rewrite map_map.
Qed.

Lemma Forall2_map_r A B (g : A -> B) l :
  Forall2 (fun a b => b = g a) l (map g l).
Proof. induction l; simpl; constructor; auto. Qed.

(** Each item of [plane_gen] is the plane fetched for its (z, c, t). *)
Lemma fetcher_of_pointwise image pl extent whole start eff zcts pg :
  outcome (fetcher_of image pl extent whole start eff zcts) = Ok pg ->
  Forall2 (fun p m =>
             forall plane, outcome m = Ok plane ->
               fetched_plane (fetcher_of image pl extent) whole start eff p
               = Some plane)
          zcts pg.
Proof.
  assert (Hprimary :
            outcome (primary_fetch image whole start eff zcts) = Ok pg ->
            Forall2 (fun p m =>
                       forall plane, outcome m = Ok plane ->
                         fetched_plane (primary_fetch image) whole start eff p
                         = Some plane) zcts pg).
  { rewrite primary_fetch_outcome. intros [= <-].
    eapply Forall2_impl; [|apply Forall2_map_r].
    intros p m -> plane. simpl.
    destruct (fetched_plane _ _ _ _ _); [|discriminate].
    now intros [= ->]. }
  unfold fetcher_of. destruct pl as [| |n| | |]; try exact Hprimary.
  destruct (n =? 0); [exact Hprimary|]. intros H.
  rewrite raw_fetch_raw_read in H. apply outcome_bind_Ok in H.
  destruct H as [planes [Hplanes H]]. injection H as <-.
  apply mapM_outcome_Forall2 in Hplanes.
  clear Hprimary.
  induction Hplanes as [|p plane zl planes Hp _ IH]; simpl; constructor; auto.
  intros plane' [= <-]. now rewrite fetched_plane_raw, Hp.
Qed.

(** When every (z, c, t) is served, the fetcher gives its list of planes. *)
Lemma fetcher_of_serves image pl extent whole start eff zcts
    (Q : plane -> Prop) :
  (forall p, In p zcts ->
     exists plane,
       fetched_plane (fetcher_of image pl extent) whole start eff p = Some plane
       /\ Q plane) ->
  exists pg,
    outcome (fetcher_of image pl extent whole start eff zcts) = Ok pg
    /\ Forall2 (fun (p : zct) m => exists plane, m = ret plane /\ Q plane)
               zcts pg.
Proof.
  assert (Hprimary :
            (forall p, In p zcts ->
               exists plane,
                 fetched_plane (primary_fetch image) whole start eff p
                 = Some plane /\ Q plane) ->
            exists pg,
              outcome (primary_fetch image whole start eff zcts) = Ok pg
              /\ Forall2 (fun (p : zct) m =>
                            exists plane, m = ret plane /\ Q plane) zcts pg).
  { intros H. eexists. split; [apply primary_fetch_outcome|].
    induction zcts as [|p zcts IH]; simpl; constructor.
    - destruct (H p (or_introl eq_refl)) as [plane [Hp HQ]].
      exists plane. rewrite Hp. auto.
    - apply IH. intros. apply H. now right. }
  unfold fetcher_of. destruct pl as [| |n| | |]; try exact Hprimary.
  destruct (n =? 0); [exact Hprimary|]. intros H.
  destruct (mapM_ok _ _
              (raw_read (createRawPixelsStore image) (raw_level image n)
                        (ix extent 0) (ix extent 1) whole start eff)
              (fun _ plane => Q plane) zcts) as [planes [Hplanes HF]].
  { intros p Hp. destruct (H p Hp) as [plane [Hfetched HQ]].
    rewrite fetched_plane_raw in Hfetched. exists plane.
    destruct (outcome (raw_read _ _ _ _ whole start eff p)) as [plane'|e];
      [|discriminate].
    injection Hfetched as ->. auto. }
  exists (map ret planes). split.
  - rewrite raw_fetch_raw_read, (outcome_bind _ _ _ _ _ Hplanes). reflexivity.
  - clear Hplanes H Hprimary. induction HF; simpl; constructor; eauto.
Qed.

(** ** The buffer a call returns *)

Lemma np_zeros_Ok_inv sh a :
  outcome (np_zeros sh) = Ok a ->
  a = zeros sh /\ Forall (fun d => 0 <= d) sh.
Proof.
  unfold np_zeros. destruct (existsb _ sh) eqn:E; [discriminate|].
  intros [= <-]. split; [reflexivity|].
  apply Forall_forall. intros d Hd.
  destruct (Z.ltb_spec d 0) as [Hneg|]; [|assumption].
  assert (existsb (fun d => d <? 0) sh = true); [|congruence].
  apply existsb_exists. exists d. split; [exact Hd | now apply Z.ltb_lt].
Qed.

Lemma zct_enumerate_after_start start eff :
  Forall (at_or_after_start start) (zct_enumerate start eff).
Proof.
  apply Forall_forall. intros [[z c] t] H.
  apply In_zct_enumerate in H. unfold at_or_after_start. lia.
Qed.

Lemma extract_populated extent image pl sc al xyzct pad dim view :
  let start := default_start sc in
  let lengths := default_lengths extent start al in
  let eff := effective start lengths extent in
  length lengths = 5%nat ->
  outcome (extract extent (fetcher_of image pl extent) sc al xyzct pad dim)
  = Ok view ->
  populated (fetcher_of image pl extent) (whole_planes lengths extent)
            start eff lengths dim xyzct view.
Proof.
  intros start lengths eff L5 H. unfold extract in H.
  fold start in H. fold lengths in H.
  apply outcome_bind_Ok in H. destruct H as [pixels [Hz H]].
  apply np_zeros_Ok_inv in Hz. destruct Hz as [-> _].
  destruct (out_of_bounds _ _); [discriminate|].
  fold eff in H. fold (whole_planes lengths extent) in H.
  apply outcome_bind_Ok in H. destruct H as [pg [Hpg H]].
  apply outcome_bind_Ok in H. destruct H as [pixels' [Hasm H]].
  assert (E : forall A (m : M A) a, outcome m = Ok a -> m = (trace m, Ok a))
    by (intros A [t r] a; simpl; now intros ->).
  apply E in Hasm. clear E. rename Hasm into E.
  destruct (assemble_content start eff lengths L5
              (fun p plane =>
                 fetched_plane (fetcher_of image pl extent)
                               (whole_planes lengths extent) start eff p
                 = Some plane)
              pg (zct_enumerate start eff) (zeros (reorder_sizes lengths))
              _ pixels'
              (fetcher_of_pointwise _ _ _ _ _ _ _ _ Hpg)
              (zct_enumerate_after_start start eff) eq_refl E)
    as (Hsh & Hin & Hout).
  exists pixels'. split; [|split; [|split]].
  - apply silent_run; [apply silent_reorder_view | exact H].
  - exact Hsh.
  - exact Hin.
  - intros idx Hidx. now rewrite Hout.
Qed.

Lemma prologue_allocates_nothing id image pl sh :
  ~ In (NpZeros sh) (prologue id image pl).
Proof.
  unfold prologue. intros [H | H]; [discriminate H | ].
  destruct pl as [| |p| | |]; try contradiction.
  destruct (p =? 0); [contradiction | ].
  repeat (destruct H as [H | H]; [discriminate H | ]). contradiction.
Qed.

(** C4, as the code has it. A call that reaches the pixel branch, on any
    machine, either raises, and then returns no array at all, or returns a
    populated buffer (view): the reordering of a buffer of the requested
    shape that holds, for every (z, c, t) of the enumeration, the plane
    fetched for it, and zeros elsewhere.  An out-of-bounds request with
    [pad=False] fails before any read, and once the buffer has been
    allocated if [np.zeros] takes its shape: then with the out-of-bounds
    [IndexError], and else, with no buffer, with what [np.zeros] raises. *)
Theorem populated_or_no_array :
  forall m conn id image start_coords axis_lengths xyzct pad pyramid_level
         dim_order extent,
    conn id = Some image ->
    valid_coords start_coords = true ->
    valid_coords axis_lengths = true ->
    valid_dim_order dim_order = true ->
    resolution_extent image pyramid_level = Some extent ->
    let start := default_start (coords_of start_coords) in
    let lengths := default_lengths extent start (coords_of axis_lengths) in
    let eff := effective start lengths extent in
    let run := get_image_on m conn (PyInt id) (PyBool false) start_coords
                            axis_lengths xyzct pad pyramid_level dim_order in
    (forall r, outcome run = Ok r ->
       exists view,
         r = (Some image, Some view)
         /\ populated (fetcher_of image pyramid_level extent)
                      (whole_planes lengths extent) start eff lengths
                      (dim_order_of dim_order) xyzct view)
    /\ (Forall (fun d => 0 <= d) lengths ->
        (exists axis, (axis < 5)%nat /\ 0 < overhang start lengths extent axis) ->
        pad = PyBool false ->
        outcome run
        = Raise (match refuses m (reorder_sizes lengths) with
                 | Some e => e
                 | None => IndexError oob_msg
                 end)
        /\ (In (NpZeros (reorder_sizes lengths)) (trace run)
            <-> refuses m (reorder_sizes lengths) = None)
        /\ fetch_requests (trace run) = []).
Proof.
  intros m conn id image start_coords axis_lengths xyzct pad pyramid_level
         dim_order extent found Vs Vl Vo Hext start lengths eff run.
  pose proof (resolution_extent_length _ _ _ Hext) as Le.
  pose proof (default_start_length _ Vs) as Ls.
  pose proof (default_lengths_length extent start _ Le Ls Vl) as Ll.
  assert (Hcases := get_image_on_cases m conn id image start_coords
                      axis_lengths xyzct pad dim_order found Vs Vl Vo
                      pyramid_level extent Hext).
  fold start in Hcases. fold lengths in Hcases. fold run in Hcases.
  split.
  - intros r Hr. rewrite Hcases in Hr.
    destruct (refuses m (reorder_sizes lengths)) as [e | ];
      [discriminate Hr | ].
    rewrite (get_image_run conn id image _ _ _ _ _ _ extent found Vs Vl Vo Hext)
      in Hr.
    unfold outcome at 1 in Hr. cbn [snd] in Hr.
    apply with_image_Ok in Hr. destruct Hr as [view [Hview ->]].
    exists view. split; [reflexivity|].
    apply (extract_populated extent image pyramid_level
             (coords_of start_coords) (coords_of axis_lengths) xyzct pad
             (dim_order_of dim_order) view Ll Hview).
  - intros Hpos Hover Hpad. rewrite Hcases. clear Hcases. subst pad.
    destruct (refuses m (reorder_sizes lengths)) as [e | ].
    + unfold outcome, trace. cbn [fst snd]. split; [reflexivity | ]. split.
      * split; [ | discriminate]. intros Hin. exfalso.
        apply (prologue_allocates_nothing _ _ _ _ Hin).
      * apply fetch_requests_prologue.
    + rewrite (get_image_run conn id image _ _ _ _ _ _ extent found Vs Vl Vo
                 Hext).
      rewrite extract_out_of_bounds.
      * unfold outcome, trace. cbn [fst snd]. split; [reflexivity|]. split.
        -- split; [reflexivity | ]. intros _.
           apply in_or_app. right. now left.
        -- rewrite !fetch_requests_app, fetch_requests_prologue,
             fetch_requests_epilogue. reflexivity.
      * apply reorder_sizes_nonneg; assumption.
      * apply out_of_bounds_axis; assumption.
Qed.

Lemma populated_or_no_array_witness :
  let start := [0; 0; 0; 0; 0] in
  let lengths := [3; 1; 1; 1; 1] in
  let extent := [2; 2; 2; 1; 1] in
  let eff := effective start lengths extent in
  let run := get_image_on intp64 (Mock.conn Sample.small) (PyInt 1)
                          (PyBool false) (PySeq KTuple start)
                          (PySeq KTuple lengths) (PyBool false)
                          (PyBool false) PyNone PyNone in
  (forall r, outcome run = Ok r ->
     exists view,
       r = (Some Sample.small, Some view)
       /\ populated (fetcher_of Sample.small PyNone extent)
                    (whole_planes lengths extent) start eff lengths
                    None (PyBool false) view)
  /\ (Forall (fun d => 0 <= d) lengths ->
      (exists axis, (axis < 5)%nat /\ 0 < overhang start lengths extent axis) ->
      PyBool false = PyBool false ->
      outcome run = Raise (IndexError oob_msg)
      /\ (In (NpZeros (reorder_sizes lengths)) (trace run)
          <-> refuses intp64 (reorder_sizes lengths) = None)
      /\ fetch_requests (trace run) = []).
Proof.
  apply (populated_or_no_array intp64 (Mock.conn Sample.small) 1 Sample.small
           (PySeq KTuple [0; 0; 0; 0; 0]) (PySeq KTuple [3; 1; 1; 1; 1])
           (PyBool false) (PyBool false) PyNone PyNone [2; 2; 2; 1; 1]);
    reflexivity.
Defined.

(** C4, as stated, fails: the out-of-bounds failure comes after the buffer
    has been allocated. *)
Lemma out_of_bounds_after_allocation :
  let run := get_image (Mock.conn Sample.small) (PyInt 1) (PyBool false)
                       (Sample.tuple5 0 0 0 0 0) (Sample.tuple5 3 1 1 1 1)
                       (PyBool false) (PyBool false) PyNone PyNone in
  ~ fails_before_allocation run
  /\ run = ([GetObject 1; NpZeros [1; 1; 1; 3; 1]],
            Raise (IndexError oob_msg)).
Proof.
  split; [|reflexivity]. intros H.
  apply (H (IndexError oob_msg) eq_refl [1; 1; 1; 3; 1]).
  right; left. reflexivity.
Qed.

(** ** The shape of the returned array *)

Lemma moveaxis_xyzct pixels nt nz ny nx nc :
  shape pixels = [nt; nz; ny; nx; nc] ->
  exists view,
    moveaxis pixels [0; 1; 2; 3; 4]%nat [4; 2; 1; 0; 3]%nat = ret view
    /\ shape view = [nx; ny; nz; nc; nt].
Proof.
  intros H. unfold moveaxis. rewrite H. simpl.
  eexists. split; [reflexivity|]. unfold transpose. simpl. now rewrite H.
Qed.

Lemma slice_stop_full n : 0 <= n -> slice_stop n n = n.
Proof.
  intros H. unfold slice_stop.
  replace (n <? 0) with false by (symmetry; apply Z.ltb_ge; lia).
  apply Z.min_id.
Qed.

(** Within the extent and with a source that serves it, [extract] comes to
    the reordering of a buffer of the requested shape. *)
Lemma extract_within_extent image pl extent sc al xyzct pad dim :
  let start := default_start sc in
  let lengths := default_lengths extent start al in
  length extent = 5%nat -> length start = 5%nat -> length lengths = 5%nat ->
  serves_extent (fetcher_of image pl extent) extent ->
  (forall axis, (axis < 5)%nat ->
     0 <= ix start axis /\ 0 < ix lengths axis
     /\ ix start axis + ix lengths axis <= ix extent axis) ->
  exists pixels,
    shape pixels = reorder_sizes lengths
    /\ outcome (extract extent (fetcher_of image pl extent) sc al xyzct pad dim)
       = outcome (reorder_view pixels dim xyzct).
Proof.
  intros start lengths Le Ls Ll Hserves Hin.
  assert (Hb : in_bounds start lengths extent).
  { intros axis Hax. unfold overhang. specialize (Hin axis Hax). lia. }
  pose proof (effective_in_bounds _ _ _ Ls Ll Le Hb) as Heff.
  pose proof (out_of_bounds_passes _ _ _ pad Ls Ll Le (or_intror Hb)) as Hoob.
  assert (Hpos : Forall (fun d => 0 <= d) lengths).
  { destruct (length5 _ Ll) as (l0 & l1 & l2 & l3 & l4 & El).
    pose proof (Hin 0%nat) as H0. pose proof (Hin 1%nat) as H1.
    pose proof (Hin 2%nat) as H2. pose proof (Hin 3%nat) as H3.
    pose proof (Hin 4%nat) as H4. rewrite El in *. unfold ix in *.
    simpl in *. repeat constructor; lia. }
  pose proof (reorder_sizes_nonneg _ Ll Hpos) as Hsh.
  rewrite (extract_in_bounds extent _ _ _ xyzct pad _ Hsh Hoob).
  fold start. fold lengths. rewrite Heff.
  set (whole := list_eqb (reorder_sizes lengths) (reorder_sizes extent)).
  (* every plane of the enumeration is served, with the size of the window *)
  destruct (fetcher_of_serves image pl extent whole start lengths
              (zct_enumerate start lengths)
              (fun plane => rows plane = window_rows lengths lengths
                            /\ cols plane = window_cols lengths lengths))
    as (pg & Hpg & HF).
  { intros [[z c] t] Hp. apply In_zct_enumerate in Hp.
    pose proof (Hin 0%nat) as H0. pose proof (Hin 1%nat) as H1.
    pose proof (Hin 2%nat) as H2. pose proof (Hin 3%nat) as H3.
    pose proof (Hin 4%nat) as H4.
    destruct (Hserves whole start lengths (z, c, t)) as (plane & Hf & Hr & Hc).
    - unfold in_image. lia.
    - intros _. lia.
    - exists plane. split; [exact Hf|].
      unfold window_rows, window_cols.
      rewrite !slice_stop_full by lia. rewrite Hr, Hc.
      destruct whole eqn:Ew; [|auto].
      apply reorder_sizes_eq in Ew; [|assumption ..]. now rewrite Ew. }
  (* so the loop ends and leaves the shape as it was *)
  destruct (assemble_ok start lengths lengths Ll pg
              (zct_enumerate start lengths) (zeros (reorder_sizes lengths)))
    as (pixels' & Hasm & Hshape).
  { eapply Forall2_impl; [|exact HF]. intros p m (plane & -> & Hr & Hc).
    exists plane. auto. }
  { apply Forall_forall. intros [[z c] t] Hp. apply In_zct_enumerate in Hp.
    lia. }
  { reflexivity. }
  exists pixels'. split; [exact Hshape|].
  rewrite bind_emit. unfold outcome at 1. cbn [snd].
  fold (outcome (plane_gen <- fetcher_of image pl extent whole start
                                lengths (zct_enumerate start lengths) ;;
                 pixels <- assemble start lengths plane_gen
                             (zct_enumerate start lengths)
                             (zeros (reorder_sizes lengths)) ;;
                 reorder_view pixels dim xyzct)).
  now rewrite (outcome_bind _ _ _ _ _ Hpg), Hasm, bind_ret.
Qed.

Lemma reorder_view_canonical pixels xyzct nt nz ny nx nc :
  shape pixels = [nt; nz; ny; nx; nc] ->
  exists view,
    reorder_view pixels None xyzct = ret view
    /\ shape view = if is_True xyzct then [nx; ny; nz; nc; nt]
                    else [nt; nz; ny; nx; nc].
Proof.
  intros H. unfold reorder_view. destruct (is_True xyzct).
  - apply moveaxis_xyzct, H.
  - exists pixels. split; [reflexivity | exact H].
Qed.

(** C7. A request with non-negative start coordinates and positive lengths
    that lies within the extent, served by a source that answers every read
    inside the extent with a plane of the size asked for, comes to the
    reordering of a buffer whose shape is (lengths[T], lengths[Z],
    lengths[Y], lengths[X], lengths[C]).  Without [dim_order] the call
    returns: that buffer, or with [xyzct=True] its view of shape
    (lengths[X], lengths[Y], lengths[Z], lengths[C], lengths[T]). *)
Theorem shape_within_extent :
  forall conn id image start_coords axis_lengths xyzct pad pyramid_level
         dim_order extent,
    conn id = Some image ->
    valid_coords start_coords = true ->
    valid_coords axis_lengths = true ->
    valid_dim_order dim_order = true ->
    resolution_extent image pyramid_level = Some extent ->
    serves_extent (fetcher_of image pyramid_level extent) extent ->
    let start := default_start (coords_of start_coords) in
    let lengths := default_lengths extent start (coords_of axis_lengths) in
    (forall axis, (axis < 5)%nat ->
       0 <= ix start axis /\ 0 < ix lengths axis
       /\ ix start axis + ix lengths axis <= ix extent axis) ->
    let run := get_image conn (PyInt id) (PyBool false) start_coords
                         axis_lengths xyzct pad pyramid_level dim_order in
    exists pixels,
      shape pixels = [ix lengths 4; ix lengths 2; ix lengths 1; ix lengths 0;
                      ix lengths 3]
      /\ outcome run
         = with_image image
             (outcome (reorder_view pixels (dim_order_of dim_order) xyzct))
      /\ (dim_order = PyNone ->
          exists view,
            outcome run = Ok (Some image, Some view)
            /\ shape view
               = if is_True xyzct
                 then [ix lengths 0; ix lengths 1; ix lengths 2;
                       ix lengths 3; ix lengths 4]
                 else [ix lengths 4; ix lengths 2; ix lengths 1;
                       ix lengths 0; ix lengths 3]).
Proof.
  intros conn id image start_coords axis_lengths xyzct pad pyramid_level
         dim_order extent found Vs Vl Vo Hext Hserves start lengths Hin run.
  pose proof (resolution_extent_length _ _ _ Hext) as Le.
  pose proof (default_start_length _ Vs) as Ls.
  pose proof (default_lengths_length extent start _ Le Ls Vl) as Ll.
  destruct (extract_within_extent image pyramid_level extent
              (coords_of start_coords) (coords_of axis_lengths) xyzct pad
              (dim_order_of dim_order) Le Ls Ll Hserves Hin)
    as (pixels & Hshape & Hrun).
  assert (Hout : outcome run
                 = with_image image
                     (outcome (reorder_view pixels (dim_order_of dim_order)
                                            xyzct))).
  { unfold run.
    rewrite (get_image_run conn id image start_coords axis_lengths xyzct pad
               pyramid_level dim_order extent found Vs Vl Vo Hext).
    unfold outcome at 1. cbn [snd]. now rewrite Hrun. }
  exists pixels. split; [exact Hshape|]. split; [exact Hout|].
  intros ->. rewrite Hout. simpl dim_order_of.
  destruct (reorder_view_canonical pixels xyzct _ _ _ _ _ Hshape)
    as (view & -> & Hview).
  exists view. split; [reflexivity | exact Hview].
Qed.

(** ** The in-memory server serves its extent *)

Lemma mock_zct_ok sz sc st z c t :
  0 <= z < sz -> 0 <= c < sc -> 0 <= t < st ->
  Mock.zct_ok sz sc st (z, c, t) = true.
Proof.
  intros Hz Hc Ht. unfold Mock.zct_ok, Mock.in_range.
  repeat (apply andb_true_iff; split);
    (apply Z.leb_le || apply Z.ltb_lt); lia.
Qed.

Lemma mock_serves_native sx sy sz sc st levels :
  serves_extent (primary_fetch (Mock.image sx sy sz sc st levels))
                [sx; sy; sz; sc; st].
Proof.
  intros whole start eff [[z c] t] Him Htile.
  unfold in_image, ix in Him. simpl in Him. destruct Him as (Hz & Hc & Ht).
  rewrite fetched_plane_primary. destruct whole.
  - unfold Mock.image. cbn [plane_of]. unfold Mock.whole_plane.
    rewrite mock_zct_ok by assumption.
    eexists. split; [reflexivity|]. split; reflexivity.
  - specialize (Htile eq_refl). unfold ix in Htile. simpl in Htile.
    unfold Mock.image. cbn [tile_of]. unfold Mock.one_tile.
    rewrite mock_zct_ok by assumption.
    replace (_ && _) with true.
    + eexists. split; [reflexivity|]. split; reflexivity.
    + symmetry. unfold ix. simpl nth.
      repeat (apply andb_true_iff; split); try reflexivity;
        (apply Z.leb_le || apply Z.ltb_lt); lia.
Qed.

Lemma py_range_length a b : 0 <= b - a -> Z.of_nat (length (py_range a b)) = b - a.
Proof. intros H. unfold py_range. rewrite length_map, length_seq. lia. Qed.

Lemma mock_window_length i x0 y0 w h z c t :
  0 <= w -> 0 <= h ->
  Z.of_nat (length (Mock.window i x0 y0 w h z c t)) = h * w.
Proof.
  intros Hw Hh. unfold Mock.window.
  assert (E : forall l : list Z,
             Z.of_nat (length
               (flat_map (fun y => map (fun x => Mock.pixel_value x y z c t
                                                 + 100000 * i)
                                       (py_range x0 (x0 + w))) l))
             = Z.of_nat (length l) * w).
  { induction l as [|y l IH]; [reflexivity|]. cbn [flat_map length].
    rewrite length_app, length_map, Nat2Z.inj_add, IH, py_range_length; lia. }
  rewrite E, py_range_length; lia.
Qed.

Lemma np_reshape2_ok data h w :
  0 <= h -> 0 <= w -> Z.of_nat (length data) = h * w ->
  exists plane,
    np_reshape2 data h w = ret plane /\ rows plane = h /\ cols plane = w.
Proof.
  intros Hh Hw Hlen. unfold np_reshape2.
  replace (h =? -1) with false by (symmetry; apply Z.eqb_neq; lia).
  replace (w =? -1) with false by (symmetry; apply Z.eqb_neq; lia).
  replace (h <? -1) with false by (symmetry; apply Z.ltb_ge; lia).
  replace (w <? -1) with false by (symmetry; apply Z.ltb_ge; lia).
  cbn [andb orb]. rewrite Hlen, Z.eqb_refl.
  eexists. split; [reflexivity|]. split; reflexivity.
Qed.

(** A level [p] of the in-memory server, of size [w] x [h], is served by
    the raw pixels store at level [n - p - 1]. *)
Lemma mock_serves_level sx sy sz sc st levels p w h :
  0 <= p < Z.of_nat (length levels) ->
  nth_error levels (Z.to_nat p) = Some (w, h) ->
  0 <= w -> 0 <= h ->
  serves_extent
    (raw_fetch (createRawPixelsStore (Mock.image sx sy sz sc st levels))
               (Z.of_nat (length levels) - p - 1) w h)
    [w; h; sz; sc; st].
Proof.
  intros Hp Hnth Hw Hh whole start eff [[z c] t] Him Htile.
  unfold in_image, ix in Him. simpl in Him. destruct Him as (Hz & Hc & Ht).
  rewrite fetched_plane_raw.
  assert (Hsize : Mock.level_size levels (Z.of_nat (length levels) - p - 1)
                  = Some (w, h)).
  { unfold Mock.level_size, Mock.in_range.
    replace (_ && _) with true
      by (symmetry; apply andb_true_iff; split;
          [apply Z.leb_le | apply Z.ltb_lt]; lia).
    rewrite <- Hnth. f_equal. lia. }
  unfold raw_read. destruct whole.
  - unfold Mock.image. cbn [createRawPixelsStore getPlane].
    unfold Mock.raw_plane. rewrite Hsize.
    rewrite mock_zct_ok by assumption.
    destruct (np_reshape2_ok
                (Mock.window (Z.of_nat (length levels) - p - 1) 0 0 w h z c t)
                h w Hh Hw (mock_window_length _ _ _ _ _ _ _ _ Hw Hh))
      as (plane & Hplane & Hr & Hcl).
    exists plane. unfold ix at 1 2. simpl nth.
    rewrite bind_emit. unfold outcome. cbn [snd remote].
    rewrite bind_ret, Hplane. auto.
  - specialize (Htile eq_refl). unfold ix in Htile. simpl in Htile.
    unfold Mock.image. cbn [createRawPixelsStore getTile].
    unfold Mock.raw_tile. rewrite Hsize.
    rewrite mock_zct_ok by assumption.
    replace (_ && _) with true
      by (symmetry; unfold ix; simpl;
          repeat (apply andb_true_iff; split); try reflexivity;
          (apply Z.leb_le || apply Z.ltb_lt); lia).
    destruct (np_reshape2_ok
                (Mock.window (Z.of_nat (length levels) - p - 1)
                             (ix start 0) (ix start 1) (ix eff 0) (ix eff 1)
                             z c t)
                (ix eff 1) (ix eff 0)) as (plane & Hplane & Hr & Hcl).
    { unfold ix; simpl; lia. }
    { unfold ix; simpl; lia. }
    { apply mock_window_length; unfold ix; simpl; lia. }
    exists plane.
    rewrite bind_emit. unfold outcome. cbn [snd remote].
    rewrite bind_ret, Hplane. auto.
Qed.

Lemma shape_within_extent_witness :
  let run := get_image (Mock.conn Sample.small) (PyInt 1) (PyBool false)
                       (Sample.tuple5 1 0 0 0 0) (Sample.tuple5 1 2 2 1 1)
                       (PyBool false) (PyBool false) PyNone PyNone in
  exists pixels,
    shape pixels = [1; 2; 2; 1; 1]
    /\ outcome run
       = with_image Sample.small
           (outcome (reorder_view pixels None (PyBool false)))
    /\ (PyNone = PyNone ->
        exists view,
          outcome run = Ok (Some Sample.small, Some view)
          /\ shape view = [1; 2; 2; 1; 1]).
Proof.
  apply (shape_within_extent (Mock.conn Sample.small) 1 Sample.small
           (Sample.tuple5 1 0 0 0 0) (Sample.tuple5 1 2 2 1 1)
           (PyBool false) (PyBool false) PyNone PyNone [2; 2; 2; 1; 1]);
    try reflexivity.
  - apply mock_serves_native.
  - intros axis Hax.
    destruct axis as [|[|[|[|[|axis]]]]]; [| | | | |lia]; vm_compute;
      repeat split; discriminate.
Defined.

(** The same on level 1 of the four-level image, which is 4 x 4, with the
    axes in XYZCT order. *)
Example shape_on_pyramid_level :
  exists view,
    outcome (get_image (Mock.conn Sample.pyramidal) (PyInt 1) (PyBool false)
                       (Sample.tuple5 1 1 0 0 0) (Sample.tuple5 3 2 1 1 1)
                       (PyBool true) (PyBool false) (PyInt 1) PyNone)
    = Ok (Some Sample.pyramidal, Some view)
    /\ shape view = [3; 2; 1; 1; 1].
Proof.
  destruct (extract_within_extent Sample.pyramidal (PyInt 1) [4; 4; 1; 1; 1]
              (Some [1; 1; 0; 0; 0]) (Some [3; 2; 1; 1; 1]) (PyBool true)
              (PyBool false) None eq_refl eq_refl eq_refl)
    as (pixels & Hshape & Hrun).
  - apply (mock_serves_level 8 8 1 1 1 [(8, 8); (4, 4); (2, 2); (1, 1)] 1 4 4);
      try reflexivity; simpl; lia.
  - intros axis Hax.
    destruct axis as [|[|[|[|[|axis]]]]]; [| | | | |lia]; vm_compute;
      repeat split; discriminate.
  - destruct (reorder_view_canonical pixels (PyBool true) _ _ _ _ _ Hshape)
      as (view & Hview & Hv).
    exists view. split; [|exact Hv].
    rewrite (get_image_run (Mock.conn Sample.pyramidal) 1 Sample.pyramidal
               (Sample.tuple5 1 1 0 0 0) (Sample.tuple5 3 2 1 1 1)
               (PyBool true) (PyBool false) (PyInt 1) PyNone [4; 4; 1; 1; 1]
               eq_refl eq_refl eq_refl eq_refl eq_refl).
    unfold outcome at 1. cbn [snd]. unfold Sample.tuple5.
    cbn [coords_of dim_order_of]. now rewrite Hrun, Hview.
Qed.

(** A returned buffer that is populated: the second column of the 2 x 2
    image, both Z sections. *)
Example populated_column :
  exists view,
    outcome (extract [2; 2; 2; 1; 1]
               (fetcher_of Sample.small PyNone [2; 2; 2; 1; 1])
               (Some [1; 0; 0; 0; 0]) (Some [1; 2; 2; 1; 1]) (PyBool false)
               (PyBool false) None)
    = Ok view
    /\ populated (fetcher_of Sample.small PyNone [2; 2; 2; 1; 1])
                 (whole_planes [1; 2; 2; 1; 1] [2; 2; 2; 1; 1])
                 [1; 0; 0; 0; 0]
                 (effective [1; 0; 0; 0; 0] [1; 2; 2; 1; 1] [2; 2; 2; 1; 1])
                 [1; 2; 2; 1; 1] None (PyBool false) view
    /\ map (item view) [[0; 0; 0; 0; 0]; [0; 1; 1; 0; 0]]
       = [Mock.pixel_value 1 0 0 0 0; Mock.pixel_value 1 1 1 0 0].
Proof.
  eexists. split; [reflexivity|]. split; [|reflexivity].
  apply (extract_populated [2; 2; 2; 1; 1] Sample.small PyNone
           (Some [1; 0; 0; 0; 0]) (Some [1; 2; 2; 1; 1]) (PyBool false)
           (PyBool false) None _ eq_refl).
  reflexivity.
Qed.

(** * The other accessors *)

(** ** Colours *)

Lemma int_to_rgba_unsigned u is_fill :
  0 < u < 2 ^ 32 ->
  _int_to_rgba (Some u) is_fill
  = (u / 2 ^ 24, u mod 2 ^ 24 / 2 ^ 16, u mod 2 ^ 16 / 2 ^ 8, u mod 2 ^ 8).
Proof.
  intros Hu. unfold _int_to_rgba.
  replace (u =? 0) with false by (symmetry; apply Z.eqb_neq; lia).
  replace (u <? 0) with false by (symmetry; apply Z.ltb_ge; lia).
  cbn [negb]. rewrite !Z.shiftr_div_pow2, !Z.shiftl_mul_pow2 by lia.
  change (2 ^ 32) with 4294967296 in Hu.
  change (2 ^ 24) with 16777216. change (2 ^ 16) with 65536.
  change (2 ^ 8) with 256.
  assert (Hg : (u - u / 16777216 * 16777216) / 65536 = u mod 16777216 / 65536)
    by (Z.div_mod_to_equations; lia).
  assert (Hb : (u - u / 16777216 * 16777216
                - (u - u / 16777216 * 16777216) / 65536 * 65536) / 256
               = u mod 65536 / 256)
    by (Z.div_mod_to_equations; lia).
  assert (Ha : u - u / 16777216 * 16777216
               - (u - u / 16777216 * 16777216) / 65536 * 65536
               - (u - u / 16777216 * 16777216
                  - (u - u / 16777216 * 16777216) / 65536 * 65536) / 256 * 256
               = u mod 256)
    by (Z.div_mod_to_equations; lia).
  now rewrite Ha, Hb, Hg.
Qed.

(** X1. For a non-zero value in the range of 32-bit integers, signed or
    unsigned, the four components are bytes and, packed again, give the
    value modulo 2^32. *)
Theorem int_to_rgba_decodes :
  forall v is_fill,
    v <> 0 -> - 2 ^ 32 <= v < 2 ^ 32 ->
    exists r g b a,
      _int_to_rgba (Some v) is_fill = (r, g, b, a)
      /\ is_byte r /\ is_byte g /\ is_byte b /\ is_byte a
      /\ pack_rgba r g b a = v mod 2 ^ 32.
Proof.
  intros v is_fill Hv Hr.
  assert (H32 : 2 ^ 32 = 4294967296) by reflexivity.
  destruct (Z.eq_dec v (- 2 ^ 32)) as [->|Hmin].
  { exists 0, 0, 0, 0. unfold is_byte.
    repeat split; try (vm_compute; reflexivity); vm_compute; discriminate. }
  set (u := v mod 2 ^ 32).
  assert (Hu : 0 < u < 2 ^ 32).
  { unfold u. rewrite H32 in *. Z.div_mod_to_equations. lia. }
  assert (E : _int_to_rgba (Some v) is_fill = _int_to_rgba (Some u) is_fill).
  { unfold _int_to_rgba, u. rewrite H32 in *.
    replace (v =? 0) with false by (symmetry; apply Z.eqb_neq; lia).
    destruct (Z.ltb_spec v 0) as [Hneg|Hpos].
    - replace (v mod 4294967296) with (v + 4294967296)
        by (Z.div_mod_to_equations; lia).
      replace (v + 4294967296 =? 0) with false
        by (symmetry; apply Z.eqb_neq; lia).
      replace (v + 4294967296 <? 0) with false
        by (symmetry; apply Z.ltb_ge; lia).
      reflexivity.
    - rewrite Z.mod_small by lia.
      replace (v =? 0) with false by (symmetry; apply Z.eqb_neq; lia).
      replace (v <? 0) with false by (symmetry; apply Z.ltb_ge; lia).
      reflexivity. }
  rewrite E, (int_to_rgba_unsigned u is_fill Hu).
  do 4 eexists. split; [reflexivity|].
  unfold is_byte, pack_rgba. fold u. clearbody u. clear E.
  change (2 ^ 32) with 4294967296 in *.
  change (2 ^ 24) with 16777216. change (2 ^ 16) with 65536.
  change (2 ^ 8) with 256.
  repeat split; Z.div_mod_to_equations; lia.
Qed.

Lemma int_to_rgba_decodes_witness :
  exists r g b a,
    _int_to_rgba (Some (-16776961)) false = (r, g, b, a)
    /\ is_byte r /\ is_byte g /\ is_byte b /\ is_byte a
    /\ pack_rgba r g b a = (-16776961) mod 2 ^ 32.
Proof.
  apply (int_to_rgba_decodes (-16776961) false); [discriminate|].
  split; [discriminate | reflexivity].
Defined.

(** X2. The colour (r, g, b, a), stored as a signed 32-bit integer, is read
    back as (r, g, b, a), except that a stroke of four zero bytes is read
    as the default stroke colour: 0 counts as "no colour". *)
Theorem rgba_round_trip :
  forall r g b a is_fill,
    is_byte r -> is_byte g -> is_byte b -> is_byte a ->
    _int_to_rgba (Some (signed32 (pack_rgba r g b a))) is_fill
    = if (pack_rgba r g b a =? 0) && negb is_fill then (255, 255, 0, 255)
      else (r, g, b, a).
Proof.
  intros r g b a is_fill Hr Hg Hb Ha. unfold is_byte in *.
  assert (Hp : 0 <= pack_rgba r g b a < 2 ^ 32).
  { unfold pack_rgba. change (2 ^ 32) with 4294967296.
    change (2 ^ 24) with 16777216. change (2 ^ 16) with 65536.
    change (2 ^ 8) with 256. lia. }
  destruct (Z.eqb_spec (pack_rgba r g b a) 0) as [E0|Hne].
  - rewrite E0. cbn [andb]. assert (r = 0 /\ g = 0 /\ b = 0 /\ a = 0)
      as (-> & -> & -> & ->).
    { unfold pack_rgba in E0. change (2 ^ 24) with 16777216 in E0.
      change (2 ^ 16) with 65536 in E0. change (2 ^ 8) with 256 in E0. lia. }
    now destruct is_fill.
  - cbn [andb].
    destruct (int_to_rgba_decodes (signed32 (pack_rgba r g b a)) is_fill)
      as (r' & g' & b' & a' & E & Hr' & Hg' & Hb' & Ha' & Hpack).
    { unfold signed32. change (2 ^ 32) with 4294967296 in *.
      change (2 ^ 31) with 2147483648. destruct (_ <? _); lia. }
    { unfold signed32. change (2 ^ 32) with 4294967296 in *.
      change (2 ^ 31) with 2147483648. destruct (_ <? _); lia. }
    rewrite E.
    assert (Hmod : signed32 (pack_rgba r g b a) mod 2 ^ 32 = pack_rgba r g b a).
    { unfold signed32. change (2 ^ 32) with 4294967296 in *.
      change (2 ^ 31) with 2147483648.
      destruct (Z.ltb_spec (pack_rgba r g b a) 2147483648).
      - apply Z.mod_small. lia.
      - replace (pack_rgba r g b a - 4294967296)
          with (pack_rgba r g b a + (-1) * 4294967296) by lia.
        rewrite Z_mod_plus_full. apply Z.mod_small. lia. }
    rewrite Hmod in Hpack. unfold pack_rgba, is_byte in *.
    change (2 ^ 24) with 16777216 in *. change (2 ^ 16) with 65536 in *.
    change (2 ^ 8) with 256 in *.
    assert (r' = r /\ g' = g /\ b' = b /\ a' = a) as (-> & -> & -> & ->) by lia.
    reflexivity.
Qed.

Lemma rgba_round_trip_witness :
  _int_to_rgba (Some (signed32 (pack_rgba 255 0 0 255))) true
  = if (pack_rgba 255 0 0 255 =? 0) && negb true then (255, 255, 0, 255)
    else (255, 0, 0, 255).
Proof.
  apply (rgba_round_trip 255 0 0 255 true); unfold is_byte; lia.
Defined.

(** ** Map annotations *)

Lemma kv_get_set d k v k' :
  kv_get (kv_set d k v) k' = if String.eqb k k' then Some v else kv_get d k'.
Proof.
  induction d as [|[k0 v0] d IH]; simpl.
  - reflexivity.
  - destruct (String.eqb k0 k) eqn:E0; simpl.
    + apply String.eqb_eq in E0. subst k0. now destruct (String.eqb k k').
    + rewrite IH. destruct (String.eqb k0 k') eqn:E1; [|reflexivity].
      apply String.eqb_eq in E1. subst k'. now rewrite String.eqb_sym, E0.
Qed.

Lemma kv_get_None d k : kv_get d k = None <-> ~ In k (map fst d).
Proof.
  induction d as [|[k0 v0] d IH]; simpl; [tauto|].
  destruct (String.eqb_spec k0 k) as [->|Hne].
  - split; [discriminate | intros H; exfalso; apply H; now left].
  - rewrite IH. tauto.
Qed.

(** [d[k] = v] keeps the place of a key that is there and puts a new key
    last. *)
Lemma kv_set_keys d k v :
  map fst (kv_set d k v)
  = if in_dec string_dec k (map fst d) then map fst d else map fst d ++ [k].
Proof.
  induction d as [|[k0 v0] d IH]; simpl; [reflexivity|].
  destruct (String.eqb_spec k0 k) as [->|Hne]; simpl.
  - destruct (string_dec k k); [|contradiction].
    now destruct (in_dec string_dec k (map fst d)).
  - rewrite IH. destruct (string_dec k0 k); [contradiction|].
    now destruct (in_dec string_dec k (map fst d)).
Qed.

Lemma kv_set_NoDup d k v : NoDup (map fst d) -> NoDup (map fst (kv_set d k v)).
Proof.
  intros N. rewrite kv_set_keys.
  destruct (in_dec string_dec k (map fst d)) as [Hin|Hout]; [exact N|].
  apply NoDup_app; [exact N | repeat constructor; intros [] | ].
  intros x Hx [<-|[]]. contradiction.
Qed.

Lemma values_of_app k l1 l2 :
  values_of k (l1 ++ l2) = values_of k l1 ++ values_of k l2.
Proof. unfold values_of. now rewrite filter_app, map_app. Qed.

Lemma values_of_one k k0 v0 :
  values_of k [(k0, v0)] = if String.eqb k0 k then [v0] else [].
Proof. unfold values_of. simpl. now destruct (String.eqb k0 k). Qed.

Lemma grouped_snoc vs v :
  grouped (vs ++ [v])
  = match grouped vs with
    | Some (One v0) => Some (Many [v0; v])
    | Some (Many vs0) => Some (Many (vs0 ++ [v]))
    | None => Some (One v)
    end.
Proof. now destruct vs as [|v1 [|v2 [|v3 vs]]]. Qed.

(** What the loop of [get_map_annotation] has built after the pairs
    [pairs]. *)
Lemma collect_pairs_spec pairs :
  NoDup (map fst (fold_left collect_item pairs []))
  /\ forall k, kv_get (fold_left collect_item pairs []) k
               = grouped (values_of k pairs).
Proof.
  induction pairs as [|[k0 v0] pairs [IHn IHg]] using rev_ind.
  - split; [constructor | reflexivity].
  - rewrite fold_left_app. cbn [fold_left]. unfold collect_item at 1 3.
    cbn [fst snd]. rewrite IHg. split.
    + destruct (grouped (values_of k0 pairs)); now apply kv_set_NoDup.
    + intros k. rewrite values_of_app, values_of_one.
      destruct (String.eqb_spec k0 k) as [->|Hne].
      * rewrite grouped_snoc.
        destruct (grouped (values_of k pairs)) as [[v|vs]|];
          now rewrite kv_get_set, String.eqb_refl.
      * rewrite app_nil_r. apply String.eqb_neq in Hne.
        destruct (grouped (values_of k0 pairs)) as [[v|vs]|];
          rewrite kv_get_set, Hne; apply IHg.
Qed.

(** X3. For an annotation that exists, [get_map_annotation] returns a dict
    with each key once; a key is in it when some pair has it as its name;
    its value is the value of that pair when there is one such pair, and
    the list of their values, in order, when there are several. *)
Theorem get_map_annotation_groups :
  forall (conn : MapAnnotations) id ann,
    conn id = Some ann ->
    exists d,
      get_map_annotation conn (PyInt id) = inr d
      /\ NoDup (map fst d)
      /\ forall k, kv_get d k = grouped (values_of k (getValue ann)).
Proof.
  intros conn id ann H. unfold get_map_annotation. rewrite H.
  eexists. split; [reflexivity|]. apply collect_pairs_spec.
Qed.

Lemma get_map_annotation_groups_witness :
  exists d,
    get_map_annotation
      (fun id => if id =? 62
                 then Some {| getNs := None;
                              getValue := [("a", "1"); ("b", "2"); ("a", "3")]
                                            %string |}
                 else None)
      (PyInt 62) = inr d
    /\ NoDup (map fst d)
    /\ forall k, kv_get d k
                 = grouped (values_of k [("a", "1"); ("b", "2"); ("a", "3")]
                                        %string).
Proof.
  apply (get_map_annotation_groups _ 62
           {| getNs := None;
              getValue := [("a", "1"); ("b", "2"); ("a", "3")]%string |}).
  reflexivity.
Defined.

Lemma kv_get_last acc k old :
  ~ In k (map fst acc) -> kv_get (acc ++ [(k, old)]) k = Some old.
Proof.
  induction acc as [|[k0 v0] acc IH]; simpl; intros H.
  - now rewrite String.eqb_refl.
  - destruct (String.eqb_spec k0 k) as [->|Hne]; [exfalso; auto|].
    apply IH. auto.
Qed.

Lemma kv_set_last acc k old v :
  ~ In k (map fst acc) -> kv_set (acc ++ [(k, old)]) k v = acc ++ [(k, v)].
Proof.
  induction acc as [|[k0 v0] acc IH]; simpl; intros H.
  - now rewrite String.eqb_refl.
  - destruct (String.eqb_spec k0 k) as [->|Hne]; [exfalso; auto|].
    rewrite IH; auto.
Qed.

Lemma kv_set_fresh acc k v :
  ~ In k (map fst acc) -> kv_set acc k v = acc ++ [(k, v)].
Proof.
  induction acc as [|[k0 v0] acc IH]; simpl; intros H; [reflexivity|].
  destruct (String.eqb_spec k0 k) as [->|Hne]; [exfalso; auto|].
  rewrite IH; auto.
Qed.

(** More values for a key that is the last one of the dict. *)
Lemma collect_more acc k (l : list atom) :
  ~ In k (map fst acc) ->
  forall old,
    fold_left collect_item (map (fun value => (k, py_str value)) l)
              (acc ++ [(k, old)])
    = acc ++ [(k, match l with
                  | [] => old
                  | _ => Many (match old with Many vs => vs | One v => [v] end
                               ++ map py_str l)
                  end)].
Proof.
  intros Hk. induction l as [|a l IH]; intros old; [reflexivity|].
  cbn [map fold_left]. unfold collect_item at 2. cbn [fst snd].
  rewrite (kv_get_last _ _ _ Hk), (kv_set_last _ _ _ _ Hk), IH.
  destruct l as [|b l]; [reflexivity|].
  cbn [map]. now rewrite <- app_assoc.
Qed.

Lemma collect_flatten_item acc kv :
  ~ In (py_str (fst kv)) (map fst acc) ->
  fold_left collect_item (flatten_item kv) acc = acc ++ read_back kv.
Proof.
  destruct kv as [k v]. cbn [fst]. intros Hk.
  assert (Hnone : kv_get acc (py_str k) = None) by now apply kv_get_None.
  unfold flatten_item, read_back. cbn [fst snd]. destruct v as [v|l].
  - cbn [fold_left]. unfold collect_item. cbn [fst snd].
    now rewrite Hnone, kv_set_fresh.
  - destruct l as [|a l]; [now rewrite app_nil_r|].
    cbn [map fold_left]. unfold collect_item at 2. cbn [fst snd].
    rewrite Hnone, kv_set_fresh, collect_more by assumption.
    now destruct l.
Qed.

Lemma collect_flatten kv_dict :
  forall acc,
    NoDup (map (fun kv => py_str (fst kv)) kv_dict) ->
    (forall kv, In kv kv_dict -> ~ In (py_str (fst kv)) (map fst acc)) ->
    fold_left collect_item (flat_map flatten_item kv_dict) acc
    = acc ++ flat_map read_back kv_dict.
Proof.
  induction kv_dict as [|kv kv_dict IH]; intros acc N Hacc.
  - simpl. now rewrite app_nil_r.
  - cbn [flat_map]. rewrite fold_left_app, collect_flatten_item
      by (apply Hacc; now left).
    inversion N as [|? ? Hnot N']; subst.
    rewrite IH, <- app_assoc; [reflexivity | exact N' |].
    intros kv' Hin'. rewrite map_app, in_app_iff. intros [Hold|Hnew].
    + apply (Hacc kv'); [now right | exact Hold].
    + apply Hnot.
      assert (E : py_str (fst kv') = py_str (fst kv)).
      { destruct kv as [k v]. unfold read_back in Hnew. cbn [fst snd] in Hnew.
        destruct v as [v|l]; [|destruct (grouped _)];
          cbn [map fst In] in Hnew; try contradiction;
          destruct Hnew as [Hnew|[]]; cbn [fst]; congruence. }
      rewrite <- E. apply in_map_iff. now exists kv'.
Qed.

(** X4. Putting a dict whose keys have distinct [str()] into an annotation
    that exists, and getting the annotation again, gives the dict back
    with its keys and values as strings, but for two things: a list of one
    value comes back as that value, and a key with an empty list is gone.
    The other annotations are as they were. *)
Theorem put_then_get_map_annotation :
  forall (conn : MapAnnotations) id ann kv_dict ns,
    conn id = Some ann ->
    NoDup (map (fun kv => py_str (fst kv)) kv_dict) ->
    exists conn',
      put_map_annotation conn (PyInt id) kv_dict ns = inr conn'
      /\ get_map_annotation conn' (PyInt id)
         = inr (flat_map read_back kv_dict)
      /\ forall id', id' <> id -> conn' id' = conn id'.
Proof.
  intros conn id ann kv_dict ns Hann N.
  unfold put_map_annotation. rewrite Hann.
  eexists. split; [reflexivity|]. split.
  - unfold get_map_annotation. rewrite Z.eqb_refl. cbn [getValue].
    rewrite collect_flatten; [reflexivity | exact N | intros kv _ []].
  - intros id' Hne. apply Z.eqb_neq in Hne. now rewrite Hne.
Qed.

Lemma put_then_get_map_annotation_witness :
  let conn : MapAnnotations :=
    fun id => if id =? 15 then Some {| getNs := None; getValue := [] |}
              else None in
  let kv_dict := [(AStr "key1", Single (AStr "value1"));
                  (AStr "key2", Listed [AStr "value2"; AInt 3]);
                  (AInt 7, Listed [ABool true]);
                  (AStr "key4", Listed [])] in
  exists conn',
    put_map_annotation conn (PyInt 15) kv_dict None = inr conn'
    /\ get_map_annotation conn' (PyInt 15) = inr (flat_map read_back kv_dict)
    /\ forall id', id' <> 15 -> conn' id' = conn id'.
Proof.
  apply (put_then_get_map_annotation _ 15 {| getNs := None; getValue := [] |});
    [reflexivity|].
  repeat constructor; simpl; intros H;
    repeat (destruct H as [H|H]; [discriminate H|]); exact H.
Defined.

(** What comes back in that example. *)
Example read_back_example :
  flat_map read_back
    [(AStr "key1", Single (AStr "value1"));
     (AStr "key2", Listed [AStr "value2"; AInt 3]);
     (AInt 7, Listed [ABool true]);
     (AStr "key4", Listed [])]
  = [("key1", One "value1"); ("key2", Many ["value2"; "3"]);
     ("7", One "True")]%string.
Proof. reflexivity. Qed.

(** ** Tables *)

Section TableCells.
Variable V : Type.

Lemma heads_Some (cols : list (list V)) row :
  Table.heads V cols = Some row ->
  Forall2 (fun c v => nth_error c 0 = Some v) cols row
  /\ Forall (fun c => c <> []) cols.
Proof.
  revert row. induction cols as [|c cols IH]; simpl; intros row H.
  - injection H as <-. split; constructor.
  - destruct c as [|v c]; [discriminate|].
    destruct (Table.heads V cols) as [row'|]; [|discriminate].
    injection H as <-. destruct (IH row' eq_refl) as [IH1 IH2].
    split; constructor; auto. discriminate.
Qed.

Lemma heads_None (cols : list (list V)) :
  Table.heads V cols = None -> exists c, In c cols /\ c = [].
Proof.
  induction cols as [|c cols IH]; simpl; [discriminate|].
  destruct c as [|v c]; [exists []; auto|].
  destruct (Table.heads V cols); [discriminate|].
  intros _. destruct IH as [c' [Hin ->]]; [reflexivity|]. exists []. auto.
Qed.

Lemma min_length_zero (cols : list (list V)) :
  (exists c, In c cols /\ c = []) -> Table.min_length V cols = 0%nat.
Proof.
  induction cols as [|c cols IH]; intros [c' [Hin ->]]; [reflexivity|].
  destruct Hin as [->|Hin].
  - now destruct cols.
  - simpl. destruct cols as [|c2 cols]; [destruct Hin|].
    rewrite IH by (exists []; auto). apply Nat.min_0_r.
Qed.

Lemma min_length_tl (cols : list (list V)) :
  Forall (fun c => c <> []) cols -> cols <> [] ->
  Table.min_length V cols = S (Table.min_length V (map (@tl V) cols)).
Proof.
  induction cols as [|c cols IH]; intros F Hne; [contradiction|].
  inversion F as [|? ? Hc F']; subst.
  destruct c as [|v c]; [contradiction|].
  destruct cols as [|c2 cols]; [reflexivity|].
  change (Table.min_length V ((v :: c) :: c2 :: cols))
    with (Nat.min (length (v :: c)) (Table.min_length V (c2 :: cols))).
  change (Table.min_length V (map (@tl V) ((v :: c) :: c2 :: cols)))
    with (Nat.min (length c) (Table.min_length V (map (@tl V) (c2 :: cols)))).
  rewrite IH by (auto; discriminate). simpl length. lia.
Qed.

Lemma zip_rounds_length rounds :
  forall cols : list (list V),
    cols <> [] ->
    length (Table.zip_rounds V rounds cols)
    = Nat.min rounds (Table.min_length V cols).
Proof.
  induction rounds as [|rounds IH]; intros cols Hne; [reflexivity|].
  simpl. destruct (Table.heads V cols) as [row|] eqn:E.
  - apply heads_Some in E. destruct E as [_ F].
    simpl. rewrite IH by (destruct cols; [contradiction | discriminate]).
    rewrite (min_length_tl cols F Hne). lia.
  - apply heads_None in E. rewrite (min_length_zero cols E). simpl. lia.
Qed.

Lemma zip_rounds_row rounds :
  forall (cols : list (list V)) i row,
    nth_error (Table.zip_rounds V rounds cols) i = Some row ->
    Forall2 (fun c v => nth_error c i = Some v) cols row.
Proof.
  induction rounds as [|rounds IH]; intros cols i row H.
  - destruct i; discriminate.
  - simpl in H. destruct (Table.heads V cols) as [row0|] eqn:E;
      [|destruct i; discriminate].
    destruct i as [|i].
    + injection H as <-. now apply heads_Some in E.
    + simpl in H. apply IH in H. clear IH E.
      remember (map (@tl V) cols) as tls eqn:Et. revert cols Et.
      induction H as [|c' v tls' row' Hv _ IH']; intros cols Et.
      * destruct cols; [constructor | discriminate].
      * destruct cols as [|c cols]; [discriminate|].
        injection Et as -> ->. constructor; [|now apply IH'].
        destruct c; [destruct i; discriminate | exact Hv].
Qed.

Lemma min_length_cons (c : list V) cols :
  (Table.min_length V (c :: cols) <= length c)%nat.
Proof. destruct cols; simpl; lia. Qed.

(** X5. The table starts with the names of the headers; its rows are as
    many as the shortest column of the data has values (none when there is
    no column), and row [i] holds the [i]-th value of every column, in the
    order of the columns. *)
Theorem create_table_rows :
  forall t : Table.table_obj V,
    let columns :=
      map (Table.values V)
          (Table.read V t
             (map Z.of_nat (seq 0 (length (Table.getHeaders V t)))) 0
             (Table.getNumberOfRows V t)) in
    exists rows,
      Table._create_table V t
      = map (Table.Name V) (Table.getHeaders V t)
        :: map (map (Table.Value V)) rows
      /\ length rows = Table.min_length V columns
      /\ forall i row,
           nth_error rows i = Some row ->
           Forall2 (fun column v => nth_error column i = Some v) columns row.
Proof.
  intros t columns. exists (Table.zip_star V columns).
  split; [reflexivity|]. split.
  - unfold Table.zip_star. destruct columns as [|c cols] eqn:E; [reflexivity|].
    rewrite zip_rounds_length by discriminate.
    pose proof (min_length_cons c cols). lia.
  - intros i row H. unfold Table.zip_star in H.
    destruct columns as [|c cols]; [destruct i; discriminate|].
    now apply zip_rounds_row in H.
Qed.
End TableCells.

(** * Groups *)

Module GroupFacts.
Import Groups.

Lemma member_In (user : Z) (ids : list Z) :
  member user ids = true <-> In user ids.
Proof.
  unfold member. rewrite existsb_exists. split.
  - intros [x [Hin Heq]]. apply Z.eqb_eq in Heq. subst. exact Hin.
  - intros Hin. exists user. split; [exact Hin | apply Z.eqb_refl].
Qed.

Lemma belongs_dec (conn : BlitzGateway) (gid : Z) (owner_ids member_ids : list Z) :
  group_summary conn gid = Some (owner_ids, member_ids) ->
  (member (user_id conn) owner_ids || member (user_id conn) member_ids = true
   <-> belongs conn gid).
Proof.
  intros Hg. rewrite orb_true_iff, !member_In. split.
  - intros H. exists owner_ids, member_ids. split; assumption.
  - intros [o [m [Hg' H]]]. rewrite Hg in Hg'. inversion Hg'; subst. exact H.
Qed.

Lemma set_group_member (conn : BlitzGateway) (gid : Z) :
  belongs conn gid ->
  set_group conn (PyInt gid) = (setOmeroGroup conn gid, inr true).
Proof.
  intros Hb. destruct Hb as [o [m [Hg H]]]. unfold set_group. rewrite Hg.
  assert (Hm : member (user_id conn) o || member (user_id conn) m = true).
  { apply (belongs_dec conn gid o m Hg). exists o, m. split; assumption. }
  rewrite Hm. reflexivity.
Qed.

End GroupFacts.

(** X6. [set_group] changes the group of the service options only for a
    member: it returns [True] exactly when its argument is an [int] naming a
    group that has the user among its owners or members, and then the
    options name that group; in every other case (another type, a group
    that does not exist, a group the user is not in) the group of the
    options is what it was. *)
Theorem set_group_only_for_members (conn : Groups.BlitzGateway) (group_id : pyval) :
  let (conn', status) := Groups.set_group conn group_id in
  (status = inr true
   /\ exists gid, group_id = PyInt gid /\ Groups.belongs conn gid
                  /\ conn' = Groups.setOmeroGroup conn gid)
  \/ (status <> inr true
      /\ Groups.omero_group conn' = Groups.omero_group conn
      /\ forall gid, group_id = PyInt gid -> ~ Groups.belongs conn gid).
Proof.
  unfold Groups.set_group.
  destruct group_id as [ | b | gid | s | l | ];
    try (right; split; [discriminate | split; [reflexivity | intros g Hg; discriminate Hg]]).
  destruct (Groups.group_summary conn gid) as [[o m] | ] eqn:Hg.
  - destruct (Groups.member (Groups.user_id conn) o || Groups.member (Groups.user_id conn) m) eqn:Hm.
    + left. split; [reflexivity | ]. exists gid. split; [reflexivity | ]. split; [ | reflexivity].
      apply (GroupFacts.belongs_dec conn gid o m Hg). exact Hm.
    + right. split; [discriminate | ]. split; [reflexivity | ].
      intros g Heq Hb. inversion Heq; subst g.
      apply (GroupFacts.belongs_dec conn gid o m Hg) in Hb. congruence.
  - right. split; [discriminate | ]. split; [reflexivity | ].
    intros g Heq [o [m [Hg' _]]]. inversion Heq; subst g. congruence.
Qed.

(** X7. A decorated function called across groups runs with the group of
    the service options set to -1; when it returns and the user belongs to
    the group of the session, the wrapper returns its result and leaves the
    options on the group of the session, whatever group they named before
    the call. *)
Theorem across_groups_ends_in_session_group {A : Type}
    (f : Groups.decorated A) (across_groups : option (option bool))
    (conn conn' : Groups.BlitzGateway) (res : A) :
  Groups.across (Groups.default_across_groups f) across_groups = inr true ->
  Groups.call f (Groups.setOmeroGroup conn (-1)) = (conn', inr res) ->
  Groups.belongs conn' (Groups.session_group conn) ->
  Groups.do_across_groups f across_groups conn
  = (Groups.setOmeroGroup conn' (Groups.session_group conn), inr res).
Proof.
  intros Hacross Hcall Hb. unfold Groups.do_across_groups.
  rewrite Hacross. cbv zeta. rewrite Hcall.
  rewrite (GroupFacts.set_group_member conn' _ Hb). reflexivity.
Qed.

Lemma across_groups_ends_in_session_group_witness :
  Groups.do_across_groups Groups.seen_group None Groups.sample_conn
  = (Groups.setOmeroGroup Groups.sample_conn 3, inr (Some (-1))).
Proof.
  apply (across_groups_ends_in_session_group Groups.seen_group None
           Groups.sample_conn (Groups.setOmeroGroup Groups.sample_conn (-1))
           (Some (-1))).
  - reflexivity.
  - reflexivity.
  - exists [1], [7; 8]. split; [reflexivity | right; left; reflexivity].
Defined.

(** X8. When the decorated function raises in a call across groups, the
    wrapper raises the same exception without going back to a group: if the
    function leaves the service options alone, they stay on -1 after the
    call, whatever group they named before it. *)
Theorem across_groups_not_restored_on_error {A : Type}
    (f : Groups.decorated A) (across_groups : option (option bool))
    (conn : Groups.BlitzGateway) (e : error) :
  Groups.across (Groups.default_across_groups f) across_groups = inr true ->
  (forall c, Groups.omero_group (fst (Groups.call f c)) = Groups.omero_group c) ->
  snd (Groups.call f (Groups.setOmeroGroup conn (-1))) = inl e ->
  snd (Groups.do_across_groups f across_groups conn) = inl e
  /\ Groups.omero_group (fst (Groups.do_across_groups f across_groups conn))
     = Some (-1).
Proof.
  intros Hacross Hkeep Hcall. unfold Groups.do_across_groups.
  rewrite Hacross. cbv zeta.
  specialize (Hkeep (Groups.setOmeroGroup conn (-1))).
  destruct (Groups.call f (Groups.setOmeroGroup conn (-1))) as [conn' r].
  cbn [fst snd] in *. subst r. cbn [fst snd]. split; [reflexivity | exact Hkeep].
Qed.

Lemma across_groups_not_restored_on_error_witness :
  snd (Groups.do_across_groups Groups.failing None Groups.sample_conn)
  = inl (Std (ValueError "failed"))
  /\ Groups.omero_group
       (fst (Groups.do_across_groups Groups.failing None Groups.sample_conn))
     = Some (-1).
Proof.
  apply (across_groups_not_restored_on_error Groups.failing None
           Groups.sample_conn (Std (ValueError "failed"))).
  - reflexivity.
  - intros c. reflexivity.
  - reflexivity.
Defined.

(** * Pyramid levels *)

Lemma py_getitem_nth_error A (l : list A) (p : Z) (a : A) :
  0 <= p -> nth_error l (Z.to_nat p) = Some a -> py_getitem l p = ret a.
Proof.
  intros Hp Hnth. unfold py_getitem.
  assert (Hlt : (Z.to_nat p < length l)%nat)
    by (apply nth_error_Some; congruence).
  replace (p <? 0) with false by (symmetry; apply Z.ltb_ge; lia).
  replace ((0 <=? p) && (p <? Z.of_nat (length l))) with true
    by (symmetry; apply andb_true_iff; split;
        [apply Z.leb_le | apply Z.ltb_lt]; lia).
  rewrite Hnth. reflexivity.
Qed.

Lemma whole_level_in_extent (extent : list Z) :
  length extent = 5%nat -> Forall (fun d => 0 < d) extent ->
  forall axis, (axis < 5)%nat ->
    0 <= ix (default_start None) axis
    /\ 0 < ix (default_lengths extent (default_start None) None) axis
    /\ ix (default_start None) axis
       + ix (default_lengths extent (default_start None) None) axis
       <= ix extent axis.
Proof.
  intros Le Hpos axis Hax.
  destruct (length5 _ Le) as (e0 & e1 & e2 & e3 & e4 & ->).
  repeat match goal with
         | H : Forall _ (_ :: _) |- _ => inversion H; subst; clear H
         end.
  destruct axis as [|[|[|[|[|axis]]]]]; [| | | | |lia];
    unfold default_start, default_lengths, ix; cbn [zip_with nth]; lia.
Qed.

(** X9. The list [get_pyramid_levels] returns is indexed as [get_image]'s
    [pyramid_level] is: when entry [p] (with [0 < p]) of the list is
    [(w, h)], the server accepts the level and serves its planes, and the
    sizes are positive, [get_image] with [pyramid_level=p] and no start
    coordinates or lengths returns an array of shape [(T, Z, h, w, C)], or
    [(w, h, Z, C, T)] with [xyzct=True]. *)
Theorem pyramid_levels_index_get_image
    (conn : BlitzGateway) (id : Z) (image : ImageWrapper)
    (levels : list (Z * Z)) (p w h : Z) (xyzct pad : pyval) :
  conn id = Some image ->
  snd (get_pyramid_levels conn id) = inr levels ->
  0 < p ->
  nth_error levels (Z.to_nat p) = Some (w, h) ->
  let level := Z.of_nat (length levels) - p - 1 in
  let extent := [w; h; getSizeZ image; getSizeC image; getSizeT image] in
  setResolutionLevel (createRawPixelsStore image) level = true ->
  Forall (fun d => 0 < d) extent ->
  serves_extent (raw_fetch (createRawPixelsStore image) level w h) extent ->
  exists view,
    outcome (get_image conn (PyInt id) (PyBool false) PyNone PyNone xyzct pad
                       (PyInt p) PyNone)
    = Ok (Some image, Some view)
    /\ shape view
       = if is_True xyzct
         then [w; h; getSizeZ image; getSizeC image; getSizeT image]
         else [getSizeT image; getSizeZ image; h; w; getSizeC image].
Proof.
  intros found Hlevels Hp Hnth level extent Hset Hpos Hserves.
  unfold get_pyramid_levels in Hlevels. rewrite found in Hlevels.
  cbn [snd] in Hlevels. injection Hlevels as Hlevels.
  assert (Hp0 : (p =? 0) = false) by (apply Z.eqb_neq; lia).
  assert (Hext : resolution_extent image (PyInt p) = Some extent).
  { unfold resolution_extent. rewrite Hp0, Hlevels. fold level. rewrite Hset.
    rewrite (py_getitem_nth_error _ levels p (w, h)) by (assumption || lia).
    reflexivity. }
  assert (Hfetch : fetcher_of image (PyInt p) extent
                   = raw_fetch (createRawPixelsStore image) level w h).
  { unfold fetcher_of, raw_level. rewrite Hp0, Hlevels. reflexivity. }
  destruct (extract_within_extent image (PyInt p) extent None None xyzct pad
              None eq_refl eq_refl eq_refl) as (pixels & Hshape & Hrun).
  - rewrite Hfetch. exact Hserves.
  - apply whole_level_in_extent; [reflexivity | exact Hpos].
  - assert (Hshape' : shape pixels
                      = [getSizeT image; getSizeZ image; h; w; getSizeC image]).
    { rewrite Hshape. unfold extent, default_start, default_lengths,
        reorder_sizes, ix. cbn [zip_with nth]. rewrite !Z.sub_0_r.
      reflexivity. }
    destruct (reorder_view_canonical pixels xyzct _ _ _ _ _ Hshape')
      as (view & Hview & Hv).
    exists view. split; [ | exact Hv].
    rewrite (get_image_run conn id image PyNone PyNone xyzct pad (PyInt p)
               PyNone extent found eq_refl eq_refl eq_refl Hext).
    unfold outcome at 1. cbn [snd coords_of dim_order_of].
    rewrite Hrun, Hview. reflexivity.
Qed.

Lemma pyramid_levels_index_get_image_witness :
  exists view,
    outcome (get_image (Mock.conn Sample.pyramidal) (PyInt 1) (PyBool false)
                       PyNone PyNone (PyBool true) (PyBool false) (PyInt 2)
                       PyNone)
    = Ok (Some Sample.pyramidal, Some view)
    /\ shape view = [2; 2; 1; 1; 1].
Proof.
  apply (pyramid_levels_index_get_image (Mock.conn Sample.pyramidal) 1
           Sample.pyramidal [(8, 8); (4, 4); (2, 2); (1, 1)] 2 2 2
           (PyBool true) (PyBool false)).
  - reflexivity.
  - reflexivity.
  - lia.
  - reflexivity.
  - reflexivity.
  - repeat constructor.
  - apply (mock_serves_level 8 8 1 1 1 [(8, 8); (4, 4); (2, 2); (1, 1)] 2 2 2);
      try reflexivity; simpl; lia.
Defined.

(** * Connecting *)

Module ConnectFacts.
Import Connect.

Lemma cbind_cret A B (a : A) (f : A -> C B) : cbind (cret a) f = f a.
Proof. unfold cbind, cret. destruct (f a). reflexivity. Qed.

Lemma cbind_craise A B (e : exn) (f : A -> C B) :
  cbind (craise e) f = craise e.
Proof. reflexivity. Qed.

Lemma cbind_input A (w : world) (p : prompt) (f : string -> C A) :
  cbind (input w p) f = (Input p :: fst (f (answer w p)), snd (f (answer w p))).
Proof. unfold cbind, input. destruct (f (answer w p)). reflexivity. Qed.

Lemma cbind_or_input A (w : world) (given : option string) (p : prompt)
    (f : string -> C A) :
  cbind (or_input w given p) f
  = (match given with Some _ => [] | None => [Input p] end
     ++ fst (f (match given with Some v => v | None => answer w p end)),
     snd (f (match given with Some v => v | None => answer w p end))).
Proof.
  destruct given as [v | ]; unfold or_input.
  - rewrite cbind_cret. destruct (f v). reflexivity.
  - rewrite ConnectFacts.cbind_input. reflexivity.
Qed.

Lemma or_input_prefix (given : option string) (p : prompt) :
  prompts_only (match given with Some _ => [] | None => [Input p] end).
Proof.
  intros x Hin. destruct given; [contradiction | ].
  destruct Hin as [<- | []]. exists p. reflexivity.
Qed.

Lemma none_or_bool_passes (secure : pyval) :
  none_or_bool secure -> truthy secure && negb (is_bool secure) = false.
Proof.
  destruct secure; cbn; try contradiction; intros _;
    [reflexivity | apply andb_false_r].
Qed.

Lemma lower_in_empty (options : list string) :
  ~ In ""%string options -> lower_in "" options = false.
Proof.
  intros Hnot. unfold lower_in. cbn [lower list_ascii_of_string map
                                     string_of_list_ascii].
  induction options as [ | o rest IH]; [reflexivity | ].
  cbn [existsb]. rewrite IH by (intros H; apply Hnot; right; exact H).
  destruct (String.eqb_spec "" o) as [E | _]; [ | reflexivity].
  exfalso. apply Hnot. left. symmetry. exact E.
Qed.

(** The directory of a checked [config_path] and the section read there. *)
Lemma directory_section (w : world) (config_path : pyval) (dir : option string) :
  directory config_path dir ->
  (match config_path with
   | PyNone => read_config w None
   | PyStr d => read_config w (Some d)
   | _ => craise (TypeError "config_path must be a string")
   end) = read_config w dir.
Proof.
  destruct config_path, dir; cbn; try contradiction; try reflexivity.
  intros ->. reflexivity.
Qed.

Lemma first_of_from_settings (w : world) (config_dict : option SectionProxy)
    (key : string) (given : option string) (typed : string) :
  match from_settings w config_dict key given with
  | Some v => v
  | None => typed
  end
  = first_of [given; environ w key;
              lookup (match config_dict with Some o => o | None => [] end) key]
             typed.
Proof.
  unfold from_settings, environ_get, config_get, has_options.
  destruct given as [g | ]; [reflexivity | ].
  cbn [first_of].
  destruct (environ w key) as [e | ]; [reflexivity | ].
  destruct config_dict as [[ | o rest] | ]; try reflexivity.
  destruct (lookup (o :: rest) key); reflexivity.
Qed.

End ConnectFacts.

(** X10. When [user], [password], [group], [host] and [port] are given and
    [secure] is a Boolean, [connect] still reads the '.ezomero' file if
    there is one: when reading it raises, the call raises the same and does
    nothing else.  Otherwise it shows no prompt and creates the connection
    with the five values as given (an empty group name as no group),
    whatever the options of the file and the environment hold for them.
    [secure] is the exception: a value [true], [t], [false] or [f] (in any
    case) of [OMERO_SECURE] in the environment replaces the argument. *)
Theorem explicit_arguments_but_secure
    (w : Connect.world) (user password group host : string) (port : Z)
    (b : bool) (config_path : pyval) (dir : option string) :
  Connect.directory config_path dir ->
  let conn :=
    {| Connect.username := user;
       Connect.passwd := password;
       Connect.group := if String.eqb group "" then None else Some group;
       Connect.host := host;
       Connect.port := port;
       Connect.secure := PyBool (Connect.secure_in_effect w b) |} in
  Connect.connect w (Some user) (Some password) (Some group) (Some host)
                  (Some port) (PyBool b) config_path
  = match Connect.config_file w dir with
    | Some (inl e) => ([], inl e)
    | _ =>
        if Connect.connects w conn
        then ([Connect.NewBlitzGateway conn], inr (Some conn))
        else ([Connect.NewBlitzGateway conn;
               Connect.LoggingError "Could not connect, check your settings"],
              inr None)
    end.
Proof.
  intros Hdir conn. unfold Connect.connect.
  cbn [Connect.truthy Connect.is_bool negb]. rewrite andb_false_r.
  rewrite (ConnectFacts.directory_section w config_path dir Hdir).
  unfold Connect.read_config.
  destruct (Connect.config_file w dir) as [[e | options] | ];
    [reflexivity | | ];
    rewrite ConnectFacts.cbind_cret;
    cbn [Connect.from_settings Connect.or_input].
  all: rewrite !ConnectFacts.cbind_cret.
  all: assert (Hsecure :
    match Connect.environ_get w "OMERO_SECURE" Some None with
    | Some s =>
        if Connect.str_truthy (Connect.environ_get w "OMERO_SECURE" Some None)
        then if Connect.lower_in s ["true"; "t"]%string then PyBool true
             else if Connect.lower_in s ["false"; "f"]%string
                  then PyBool false else PyBool b
        else PyBool b
    | None => PyBool b
    end = PyBool (Connect.secure_in_effect w b));
    [ unfold Connect.environ_get, Connect.secure_in_effect;
      destruct (Connect.environ w "OMERO_SECURE") as [s | ]; [ | reflexivity];
      cbn [Connect.str_truthy];
      destruct (String.eqb_spec s "") as [-> | _]; cbn [negb];
        [ reflexivity
        | destruct (Connect.lower_in s ["true"; "t"]%string); [reflexivity | ];
          destruct (Connect.lower_in s ["false"; "f"]%string); reflexivity ]
    | rewrite Hsecure; rewrite ConnectFacts.cbind_cret; reflexivity ].
Qed.

Lemma explicit_arguments_but_secure_witness :
  Connect.connect Connect.sample_world (Some "jaxl"%string)
                  (Some "secret"%string) (Some ""%string)
                  (Some "omero.example.org"%string) (Some 4064) (PyBool true)
                  PyNone
  = (let conn :=
       {| Connect.username := "jaxl";
          Connect.passwd := "secret";
          Connect.group := None;
          Connect.host := "omero.example.org";
          Connect.port := 4064;
          Connect.secure := PyBool false |} in
     ([Connect.NewBlitzGateway conn], inr (Some conn))).
Proof.
  apply (explicit_arguments_but_secure Connect.sample_world "jaxl" "secret" ""
           "omero.example.org" 4064 true PyNone None).
  exact I.
Defined.

(** A file without a section header in the directory stops the call, though
    every argument is given. *)
Example unreadable_file_stops_connect :
  Connect.connect Connect.careful_world (Some "jaxl"%string)
                  (Some "secret"%string) (Some ""%string)
                  (Some "omero.example.org"%string) (Some 4064) (PyBool true)
                  (PyStr "broken")
  = ([], inl (OtherError "MissingSectionHeaderError")).
Proof. reflexivity. Qed.

(** X11. A file that has options but not [OMERO_PORT] makes [connect] fail
    when the port is neither given nor in the environment: the default of
    the lookup is [str(None)], so the call raises what [int('None')] raises,
    before it asks for a port and before it creates a connection. *)
Theorem port_missing_from_file_raises
    (w : Connect.world) (user password group host : option string)
    (secure config_path : pyval) (dir : option string)
    (options : Connect.SectionProxy) (e : exn) :
  Connect.none_or_bool secure ->
  Connect.directory config_path dir ->
  Connect.config_file w dir = Some (inr options) ->
  options <> [] ->
  Connect.lookup options "OMERO_PORT" = None ->
  Connect.environ w "OMERO_PORT" = None ->
  Connect.int w "None" = inl e ->
  let run := Connect.connect w user password group host None secure
                             config_path in
  snd run = inl (Std e)
  /\ Connect.prompts_only (fst run)
  /\ ~ In (Connect.Input Connect.EnterPort) (fst run).
Proof.
  intros Hsecure Hdir Hfile Hopts Hport Henv Hint run. subst run.
  unfold Connect.connect.
  rewrite (ConnectFacts.none_or_bool_passes secure Hsecure).
  rewrite (ConnectFacts.directory_section w config_path dir Hdir).
  unfold Connect.read_config. rewrite Hfile, ConnectFacts.cbind_cret.
  assert (Hstep :
    Connect.environ_get w "OMERO_PORT" Some
      (if Connect.has_options (Some options)
       then Connect.config_get (Some options) "OMERO_PORT" Some
              (Some "None"%string)
       else None) = Some "None"%string).
  { unfold Connect.environ_get, Connect.config_get. rewrite Henv, Hport.
    destruct options; [contradiction | reflexivity]. }
  rewrite !ConnectFacts.cbind_or_input. cbn [fst snd].
  rewrite Hstep. cbn [Connect.str_truthy String.eqb Ascii.eqb Bool.eqb negb].
  unfold Connect.to_int. rewrite Hint.
  rewrite !ConnectFacts.cbind_craise. cbn [fst snd Connect.craise].
  rewrite !app_nil_r.
  split; [reflexivity | ].
  assert (Hprompts : forall x,
            In x (match Connect.from_settings w (Some options) "OMERO_USER" user
                  with Some _ => [] | None => [Connect.Input Connect.EnterUsername] end
                  ++ match match password with
                           | None => Connect.environ_get w "OMERO_PASS" Some password
                           | Some _ => password
                           end
                     with Some _ => [] | None => [Connect.Input Connect.EnterPassword] end
                  ++ match Connect.from_settings w (Some options) "OMERO_GROUP" group
                     with Some _ => [] | None => [Connect.Input Connect.EnterGroup] end
                  ++ match Connect.from_settings w (Some options) "OMERO_HOST" host
                     with Some _ => [] | None => [Connect.Input Connect.EnterHost] end) ->
            exists p, x = Connect.Input p /\ p <> Connect.EnterPort).
  { intros x Hin. repeat (apply in_app_or in Hin; destruct Hin as [Hin | Hin]);
      match type of Hin with
      | In _ (match ?o with Some _ => _ | None => _ end) =>
          destruct o; [contradiction | destruct Hin as [<- | []]]
      end; eexists; (split; [reflexivity | discriminate]). }
  split.
  - intros x Hin. destruct (Hprompts x Hin) as [p [Hp _]]. exists p. exact Hp.
  - intros Hin. destruct (Hprompts _ Hin) as [p [Hp Hne]].
    injection Hp as <-. apply Hne. reflexivity.
Qed.

Lemma port_missing_from_file_raises_witness :
  let run := Connect.connect Connect.sample_world None None None None None
                             PyNone PyNone in
  snd run
  = inl (Std (ValueError "invalid literal for int() with base 10: 'None'"))
  /\ Connect.prompts_only (fst run)
  /\ ~ In (Connect.Input Connect.EnterPort) (fst run).
Proof.
  apply (port_missing_from_file_raises Connect.sample_world None None None None
           PyNone PyNone None
           [("OMERO_USER", "jaxl"); ("OMERO_HOST", "omero.example.org")]%string
           (ValueError "invalid literal for int() with base 10: 'None'")).
  - exact I.
  - exact I.
  - reflexivity.
  - discriminate.
  - reflexivity.
  - reflexivity.
  - reflexivity.
Defined.

Module ConnectSteps.
Import Connect.

Lemma cbind_new A B (m : C A) (f : A -> C B) (a : BlitzGatewayArgs) :
  prompts_only (fst m) ->
  In (NewBlitzGateway a) (fst (cbind m f)) ->
  exists v, snd m = inr v /\ In (NewBlitzGateway a) (fst (f v)).
Proof.
  intros Hm Hin. destruct m as [t [e | v]]; cbn [cbind fst snd] in *.
  - destruct (Hm _ Hin) as [p Hp]. discriminate Hp.
  - exists v. split; [reflexivity | ].
    destruct (f v) as [t' r]. cbn [fst] in *.
    apply in_app_or in Hin. destruct Hin as [Hin | Hin]; [ | exact Hin].
    destruct (Hm _ Hin) as [p Hp]. discriminate Hp.
Qed.

Lemma prompts_only_nil : prompts_only [].
Proof. intros x []. Qed.

Lemma prompts_only_input (p : prompt) : prompts_only [Input p].
Proof. intros x [<- | []]. exists p. reflexivity. Qed.

Lemma or_input_prompts (w : world) (given : option string) (p : prompt) :
  prompts_only (fst (or_input w given p)).
Proof.
  destruct given; [apply prompts_only_nil | apply prompts_only_input].
Qed.

Lemma or_input_value (w : world) (given : option string) (p : prompt)
    (v : string) :
  snd (or_input w given p) = inr v ->
  v = match given with Some x => x | None => answer w p end.
Proof. destruct given; cbn; congruence. Qed.

Lemma read_config_prompts (w : world) (dir : option string) :
  prompts_only (fst (read_config w dir)).
Proof.
  unfold read_config. destruct (config_file w dir) as [[e | o] | ];
    apply prompts_only_nil.
Qed.

Lemma to_int_prompts (w : world) (s : string) : fst (to_int w s) = [].
Proof. unfold to_int. destruct (int w s); reflexivity. Qed.

Lemma cbind_prompts A B (m : C A) (f : A -> C B) :
  prompts_only (fst m) -> (forall v, prompts_only (fst (f v))) ->
  prompts_only (fst (cbind m f)).
Proof.
  intros Hm Hf. destruct m as [t [e | v]]; cbn [cbind fst] in *; [exact Hm | ].
  specialize (Hf v). destruct (f v) as [t' r]. cbn [fst] in *.
  intros x Hin. apply in_app_or in Hin. destruct Hin as [Hin | Hin]; auto.
Qed.

End ConnectSteps.

(** X12. The order of the sources.  Every connection [connect] creates has
    as user name and host the first that is set of: the argument, the
    environment variable, the option of the file, and what is typed at the
    prompt; as group the same, with an empty name as no group; and as
    password the first of the argument, [OMERO_PASS] in the environment and
    what is typed: the file is not looked at for it. *)
Theorem connection_parameters_by_precedence
    (w : Connect.world) (user password group host : option string)
    (port : option Z) (secure config_path : pyval)
    (a : Connect.BlitzGatewayArgs) :
  In (Connect.NewBlitzGateway a)
     (fst (Connect.connect w user password group host port secure
                           config_path)) ->
  let file := Connect.section_of w config_path in
  let chosen key given p :=
    Connect.first_of [given; Connect.environ w key; Connect.lookup file key]
                     (Connect.answer w p) in
  Connect.username a = chosen "OMERO_USER"%string user Connect.EnterUsername
  /\ Connect.passwd a
     = Connect.first_of [password; Connect.environ w "OMERO_PASS"]
                        (Connect.answer w Connect.EnterPassword)
  /\ Connect.group a
     = (let name := chosen "OMERO_GROUP"%string group Connect.EnterGroup in
        if String.eqb name "" then None else Some name)
  /\ Connect.host a = chosen "OMERO_HOST"%string host Connect.EnterHost.
Proof.
  intros Hin file chosen. unfold Connect.connect in Hin.
  destruct (Connect.truthy secure && negb (Connect.is_bool secure));
    [contradiction | ].
  apply ConnectSteps.cbind_new in Hin as [config_dict [Hconfig Hin]];
    [ | destruct config_path; try apply ConnectSteps.prompts_only_nil;
        apply ConnectSteps.read_config_prompts ].
  assert (Hfile : file = match config_dict with Some o => o | None => [] end).
  { unfold file, Connect.section_of.
    destruct config_path; cbn [snd Connect.craise] in Hconfig;
      try discriminate Hconfig;
      unfold Connect.read_config in Hconfig;
      match type of Hconfig with
      | context [Connect.config_file w ?d] =>
          destruct (Connect.config_file w d) as [[e | o] | ]
      end; cbn in Hconfig; try discriminate Hconfig;
      injection Hconfig as <-; reflexivity. }
  clear Hconfig.
  apply ConnectSteps.cbind_new in Hin as [user' [Huser Hin]];
    [ | apply ConnectSteps.or_input_prompts].
  apply ConnectSteps.or_input_value in Huser.
  rewrite ConnectFacts.first_of_from_settings, <- Hfile in Huser.
  apply ConnectSteps.cbind_new in Hin as [password' [Hpassword Hin]];
    [ | apply ConnectSteps.or_input_prompts].
  apply ConnectSteps.or_input_value in Hpassword.
  apply ConnectSteps.cbind_new in Hin as [group' [Hgroup Hin]];
    [ | apply ConnectSteps.or_input_prompts].
  apply ConnectSteps.or_input_value in Hgroup.
  rewrite ConnectFacts.first_of_from_settings, <- Hfile in Hgroup.
  apply ConnectSteps.cbind_new in Hin as [host' [Hhost Hin]];
    [ | apply ConnectSteps.or_input_prompts].
  apply ConnectSteps.or_input_value in Hhost.
  rewrite ConnectFacts.first_of_from_settings, <- Hfile in Hhost.
  apply ConnectSteps.cbind_new in Hin as [port1 [_ Hin]].
  2:{ destruct port; [apply ConnectSteps.prompts_only_nil | ].
      match goal with
      | |- Connect.prompts_only (fst (match ?s with Some _ => _ | None => _ end)) =>
          destruct s; [ | apply ConnectSteps.prompts_only_nil]
      end.
      match goal with
      | |- Connect.prompts_only (fst (if ?c then _ else _)) =>
          destruct c; [ | apply ConnectSteps.prompts_only_nil]
      end.
      apply ConnectSteps.cbind_prompts.
      - rewrite ConnectSteps.to_int_prompts. apply ConnectSteps.prompts_only_nil.
      - intros v. apply ConnectSteps.prompts_only_nil. }
  apply ConnectSteps.cbind_new in Hin as [port' [_ Hin]].
  2:{ destruct port1; [apply ConnectSteps.prompts_only_nil | ].
      apply ConnectSteps.cbind_prompts.
      - apply ConnectSteps.prompts_only_input.
      - intros v. rewrite ConnectSteps.to_int_prompts.
        apply ConnectSteps.prompts_only_nil. }
  apply ConnectSteps.cbind_new in Hin as [secure' [_ Hin]].
  2:{ match goal with
      | |- Connect.prompts_only (fst (match ?s with PyNone => _ | _ => _ end)) =>
          destruct s; try apply ConnectSteps.prompts_only_nil
      end.
      apply ConnectSteps.cbind_prompts.
      - apply ConnectSteps.prompts_only_input.
      - intros v. destruct (Connect.lower_in v _);
          [apply ConnectSteps.prompts_only_nil | ].
        destruct (Connect.lower_in v _); apply ConnectSteps.prompts_only_nil. }
  assert (Ha : a = {| Connect.username := user';
                      Connect.passwd := password';
                      Connect.group :=
                        if String.eqb group' "" then None else Some group';
                      Connect.host := host';
                      Connect.port := port';
                      Connect.secure := secure' |}).
  { destruct (Connect.connects w _); cbn [fst] in Hin.
    - destruct Hin as [E | []]. injection E as <-. reflexivity.
    - destruct Hin as [E | [E | []]]; [ | discriminate E].
      injection E as <-. reflexivity. }
  subst a. cbn [Connect.username Connect.passwd Connect.group Connect.host].
  unfold chosen. rewrite <- Huser, <- Hgroup, <- Hhost.
  repeat split; try reflexivity.
  rewrite Hpassword. unfold Connect.environ_get.
  destruct password; [reflexivity | ]. cbn [Connect.first_of].
  destruct (Connect.environ w "OMERO_PASS"); reflexivity.
Qed.

Lemma connection_parameters_by_precedence_witness :
  let a := {| Connect.username := "jaxl";
              Connect.passwd := "secret";
              Connect.group := None;
              Connect.host := "omero.example.org";
              Connect.port := 4064;
              Connect.secure := PyBool false |} in
  Connect.username a = "jaxl"%string
  /\ Connect.passwd a = "secret"%string
  /\ Connect.group a = None
  /\ Connect.host a = "omero.example.org"%string.
Proof.
  apply (connection_parameters_by_precedence Connect.sample_world None None
           None None (Some 4064) PyNone PyNone).
  vm_compute. right. right. left. reflexivity.
Defined.

(** * Listing images *)

(** X13. [get_image_ids] sends at most one query, and none when it raises.
    With no container given it asks for the orphaned images; with one, it
    asks for the images of that container if the value is an [int] (a
    [bool] counts as one) and raises [TypeError] otherwise; with two or
    more it raises [ValueError], whatever the types of the values.  The
    list returned is the answer to the query sent. *)
Theorem get_image_ids_one_query
    (q : Queries.QueryService)
    (project dataset plate well plate_acquisition annotation : pyval) :
  let run := Queries.get_image_ids q project dataset plate well
                                   plate_acquisition annotation in
  match Queries.given project dataset plate well plate_acquisition annotation
  with
  | [] => run = ([Queries.OrphanedImages], inr (q Queries.OrphanedImages))
  | [(c, id)] =>
      if Queries.isinstance_int id
      then run = ([Queries.ImagesOf c id], inr (q (Queries.ImagesOf c id)))
      else fst run = [] /\ exists msg, snd run = inl (Std (TypeError msg))
  | _ => fst run = [] /\ exists msg, snd run = inl (Std (ValueError msg))
  end.
Proof.
  intros run. subst run. unfold Queries.get_image_ids, Queries.given.
  cbn [filter fold_left snd].
  destruct (Queries.is_not_None project) eqn:E1;
    destruct (Queries.is_not_None dataset) eqn:E2;
    destruct (Queries.is_not_None plate) eqn:E3;
    destruct (Queries.is_not_None well) eqn:E4;
    destruct (Queries.is_not_None plate_acquisition) eqn:E5;
    destruct (Queries.is_not_None annotation) eqn:E6;
    cbn [Z.add Z.gtb Z.compare Pos.add Pos.succ Pos.compare Pos.compare_cont];
    try (split; [reflexivity | eexists; reflexivity]);
    try reflexivity;
    unfold Queries.images_of;
    match goal with
    | |- context [Queries.isinstance_int ?v] =>
        destruct (Queries.isinstance_int v); cbn [negb];
          [reflexivity | split; [reflexivity | eexists; reflexivity]]
    end.
Qed.

(** * Users *)

Lemma first_named_In (experimenters : list (string * Z)) (name : string)
    (id : Z) :
  first_named experimenters name = Some id -> In (name, id) experimenters.
Proof.
  induction experimenters as [ | [n i] rest IH]; cbn [first_named].
  - discriminate.
  - destruct (String.eqb_spec n name) as [-> | Hne].
    + intros [= ->]. left. reflexivity.
    + intros H. right. apply IH. exact H.
Qed.

Lemma first_named_None (experimenters : list (string * Z)) (name : string) :
  first_named experimenters name = None <->
  ~ In name (map fst experimenters).
Proof.
  induction experimenters as [ | [n i] rest IH]; cbn [first_named map fst In].
  - tauto.
  - destruct (String.eqb_spec n name) as [-> | Hne].
    + split; [discriminate | ]. intros H. exfalso. apply H. left. reflexivity.
    + rewrite IH. tauto.
Qed.

(** X14. With user names that are distinct, as the server keeps them,
    [get_user_id] returns the id of a user exactly when an experimenter of
    that name and id is contained, and [None] exactly when no experimenter
    has the name. *)
Theorem get_user_id_finds_the_user
    (experimenters : list (string * Z)) (user_name : string) :
  NoDup (map fst experimenters) ->
  (forall id, get_user_id experimenters (PyStr user_name) = inr (Some id)
              <-> In (user_name, id) experimenters)
  /\ (get_user_id experimenters (PyStr user_name) = inr None
      <-> ~ In user_name (map fst experimenters)).
Proof.
  intros Hnodup. cbn [get_user_id]. split.
  - intros id. split.
    + intros [= H]. apply first_named_In. exact H.
    + intros Hin. f_equal.
      induction experimenters as [ | [n i] rest IH]; [contradiction | ].
      cbn [first_named]. cbn [map fst] in Hnodup.
      inversion Hnodup as [ | ? ? Hnotin Hrest]; subst.
      destruct Hin as [[= -> ->] | Hin].
      * rewrite String.eqb_refl. reflexivity.
      * destruct (String.eqb_spec n user_name) as [-> | Hne].
        -- exfalso. apply Hnotin.
           apply (in_map fst) in Hin. exact Hin.
        -- apply IH; assumption.
  - rewrite <- first_named_None. split; [intros [= H]; exact H | congruence].
Qed.

Lemma get_user_id_finds_the_user_witness :
  (forall id, get_user_id [("root", 0); ("jaxl", 35)]%string (PyStr "jaxl")
              = inr (Some id)
              <-> In ("jaxl"%string, id) [("root", 0); ("jaxl", 35)]%string)
  /\ (get_user_id [("root", 0); ("jaxl", 35)]%string (PyStr "jaxl") = inr None
      <-> ~ In "jaxl"%string (map fst [("root", 0); ("jaxl", 35)]%string)).
Proof.
  apply (get_user_id_finds_the_user [("root", 0); ("jaxl", 35)]%string "jaxl").
  cbn [map fst]. constructor.
  - intros [H | []]. discriminate H.
  - constructor; [intros [] | constructor].
Defined.

(** * Stored parameters *)

Module StoreFacts.
Import Connect.

Lemma str_int_not_empty (n : Z) : String.eqb (Groups.str_int n) "" = false.
Proof.
  unfold Groups.str_int, NilZero.string_of_int.
  destruct (Z.to_int n) as [d | d]; [ | reflexivity].
  destruct d; reflexivity.
Qed.

Lemma assign_ok (w : world) (options : list (string * string)) :
  set_section w options = None -> assign w options = cret tt.
Proof. unfold assign. intros ->. reflexivity. Qed.

Lemma config_file_with_config (w : world) (dir : option string)
    (section : fallible SectionProxy) :
  config_file (with_config w dir section) dir = Some section.
Proof.
  cbn [config_file with_config]. destruct dir as [d | ]; [ | reflexivity].
  rewrite String.eqb_refl. reflexivity.
Qed.

Lemma directory_path (config_path : pyval) (dir : option string) :
  directory config_path dir ->
  (match config_path with
   | PyNone => cret None
   | PyStr d => cret (Some d)
   | _ => craise (ValueError "config_path must be a string")
   end) = cret dir.
Proof.
  destruct config_path, dir; cbn; try contradiction; try reflexivity.
  intros ->. reflexivity.
Qed.

(** A call with all five parameters given, in a directory that exists and
    with a file that may be written, writes them. *)
Lemma store_given (w : world) (user group host : string) (port : Z)
    (secure : bool) (web_host config_path : pyval) (dir : option string) :
  directory config_path dir ->
  is_dir w dir = true ->
  may_write w dir ->
  bool_or_str web_host ->
  kept_by_configparser w user group host port secure web_host ->
  exists t,
    store_connection_params w (Some user) (Some group) (Some host) (Some port)
                            (Some secure) web_host config_path
    = (t, inr (with_config w dir
                 (inr (stored user group host port secure)))).
Proof.
  intros Hdir Hisdir Hmay Hweb (Hset & Hjson & Hback).
  unfold store_connection_params.
  rewrite (directory_path config_path dir Hdir), ConnectFacts.cbind_cret, Hisdir.
  cbn [negb].
  assert (Hgo : exists t0,
            match config_file w dir with
            | Some _ =>
                cbind (input w Overwrite)
                      (fun resp => cret (lower_in resp ["yes"; "y"]%string))
            | None => cret true
            end = (t0, inr true)).
  { destruct (config_file w dir) as [o | ] eqn:Hfile.
    - destruct Hmay as [Hmay | Hmay]; [congruence | ].
      exists [Input Overwrite]. rewrite ConnectFacts.cbind_input.
      cbn [fst snd cret]. rewrite Hmay. reflexivity.
    - exists []. reflexivity. }
  destruct Hgo as [t0 ->].
  cbn [cbind negb or_input]. rewrite !ConnectFacts.cbind_cret.
  fold (stored user group host port secure).
  assert (Htail : exists t1,
    cbind (match web_host with
           | PyBool true => cbind (input w EnterWebHost) (fun s => cret (Some s))
           | _ => cret None
           end)
      (fun web_host_str =>
       cbind (assign w (stored user group host port secure))
         (fun _ =>
          cbind (match web_host with
                 | PyBool false => cret []
                 | PyStr s =>
                     cbind (assign w [("OMERO_USER", user);
                                      ("OMERO_WEB_HOST", s)]%string)
                       (fun _ => cret [("OMERO_USER", user);
                                       ("OMERO_WEB_HOST", s)]%string)
                 | _ =>
                     match web_host_str with
                     | Some s =>
                         cbind (assign w [("OMERO_USER", user);
                                          ("OMERO_WEB_HOST", s)]%string)
                           (fun _ => cret [("OMERO_USER", user);
                                           ("OMERO_WEB_HOST", s)]%string)
                     | None => ([], inl (UnboundLocalError "web_host_str"))
                     end
                 end)
            (fun json =>
             ([WriteConfig dir (stored user group host port secure) json],
              inr (with_config w dir
                     (parsed_back w (stored user group host port secure)))))))
    = (t1, inr (with_config w dir
                  (inr (stored user group host port secure))))).
  { rewrite Hback.
    destruct web_host as [ | [ | ] | | s | | ]; try contradiction;
      rewrite (assign_ok w _ Hset);
      unfold cbind, input, cret, assign, craise; cbn [app];
      rewrite ?(Hjson _ eq_refl); eexists; reflexivity. }
  destruct Htail as [t1 Htail].
  exists (t0 ++ t1).
  match goal with
  | |- (let (t', r) := ?m in _) = _ =>
      replace m
        with (t1, @inr error world
                    (with_config w dir
                       (inr (stored user group host port secure))))
  end.
  reflexivity.
Qed.

End StoreFacts.

(** X15. Parameters stored are the parameters connected with.  After
    [store_connection_params] has been given a user, a group, a host, a
    port and a Boolean for [secure] (in a directory that exists, with a
    file that is new or may be overwritten, and values that [configparser]
    takes and reads back as written: the five of the [DEFAULT] section, and
    the web host if one is saved), [connect] with no argument but the same
    [config_path], in an
    environment without the OMERO variables, asks for the password and for
    nothing else, and creates the connection with the stored values: the
    port as an integer again, [secure] as a Boolean again, and an empty
    group name as no group. *)
Theorem stored_parameters_connect
    (w : Connect.world) (user group host : string) (port : Z) (secure : bool)
    (web_host config_path : pyval) (dir : option string) :
  Connect.directory config_path dir ->
  Connect.is_dir w dir = true ->
  Connect.may_write w dir ->
  Connect.bool_or_str web_host ->
  Connect.kept_by_configparser w user group host port secure web_host ->
  Connect.no_omero_variables w ->
  Connect.int w (Groups.str_int port) = inr port ->
  exists t w',
    Connect.store_connection_params w (Some user) (Some group) (Some host)
                                    (Some port) (Some secure) web_host
                                    config_path
    = (t, inr w')
    /\ let conn :=
         {| Connect.username := user;
            Connect.passwd := Connect.answer w Connect.EnterPassword;
            Connect.group := if String.eqb group "" then None else Some group;
            Connect.host := host;
            Connect.port := port;
            Connect.secure := PyBool secure |} in
       Connect.connect w' None None None None None PyNone config_path
       = if Connect.connects w conn
         then ([Connect.Input Connect.EnterPassword;
                Connect.NewBlitzGateway conn], inr (Some conn))
         else ([Connect.Input Connect.EnterPassword;
                Connect.NewBlitzGateway conn;
                Connect.LoggingError "Could not connect, check your settings"],
               inr None).
Proof.
  intros Hdir Hisdir Hmay Hweb Hkept Henv Hint.
  destruct (StoreFacts.store_given w user group host port secure web_host
              config_path dir Hdir Hisdir Hmay Hweb Hkept) as [t Hstore].
  exists t, (Connect.with_config w dir
               (inr (Connect.stored user group host port secure))).
  split; [exact Hstore | ]. clear Hstore.
  set (w' := Connect.with_config w dir
               (inr (Connect.stored user group host port secure))).
  set (file := Some (Connect.stored user group host port secure)).
  assert (Hnone : forall key,
            In key ["OMERO_USER"; "OMERO_PASS"; "OMERO_GROUP"; "OMERO_HOST";
                    "OMERO_PORT"; "OMERO_SECURE"]%string ->
            forall A (some : string -> A) (default : A),
              Connect.environ_get w' key some default = default).
  { intros key Hkey A some default. unfold Connect.environ_get.
    change (Connect.environ w' key) with (Connect.environ w key).
    rewrite (Henv key Hkey). reflexivity. }
  assert (Huser : Connect.from_settings w' file "OMERO_USER" None = Some user).
  { unfold Connect.from_settings. rewrite Hnone by (cbn; tauto). reflexivity. }
  assert (Hgroup : Connect.from_settings w' file "OMERO_GROUP" None
                   = Some group).
  { unfold Connect.from_settings. rewrite Hnone by (cbn; tauto). reflexivity. }
  assert (Hhost : Connect.from_settings w' file "OMERO_HOST" None = Some host).
  { unfold Connect.from_settings. rewrite Hnone by (cbn; tauto). reflexivity. }
  assert (Hsec : forall options,
            Connect.lower_in (Connect.str_bool secure) options
            = existsb (String.eqb (if secure then "true" else "false"))
                      options).
  { intros options. destruct secure; reflexivity. }
  intros conn. unfold Connect.connect.
  cbn [Connect.truthy andb].
  rewrite (ConnectFacts.directory_section w' config_path dir Hdir).
  assert (Hfile : Connect.read_config w' dir = Connect.cret file).
  { unfold Connect.read_config, w'.
    rewrite StoreFacts.config_file_with_config. reflexivity. }
  rewrite Hfile, ConnectFacts.cbind_cret.
  rewrite Huser, Hgroup, Hhost.
  rewrite !(Hnone "OMERO_PASS"%string) by (cbn; tauto).
  rewrite !(Hnone "OMERO_PORT"%string) by (cbn; tauto).
  rewrite !(Hnone "OMERO_SECURE"%string) by (cbn; tauto).
  cbn [Connect.or_input]. rewrite ConnectFacts.cbind_cret.
  rewrite ConnectFacts.cbind_input. rewrite !ConnectFacts.cbind_cret.
  change (Connect.config_get file "OMERO_PORT" Some (Some "None"%string))
    with (Some (Groups.str_int port)).
  change (Connect.config_get file "OMERO_SECURE" Some (Some "None"%string))
    with (Some (Connect.str_bool secure)).
  change (Connect.has_options file) with true. cbv iota.
  cbn [Connect.str_truthy]. rewrite StoreFacts.str_int_not_empty. cbn [negb].
  unfold Connect.to_int.
  change (Connect.int w' (Groups.str_int port))
    with (Connect.int w (Groups.str_int port)).
  rewrite Hint, !ConnectFacts.cbind_cret.
  assert (Hnot_empty : String.eqb (Connect.str_bool secure) "" = false)
    by (destruct secure; reflexivity).
  rewrite Hnot_empty. cbn [negb]. rewrite !Hsec.
  change (Connect.answer w' Connect.EnterPassword)
    with (Connect.answer w Connect.EnterPassword).
  change (Connect.connects w') with (Connect.connects w).
  destruct secure; cbn [existsb String.eqb Ascii.eqb Bool.eqb orb];
    rewrite ConnectFacts.cbind_cret; fold conn;
    destruct (Connect.connects w conn); reflexivity.
Qed.

Lemma stored_parameters_connect_witness :
  exists t w',
    Connect.store_connection_params Connect.careful_world
      (Some "jaxl"%string) (Some ""%string) (Some "omero.example.org"%string)
      (Some 4064) (Some true) (PyStr "https://omero.example.org") PyNone
    = (t, inr w')
    /\ Connect.connect w' None None None None None PyNone PyNone
       = (let conn :=
            {| Connect.username := "jaxl";
               Connect.passwd := "secret";
               Connect.group := None;
               Connect.host := "omero.example.org";
               Connect.port := 4064;
               Connect.secure := PyBool true |} in
          ([Connect.Input Connect.EnterPassword; Connect.NewBlitzGateway conn],
           inr (Some conn))).
Proof.
  apply (stored_parameters_connect Connect.careful_world "jaxl" ""
           "omero.example.org" 4064 true (PyStr "https://omero.example.org")
           PyNone None).
  - exact I.
  - reflexivity.
  - left. reflexivity.
  - exact I.
  - split; [reflexivity | ]. split; [ | reflexivity].
    intros s [= <-]. reflexivity.
  - intros key _. reflexivity.
  - reflexivity.
Defined.

(** X16. A [web_host] that is neither a Boolean nor a string, such as the
    [None] its annotation allows, makes [store_connection_params] fail
    with [UnboundLocalError] on [web_host_str], after the parameters have
    been taken and before anything is written. *)
Theorem web_host_of_other_type_unbound
    (w : Connect.world) (user group host : string) (port : Z) (secure : bool)
    (web_host config_path : pyval) (dir : option string) :
  Connect.directory config_path dir ->
  Connect.is_dir w dir = true ->
  Connect.may_write w dir ->
  Connect.set_section w (Connect.stored user group host port secure) = None ->
  ~ Connect.bool_or_str web_host ->
  let run := Connect.store_connection_params w (Some user) (Some group)
               (Some host) (Some port) (Some secure) web_host config_path in
  snd run = inl (UnboundLocalError "web_host_str")
  /\ Connect.prompts_only (fst run).
Proof.
  intros Hdir Hisdir Hmay Hset Hweb run. subst run.
  unfold Connect.store_connection_params.
  rewrite (StoreFacts.directory_path config_path dir Hdir).
  rewrite ConnectFacts.cbind_cret, Hisdir. cbn [negb].
  assert (Hgo : exists t0,
            Connect.prompts_only t0
            /\ match Connect.config_file w dir with
               | Some _ =>
                   Connect.cbind (Connect.input w Connect.Overwrite)
                     (fun resp =>
                        Connect.cret (Connect.lower_in resp ["yes"; "y"]%string))
               | None => Connect.cret true
               end = (t0, inr true)).
  { destruct (Connect.config_file w dir) as [o | ] eqn:Hfile.
    - destruct Hmay as [Hmay | Hmay]; [congruence | ].
      exists [Connect.Input Connect.Overwrite].
      split; [apply ConnectSteps.prompts_only_input | ].
      rewrite ConnectFacts.cbind_input.
      cbn [fst snd Connect.cret]. rewrite Hmay. reflexivity.
    - exists []. split; [apply ConnectSteps.prompts_only_nil | reflexivity]. }
  destruct Hgo as [t0 [Ht0 ->]].
  cbn [Connect.cbind negb Connect.or_input]. rewrite !ConnectFacts.cbind_cret.
  unfold Connect.stored in Hset.
  destruct web_host as [ | [ | ] | n | s | k items | ];
    try (exfalso; apply Hweb; exact I);
    rewrite !ConnectFacts.cbind_cret; unfold Connect.assign; rewrite Hset;
    rewrite !ConnectFacts.cbind_cret;
    cbn [Connect.cbind fst snd];
    rewrite app_nil_r; (split; [reflexivity | exact Ht0]).
Qed.

Lemma web_host_of_other_type_unbound_witness :
  let run := Connect.store_connection_params Connect.blank_world
               (Some "jaxl"%string) (Some ""%string)
               (Some "omero.example.org"%string) (Some 4064) (Some true)
               PyNone PyNone in
  snd run = inl (UnboundLocalError "web_host_str")
  /\ Connect.prompts_only (fst run).
Proof.
  apply (web_host_of_other_type_unbound Connect.blank_world "jaxl" ""
           "omero.example.org" 4064 true PyNone PyNone None).
  - exact I.
  - reflexivity.
  - left. reflexivity.
  - reflexivity.
  - intros H. exact H.
Defined.
